(** * Suggestion lifecycle and vote aggregation of the bot (main.py)

    A shallow embedding of the suggestions subsystem of [main.py]: the
    SQLite tables, the accessor functions over them, and the interaction
    handlers ([SuggestionModal.on_submit], the two vote callbacks of
    [SuggestionView], the [approve] and [reject] commands and [on_ready]).

    - Python integers are [Z], text columns are [string], a nullable column
      is an [option].
    - A table is the list of its rows in insertion order; a PRIMARY KEY is
      enforced where the source relies on SQLite to enforce it, namely at
      INSERT time.
    - The Python dict built by [get_votes] is a [gmap string nat].
    - Handlers run in a small state-and-exception monad over the database
      and the trace of calls made to the chat platform.  The outcome of the
      calls that publish, fetch, edit or acknowledge (each may raise) is
      supplied by the interaction; [bot.add_view] is recorded and returns.
    - Text is held in its UTF-8 encoding; where the source counts or cuts
      characters, the model counts or cuts code points. *)

From Stdlib Require Import ZArith String Ascii List Lia.
From stdpp Require Import base option list strings gmap.

Local Open Scope string_scope.
Local Open Scope Z_scope.

(** ** Persisted schema *)

(** Row of [suggestion_guild_settings]. *)
Record SettingsRow := {
  gs_guild_id : Z;
  gs_suggestion_channel_id : option Z;
  gs_reviewer_role_id : option Z;
  gs_blocked_role_id : option Z
}.

(** Row of [suggestions]; the comment gives the tuple index used by the
    handlers ([suggestion[1]], [suggestion[10]], ...). *)
Record SuggestionRow := {
  s_suggestion_id : string;          (* 0 *)
  s_guild_id : option Z;             (* 1 *)
  s_user_id : Z;                     (* 2 *)
  s_message_id : Z;                  (* 3 *)
  s_thread_id : option Z;            (* 4 *)
  s_title : string;                  (* 5 *)
  s_description : string;            (* 6 *)
  s_pros : string;                   (* 7 *)
  s_cons : string;                   (* 8 *)
  s_image_url : option string;       (* 9 *)
  s_status : string;                 (* 10 *)
  s_created_at : string;             (* 11 *)
  s_decision_reason : option string; (* 12 *)
  s_decided_anonymously : Z          (* 13 *)
}.

(** Row of [votes]. *)
Record VoteRow := {
  v_suggestion_id : string;
  v_user_id : Z;
  v_vote_type : string
}.

Record DB := {
  suggestion_guild_settings : list SettingsRow;
  suggestions : list SuggestionRow;
  votes : list VoteRow
}.

(** A database file on which only [init_suggestions_db] has run. *)
Definition empty_db : DB :=
  {| suggestion_guild_settings := []; suggestions := []; votes := [] |}.

Definition set_settings (t : list SettingsRow) (d : DB) : DB :=
  {| suggestion_guild_settings := t; suggestions := suggestions d; votes := votes d |}.
Definition set_suggestions (t : list SuggestionRow) (d : DB) : DB :=
  {| suggestion_guild_settings := suggestion_guild_settings d; suggestions := t; votes := votes d |}.
Definition set_votes (t : list VoteRow) (d : DB) : DB :=
  {| suggestion_guild_settings := suggestion_guild_settings d; suggestions := suggestions d; votes := t |}.

(** Python truthiness of a nullable integer ([not settings[0]]): NULL and 0
    are false. *)
Definition truthy_id (o : option Z) : bool :=
  match o with
  | Some z => negb (z =? 0)
  | None => false
  end.

(** Python truthiness of an optional text ([if reason:]). *)
Definition truthy_text (o : option string) : bool :=
  match o with
  | Some s => negb (String.eqb s "")
  | None => false
  end.

(** ** Exceptions and results *)

Inductive exn :=
| IntegrityError   (* sqlite3.IntegrityError *)
| Forbidden        (* discord.Forbidden *)
| NotFound         (* discord.NotFound *)
| HTTPException    (* any other discord.HTTPException *)
| IndexError.      (* embeds[0] on a message without embeds *)

Inductive result (A : Type) :=
| Ok (a : A)
| Raised (e : exn).
Arguments Ok {A} a.
Arguments Raised {A} e.

(** ** Accessors of the suggestions database *)

(** [string.ascii_lowercase + string.digits] *)
Definition alphabet : string := "abcdefghijklmnopqrstuvwxyz0123456789".

(** [secrets.choice(seq)] is [seq[randbelow(len(seq))]]; [r] is the raw
    draw of the system source, reduced into range. *)
Definition choice (seq : string) (r : nat) : ascii :=
  match String.get (r mod String.length seq)%nat seq with
  | Some c => c
  | None => "000"%char
  end.

(** [''.join(secrets.choice(alphabet) for _ in range(8))]; [rng k] is the
    k-th draw. *)
Definition generate_suggestion_id (rng : nat -> nat) : string :=
  string_of_list_ascii (List.map (fun k => choice alphabet (rng k)) (seq 0 8)).

(** [SELECT ... FROM suggestion_guild_settings WHERE guild_id = ?] then
    [fetchone]; a NULL parameter matches no row. *)
Definition get_guild_settings (guild_id : option Z) (d : DB) : option SettingsRow :=
  match guild_id with
  | Some g => List.find (fun r => gs_guild_id r =? g) (suggestion_guild_settings d)
  | None => None
  end.

(** [INSERT ... ON CONFLICT(guild_id) DO UPDATE SET col = ?]: update the
    row of the guild when there is one, else append [fresh]. *)
Definition upsert_settings (g : Z) (fresh : SettingsRow)
    (upd : SettingsRow -> SettingsRow) (t : list SettingsRow) : list SettingsRow :=
  if existsb (fun r => gs_guild_id r =? g) t
  then List.map (fun r => if gs_guild_id r =? g then upd r else r) t
  else t ++ [fresh].

Definition set_suggestion_channel (guild_id channel_id : Z) (d : DB) : DB :=
  set_settings
    (upsert_settings guild_id
       {| gs_guild_id := guild_id; gs_suggestion_channel_id := Some channel_id;
          gs_reviewer_role_id := None; gs_blocked_role_id := None |}
       (fun r => {| gs_guild_id := gs_guild_id r;
                    gs_suggestion_channel_id := Some channel_id;
                    gs_reviewer_role_id := gs_reviewer_role_id r;
                    gs_blocked_role_id := gs_blocked_role_id r |})
       (suggestion_guild_settings d)) d.

Definition set_reviewer_role (guild_id role_id : Z) (d : DB) : DB :=
  set_settings
    (upsert_settings guild_id
       {| gs_guild_id := guild_id; gs_suggestion_channel_id := None;
          gs_reviewer_role_id := Some role_id; gs_blocked_role_id := None |}
       (fun r => {| gs_guild_id := gs_guild_id r;
                    gs_suggestion_channel_id := gs_suggestion_channel_id r;
                    gs_reviewer_role_id := Some role_id;
                    gs_blocked_role_id := gs_blocked_role_id r |})
       (suggestion_guild_settings d)) d.

Definition set_blocked_role (guild_id role_id : Z) (d : DB) : DB :=
  set_settings
    (upsert_settings guild_id
       {| gs_guild_id := guild_id; gs_suggestion_channel_id := None;
          gs_reviewer_role_id := None; gs_blocked_role_id := Some role_id |}
       (fun r => {| gs_guild_id := gs_guild_id r;
                    gs_suggestion_channel_id := gs_suggestion_channel_id r;
                    gs_reviewer_role_id := gs_reviewer_role_id r;
                    gs_blocked_role_id := Some role_id |})
       (suggestion_guild_settings d)) d.

(** [SELECT * FROM suggestions WHERE suggestion_id = ?] then [fetchone]. *)
Definition get_suggestion (suggestion_id : string) (d : DB) : option SuggestionRow :=
  List.find (fun r => String.eqb (s_suggestion_id r) suggestion_id) (suggestions d).

(** [INSERT INTO suggestions VALUES (...)] with status ['pending'], no
    decision reason and flag 0.  The PRIMARY KEY on [suggestion_id] makes
    the insert raise [IntegrityError], leaving the table as it was, when the
    identifier is taken. *)
Definition save_suggestion (suggestion_id : string) (guild_id : option Z)
    (user_id message_id : Z)
    (thread_id : option Z) (title description pros cons : string)
    (image_url : option string) (created_at : string) (d : DB) : result unit * DB :=
  match get_suggestion suggestion_id d with
  | Some _ => (Raised IntegrityError, d)
  | None =>
      (Ok tt,
       set_suggestions
         (suggestions d ++
          [{| s_suggestion_id := suggestion_id; s_guild_id := guild_id;
              s_user_id := user_id; s_message_id := message_id;
              s_thread_id := thread_id; s_title := title;
              s_description := description; s_pros := pros; s_cons := cons;
              s_image_url := image_url; s_status := "pending";
              s_created_at := created_at; s_decision_reason := None;
              s_decided_anonymously := 0 |}]) d)
  end.

(** The row after [UPDATE suggestions SET status = ?, decision_reason = ?,
    decided_anonymously = ?]. *)
Definition decided (status : string) (reason : option string) (anonymous : bool)
    (r : SuggestionRow) : SuggestionRow :=
  {| s_suggestion_id := s_suggestion_id r; s_guild_id := s_guild_id r;
     s_user_id := s_user_id r; s_message_id := s_message_id r;
     s_thread_id := s_thread_id r; s_title := s_title r;
     s_description := s_description r; s_pros := s_pros r; s_cons := s_cons r;
     s_image_url := s_image_url r; s_status := status;
     s_created_at := s_created_at r; s_decision_reason := reason;
     s_decided_anonymously := if anonymous then 1 else 0 |}.

(** [UPDATE suggestions SET ... WHERE suggestion_id = ?]: no condition on
    the current status. *)
Definition update_suggestion_status (suggestion_id status : string)
    (reason : option string) (anonymous : bool) (d : DB) : DB :=
  set_suggestions
    (List.map (fun r => if String.eqb (s_suggestion_id r) suggestion_id
                        then decided status reason anonymous r else r)
       (suggestions d)) d.

(** The WHERE clause [suggestion_id = ? AND user_id = ?] on [votes]. *)
Definition vote_of (suggestion_id : string) (user_id : Z) (r : VoteRow) : bool :=
  String.eqb (v_suggestion_id r) suggestion_id && (v_user_id r =? user_id).

(** [INSERT INTO votes VALUES (?, ?, ?)]; on a PRIMARY KEY violation the
    [IntegrityError] is caught and [False] returned. *)
Definition add_vote (suggestion_id : string) (user_id : Z) (vote_type : string)
    (d : DB) : bool * DB :=
  if existsb (vote_of suggestion_id user_id) (votes d)
  then (false, d)
  else (true,
        set_votes (votes d ++ [{| v_suggestion_id := suggestion_id;
                                  v_user_id := user_id;
                                  v_vote_type := vote_type |}]) d).

(** [DELETE FROM votes WHERE suggestion_id = ? AND user_id = ?] *)
Definition remove_vote (suggestion_id : string) (user_id : Z) (d : DB) : DB :=
  set_votes (List.filter (fun r => negb (vote_of suggestion_id user_id r)) (votes d)) d.

(** [SELECT vote_type FROM votes WHERE ... ] then [fetchone]. *)
Definition get_user_vote (suggestion_id : string) (user_id : Z) (d : DB) : option string :=
  match List.find (vote_of suggestion_id user_id) (votes d) with
  | Some r => Some (v_vote_type r)
  | None => None
  end.

(** One more row of type [t] in the result of a [GROUP BY vote_type]. *)
Fixpoint bump (t : string) (groups : list (string * nat)) : list (string * nat) :=
  match groups with
  | [] => [(t, 1%nat)]
  | (t', n) :: rest =>
      if String.eqb t' t then (t', S n) :: rest else (t', n) :: bump t rest
  end.

(** [SELECT vote_type, COUNT( * ) FROM votes WHERE suggestion_id = ?
    GROUP BY vote_type]: one pair per vote type that occurs. *)
Definition vote_groups (suggestion_id : string) (d : DB) : list (string * nat) :=
  fold_right (fun r acc => bump (v_vote_type r) acc) []
    (List.filter (fun r => String.eqb (v_suggestion_id r) suggestion_id) (votes d)).

(** The dict [{'upvote': 0, 'downvote': 0}] overwritten by
    [votes[vote_type] = count] for each group, in order. *)
Definition get_votes (suggestion_id : string) (d : DB) : gmap string nat :=
  fold_left (fun (votes : gmap string nat) (g : string * nat) => <[g.1 := g.2]> votes)
    (vote_groups suggestion_id d)
    (<["downvote" := 0%nat]> (<["upvote" := 0%nat]> ∅)).

(** ** The chat platform as seen by the handlers *)

Inductive color := DefaultColor | Blue | Green | Red.

(** The text of an embed field.  The two f-strings of the source are kept
    structured: [Tally up down] is
    [f'Upvotes: {up} ✅\nDownvotes: {down} ❌'], and [DecisionText by actor
    reason] is [f'{by}{actor}'] followed by [f'\nReason: {reason}'] when
    there is a reason, where the actor [None] is "Anonymous Reviewer" and
    [Some u] is the mention of user [u]. *)
Inductive field_value :=
| Text (s : string)
| Tally (up down : nat)
| DecisionText (by_ : string) (actor : option Z) (reason : option string).

Record EmbedField := { f_name : string; f_value : field_value }.

Record Embed := {
  e_title : string;
  e_color : color;
  e_author : Z;
  e_fields : list EmbedField;
  e_footer : Z * string;          (* f'User ID: {..} | Suggestion ID: {..}' *)
  e_image : option string
}.

(** The ephemeral messages passed to [interaction.response.send_message]. *)
Inductive reply :=
| ChannelNotSetUp                        (* '❌ Suggestion channel not set up. Contact an admin.' *)
| ChannelNotFound                        (* '❌ Suggestion channel not found. Contact an admin.' *)
| MissingPermissions (l : list string)   (* '❌ Bot is missing required permissions in ...' *)
| SuggestionSubmitted                    (* '✅ Suggestion submitted!' *)
| LacksPermissions                       (* '❌ Bot lacks permissions to send messages or create threads.' *)
| ErrorCreating (e : exn)                (* f'❌ Error creating suggestion: {str(e)}' *)
| SuggestionNotFound                     (* '❌ Suggestion not found.' *)
| VotingClosed                           (* '❌ Voting is closed for this suggestion.' *)
| UpvoteRemoved                          (* '🔄 Upvote removed.' *)
| ChangedToUpvote                        (* '✅ Changed to upvote.' *)
| Upvoted                                (* '✅ Upvoted!' *)
| DownvoteRemoved                        (* '🔄 Downvote removed.' *)
| ChangedToDownvote                      (* '❌ Changed to downvote.' *)
| Downvoted                              (* '❌ Downvoted!' *)
| ChannelSet (channel : Z)               (* f'✅ Suggestion channel set to {channel.mention}' *)
| ReviewerRoleSet (role : Z)             (* f'✅ Reviewer role set to {role.mention}' *)
| BlockedRoleSet (role : Z)              (* f'✅ Users with {role.mention} can no longer ...' *)
| ReviewerRoleNotSetUp                   (* '❌ Reviewer role not set up.' *)
| NeedReviewerRole                       (* '❌ You need the reviewer role to use this command.' *)
| SuggestionApproved (id : string)       (* f'✅ Suggestion `{suggestion_id}` approved!' *)
| SuggestionRejected (id : string).      (* f'❌ Suggestion `{suggestion_id}` rejected!' *)

(** The calls that reach the platform, in the order they are made. *)
Inductive event :=
| Respond (r : reply)                                   (* interaction.response.send_message *)
| ChannelSend (channel : Z) (e : Embed) (view : string) (* channel.send(embed=, view=SuggestionView(id)) *)
| CreateThread (message : Z) (name : string)            (* message.create_thread *)
| MessageEdit (message : Z) (e : Embed)                 (* message.edit(embed=embed) *)
| ThreadEdit (thread : Z)                               (* thread.edit(locked=True, archived=True) *)
| AddView (id : string).                                (* bot.add_view(SuggestionView(id)) *)

(** What [channel.guild.fetch_channel] returns. *)
Inductive fetched := NoChannel | AThread | OtherChannel.

(** An interaction, together with the answer the platform gives to each call
    a handler may make while serving it. *)
Record Interaction := {
  i_guild_id : option Z;                       (* interaction.guild_id *)
  i_user_id : Z;                               (* interaction.user.id *)
  i_user_roles : list Z;                       (* interaction.user.roles *)
  i_administrator : bool;                      (* interaction.user.guild_permissions.administrator *)
  i_guild_roles : list Z;                      (* roles interaction.guild.get_role finds *)
  i_guild_channels : list Z;                   (* channels interaction.guild.get_channel finds *)
  i_bot_perms : list string;                   (* channel.permissions_for(channel.guild.me) *)
  i_rng : nat -> nat;                          (* the draws of the system random source *)
  i_now : string;                              (* datetime.now(timezone.utc).isoformat() *)
  i_channel_send : result Z;                   (* channel.send: the id of the new message *)
  i_create_thread : result Z;                  (* message.create_thread: the id of the thread *)
  i_message_id : Z;                            (* interaction.message.id *)
  i_message_embeds : list Embed;               (* interaction.message.embeds *)
  i_message_edit : result unit;                (* message.edit *)
  i_fetch_message : Z -> result (list Embed);  (* channel.fetch_message(id): its embeds *)
  i_fetch_channel : Z -> result fetched;       (* channel.guild.fetch_channel(id) *)
  i_thread_edit : result unit;                 (* thread.edit *)
  i_respond : nat -> result unit               (* the k-th interaction.response.send_message *)
}.

(** [interaction.guild.get_role(id)] / [get_channel(id)]: the object, or
    [None]. *)
Definition get_role (i : Interaction) (id : option Z) : option Z :=
  match id with
  | Some r => if existsb (Z.eqb r) (i_guild_roles i) then Some r else None
  | None => None
  end.

Definition get_channel (i : Interaction) (id : option Z) : option Z :=
  match id with
  | Some c => if existsb (Z.eqb c) (i_guild_channels i) then Some c else None
  | None => None
  end.

(** [check_missing_permissions]: the required permissions the bot does not
    hold in the channel (the display form of the names is left out). *)
Definition check_missing_permissions (bot_perms required_perms : list string) : list string :=
  List.filter (fun perm_name => negb (existsb (String.eqb perm_name) bot_perms)) required_perms.

(** ** The handler monad: database, platform trace, exceptions *)

Record World := { w_db : DB; w_trace : list event }.

Definition M (A : Type) : Type := World -> result A * World.

Definition ret {A} (a : A) : M A := fun w => (Ok a, w).

Definition bind {A B} (m : M A) (k : A -> M B) : M B :=
  fun w => match m w with
           | (Ok a, w') => k a w'
           | (Raised e, w') => (Raised e, w')
           end.

Notation "x <- m ;; k" := (bind m (fun x => k))
  (at level 20, m at level 99, k at level 200, only parsing).
Notation "'do' m ;; k" := (bind m (fun _ => k))
  (at level 20, m at level 99, k at level 200, only parsing).

Definition raise {A} (e : exn) : M A := fun w => (Raised e, w).

(** A read of the database. *)
Definition query {A} (f : DB -> A) : M A := fun w => (Ok (f (w_db w)), w).

(** A committed write. *)
Definition exec (f : DB -> DB) : M unit :=
  fun w => (Ok tt, {| w_db := f (w_db w); w_trace := w_trace w |}).

(** A write that reports a value or raises. *)
Definition exec_ret {A} (f : DB -> A * DB) : M A :=
  fun w => (Ok (f (w_db w)).1, {| w_db := (f (w_db w)).2; w_trace := w_trace w |}).

Definition exec_raise {A} (f : DB -> result A * DB) : M A :=
  fun w => ((f (w_db w)).1, {| w_db := (f (w_db w)).2; w_trace := w_trace w |}).

(** A call to the platform: recorded, then it returns or raises as the
    platform decides. *)
Definition platform {A} (e : event) (outcome : result A) : M A :=
  fun w => (outcome, {| w_db := w_db w; w_trace := w_trace w ++ [e] |}).

(** A platform call without effect on the platform. *)
Definition fetch {A} (outcome : result A) : M A := fun w => (outcome, w).

(** The acknowledgments in a trace. *)
Fixpoint responses (t : list event) : list reply :=
  match t with
  | [] => []
  | Respond r :: rest => r :: responses rest
  | _ :: rest => responses rest
  end.

(** [await interaction.response.send_message(r, ephemeral=True)]: a
    platform call like the others; its outcome is the one the platform
    gives to this send, counted among the sends of the interaction so
    far. *)
Definition respond (i : Interaction) (r : reply) : M unit :=
  fun w => platform (Respond r) (i_respond i (length (responses (w_trace w)))) w.

(** [try: m except <catches>: h] *)
Definition try_except {A} (m : M A) (catches : exn -> bool) (h : exn -> M A) : M A :=
  fun w => match m w with
           | (Ok a, w') => (Ok a, w')
           | (Raised e, w') => if catches e then h e w' else (Raised e, w')
           end.

(** [for x in xs: body(x)] *)
Fixpoint for_each {A} (xs : list A) (body : A -> M unit) : M unit :=
  match xs with
  | [] => ret tt
  | x :: rest => do body x ;; for_each rest body
  end.

Definition run {A} (m : M A) (d : DB) : result A * World :=
  m {| w_db := d; w_trace := [] |}.

(** ** Rendering helpers *)

Definition with_fields (fields : list EmbedField) (e : Embed) : Embed :=
  {| e_title := e_title e; e_color := e_color e; e_author := e_author e;
     e_fields := fields; e_footer := e_footer e; e_image := e_image e |}.

Definition with_color (c : color) (e : Embed) : Embed :=
  {| e_title := e_title e; e_color := c; e_author := e_author e;
     e_fields := e_fields e; e_footer := e_footer e; e_image := e_image e |}.

(** [embed.add_field(name=, value=, inline=False)] *)
Definition add_field (name : string) (value : field_value) (e : Embed) : Embed :=
  with_fields (e_fields e ++ [{| f_name := name; f_value := value |}]) e.

(** The loop
    [for i, field in enumerate(embed.fields):
         if field.name in names: embed.set_field_at(i, ...); break]. *)
Fixpoint set_first_field (names : list string) (new : EmbedField)
    (fields : list EmbedField) : list EmbedField :=
  match fields with
  | [] => []
  | field :: rest =>
      if existsb (String.eqb (f_name field)) names
      then new :: rest
      else field :: set_first_field names new rest
  end.

(** The field written by both loops:
    [name=label, value=f'Upvotes: {votes["upvote"]} ✅\nDownvotes: {votes["downvote"]} ❌']. *)
Definition results_field (label : string) (votes : gmap string nat) : EmbedField :=
  {| f_name := label;
     f_value := Tally (votes !!! "upvote") (votes !!! "downvote") |}.

(** ** SuggestionModal.on_submit *)

Definition required_perms : list string :=
  ["send_messages"; "embed_links"; "create_public_threads"; "send_messages_in_threads"].

(** The embed of a new suggestion. *)
Definition suggestion_embed (i : Interaction) (suggestion_id : string)
    (title description pros cons : string) (image_url : option string) : Embed :=
  {| e_title := title;
     e_color := Blue;
     e_author := i_user_id i;
     e_fields :=
       [{| f_name := "Description"; f_value := Text description |}]
       ++ (if String.eqb pros "" then [] else [{| f_name := "Pros"; f_value := Text pros |}])
       ++ (if String.eqb cons "" then [] else [{| f_name := "Cons"; f_value := Text cons |}])
       ++ [{| f_name := "Results so far:"; f_value := Tally 0 0 |}];
     e_footer := (i_user_id i, suggestion_id);
     e_image := image_url |}.

(** A byte [10xxxxxx] continues the encoding of a code point. *)
Definition continuation (c : ascii) : bool :=
  match c with
  | Ascii _ _ _ _ _ _ b6 b7 => b7 && negb b6
  end.

(** [len(s)]: the number of code points of the text. *)
Fixpoint code_points (s : string) : nat :=
  match s with
  | EmptyString => 0
  | String c rest => (if continuation c then 0 else 1) + code_points rest
  end.

(** [s[:n]]: the first [n] code points of the text. *)
Fixpoint take_code_points (n : nat) (s : string) : string :=
  match s with
  | EmptyString => EmptyString
  | String c rest =>
      if continuation c then String c (take_code_points n rest)
      else match n with
           | O => EmptyString
           | S n' => String c (take_code_points n' rest)
           end
  end.

(** [title[:80] if len(title) > 80 else title] *)
Definition thread_name (title : string) : string :=
  if (80 <? code_points title)%nat then take_code_points 80 title else title.

Definition on_submit (i : Interaction) (title description pros cons : string)
    (image_url : option string) : M unit :=
  settings <- query (get_guild_settings (i_guild_id i)) ;;
  match settings with
  | None => respond i ChannelNotSetUp
  | Some settings =>
  if negb (truthy_id (gs_suggestion_channel_id settings)) then respond i ChannelNotSetUp
  else
  match get_channel i (gs_suggestion_channel_id settings) with
  | None => respond i ChannelNotFound
  | Some channel =>
  let missing_perms := check_missing_permissions (i_bot_perms i) required_perms in
  match missing_perms with
  | _ :: _ => respond i (MissingPermissions missing_perms)
  | [] =>
  let suggestion_id := generate_suggestion_id (i_rng i) in
  let embed := suggestion_embed i suggestion_id title description pros cons image_url in
  try_except
    (message <- platform (ChannelSend channel embed suggestion_id) (i_channel_send i) ;;
     thread <- platform (CreateThread message (thread_name title)) (i_create_thread i) ;;
     do exec_raise (save_suggestion suggestion_id (i_guild_id i) (i_user_id i)
                      message (Some thread) title description pros cons
                      image_url (i_now i)) ;;
     respond i SuggestionSubmitted)
    (fun _ => true)
    (fun e => match e with
              | Forbidden => respond i LacksPermissions
              | _ => respond i (ErrorCreating e)
              end)
  end end end.

(** ** SuggestionView *)

Definition update_embed (suggestion_id : string) (i : Interaction) : M unit :=
  suggestion <- query (get_suggestion suggestion_id) ;;
  match suggestion with
  | None => ret tt
  | Some suggestion =>
  votes <- query (get_votes suggestion_id) ;;
  match i_message_embeds i with
  | [] => raise IndexError
  | embed :: _ =>
  let status := s_status suggestion in
  let label := if String.eqb status "approved" || String.eqb status "rejected"
               then "Results:" else "Results so far:" in
  let embed := with_fields
                 (set_first_field ["Results so far:"; "Results:"]
                    (results_field label votes) (e_fields embed)) embed in
  let embed := if String.eqb status "approved" then with_color Green embed
               else if String.eqb status "rejected" then with_color Red embed
               else embed in
  try_except
    (platform (MessageEdit (i_message_id i) embed) (i_message_edit i))
    (fun e => match e with Forbidden => true | _ => false end)
    (fun _ => ret tt)
  end end.

(** The body shared, up to the names of the vote types and the replies, by
    the two button callbacks. *)
Definition handle_vote (mine other : string) (removed switched added : reply)
    (suggestion_id : string) (i : Interaction) : M unit :=
  suggestion <- query (get_suggestion suggestion_id) ;;
  match suggestion with
  | None => respond i SuggestionNotFound
  | Some suggestion =>
  if negb (bool_decide (s_guild_id suggestion = i_guild_id i)) then respond i SuggestionNotFound
  else if negb (String.eqb (s_status suggestion) "pending") then respond i VotingClosed
  else
  current_vote <- query (get_user_vote suggestion_id (i_user_id i)) ;;
  do (if bool_decide (current_vote = Some mine) then
        do exec (remove_vote suggestion_id (i_user_id i)) ;;
        respond i removed
      else if bool_decide (current_vote = Some other) then
        do exec (remove_vote suggestion_id (i_user_id i)) ;;
        _ <- exec_ret (add_vote suggestion_id (i_user_id i) mine) ;;
        respond i switched
      else
        _ <- exec_ret (add_vote suggestion_id (i_user_id i) mine) ;;
        respond i added) ;;
  update_embed suggestion_id i
  end.

Definition _handle_upvote : string -> Interaction -> M unit :=
  handle_vote "upvote" "downvote" UpvoteRemoved ChangedToUpvote Upvoted.

Definition _handle_downvote : string -> Interaction -> M unit :=
  handle_vote "downvote" "upvote" DownvoteRemoved ChangedToDownvote Downvoted.

(** ** Commands *)

(** The three configuration commands take a channel or a role of the guild
    they are invoked in, so they are served in a guild; outside one nothing
    is written here. *)
Definition setchannel (i : Interaction) (channel : Z) : M unit :=
  match i_guild_id i with
  | Some g => do exec (set_suggestion_channel g channel) ;; respond i (ChannelSet channel)
  | None => respond i (ChannelSet channel)
  end.

Definition setreviewerrole (i : Interaction) (role : Z) : M unit :=
  match i_guild_id i with
  | Some g => do exec (set_reviewer_role g role) ;; respond i (ReviewerRoleSet role)
  | None => respond i (ReviewerRoleSet role)
  end.

Definition setblockedrole (i : Interaction) (role : Z) : M unit :=
  match i_guild_id i with
  | Some g => do exec (set_blocked_role g role) ;; respond i (BlockedRoleSet role)
  | None => respond i (BlockedRoleSet role)
  end.

(** What differs between the bodies of [approve] and [reject]. *)
Record Verdict := {
  vd_status : string;          (* the status written *)
  vd_color : color;            (* embed.color *)
  vd_field : string;           (* name of the field added to the embed *)
  vd_by : string;              (* prefix of its text *)
  vd_reply : string -> reply   (* the final acknowledgment *)
}.

Definition approved : Verdict :=
  {| vd_status := "approved"; vd_color := Green; vd_field := "✅ Approved";
     vd_by := "Approved by: "; vd_reply := SuggestionApproved |}.

Definition rejected : Verdict :=
  {| vd_status := "rejected"; vd_color := Red; vd_field := "❌ Rejected";
     vd_by := "Rejected by: "; vd_reply := SuggestionRejected |}.

(** The [try] block of [approve] / [reject]: re-render the public message
    and lock the discussion thread.  ([get_votes] only reads, so it is
    queried before the loop rather than inside it.) *)
Definition render_decision (v : Verdict) (i : Interaction) (suggestion_id : string)
    (suggestion : SuggestionRow) (reason : option string) (anonymous : bool) : M unit :=
  embeds <- fetch (i_fetch_message i (s_message_id suggestion)) ;;
  match embeds with
  | [] => raise IndexError
  | embed :: _ =>
  let embed := with_color (vd_color v) embed in
  votes <- query (get_votes suggestion_id) ;;
  let embed := with_fields
                 (set_first_field ["Results so far:"]
                    (results_field "Results:" votes) (e_fields embed)) embed in
  let text := DecisionText (vd_by v)
                (if anonymous then None else Some (i_user_id i))
                (if truthy_text reason then reason else None) in
  let embed := add_field (vd_field v) text embed in
  do platform (MessageEdit (s_message_id suggestion) embed) (i_message_edit i) ;;
  match s_thread_id suggestion with
  | Some thread_id =>
      if thread_id =? 0 then ret tt
      else
        try_except
          (thread <- fetch (i_fetch_channel i thread_id) ;;
           match thread with
           | AThread => platform (ThreadEdit thread_id) (i_thread_edit i)
           | _ => ret tt
           end)
          (fun e => match e with NotFound | Forbidden => true | _ => false end)
          (fun _ => ret tt)
  | None => ret tt
  end
  end.

(** The body shared by the [approve] and [reject] commands. *)
Definition decide_command (v : Verdict) (i : Interaction) (suggestion_id : string)
    (reason : option string) (anonymous : bool) : M unit :=
  settings <- query (get_guild_settings (i_guild_id i)) ;;
  match settings with
  | None => respond i ReviewerRoleNotSetUp
  | Some settings =>
  if negb (truthy_id (gs_reviewer_role_id settings)) then respond i ReviewerRoleNotSetUp
  else
  let reviewer_role := get_role i (gs_reviewer_role_id settings) in
  if match reviewer_role with
     | None => true
     | Some role => negb (existsb (Z.eqb role) (i_user_roles i))
     end && negb (i_administrator i)
  then respond i NeedReviewerRole
  else
  suggestion <- query (get_suggestion suggestion_id) ;;
  match suggestion with
  | None => respond i SuggestionNotFound
  | Some suggestion =>
  if negb (bool_decide (s_guild_id suggestion = i_guild_id i)) then respond i SuggestionNotFound
  else
  do exec (update_suggestion_status suggestion_id (vd_status v) reason anonymous) ;;
  do match get_channel i (gs_suggestion_channel_id settings) with
     | None => ret tt
     | Some channel =>
         try_except
           (render_decision v i suggestion_id suggestion reason anonymous)
           (fun _ => true)
           (fun _ => ret tt)
     end ;;
  respond i (vd_reply v suggestion_id)
  end end.

Definition approve : Interaction -> string -> option string -> bool -> M unit :=
  decide_command approved.

Definition reject : Interaction -> string -> option string -> bool -> M unit :=
  decide_command rejected.

(** ** Startup *)

(** [CREATE TABLE IF NOT EXISTS] and the column migrations leave the three
    tables of an existing database as they are. *)
Definition init_suggestions_db (d : DB) : DB := d.

(** [SELECT suggestion_id FROM suggestions WHERE status = 'pending'] *)
Definition pending_ids (d : DB) : list string :=
  List.map s_suggestion_id
    (List.filter (fun r => String.eqb (s_status r) "pending") (suggestions d)).

(** [init_game_db] belongs to the game; [game_db] is its outcome. *)
Definition on_ready (game_db : result unit) : M unit :=
  do fetch game_db ;;
  do exec init_suggestions_db ;;
  rows <- query pending_ids ;;
  for_each rows (fun suggestion_id =>
    try_except (platform (AddView suggestion_id) (Ok tt)) (fun _ => true) (fun _ => ret tt)).

(** * Vocabulary of the properties *)

(** The button pressed: its custom id is [upvote:{id}] or [downvote:{id}]. *)
Inductive direction := Upvote | Downvote.

Definition vote_name (dir : direction) : string :=
  match dir with Upvote => "upvote" | Downvote => "downvote" end.

Definition opposite (dir : direction) : direction :=
  match dir with Upvote => Downvote | Downvote => Upvote end.

(** [castVote]: the callback bound to the button. *)
Definition castVote (dir : direction) : string -> Interaction -> M unit :=
  match dir with
  | Upvote => _handle_upvote
  | Downvote => _handle_downvote
  end.

Inductive action := Added | Removed | Switched.

(** The acknowledgment that names the action taken. *)
Definition ack (dir : direction) (a : action) : reply :=
  match dir, a with
  | Upvote, Added => Upvoted
  | Upvote, Removed => UpvoteRemoved
  | Upvote, Switched => ChangedToUpvote
  | Downvote, Added => Downvoted
  | Downvote, Removed => DownvoteRemoved
  | Downvote, Switched => ChangedToDownvote
  end.

(** Number of vote rows of type [t] for a suggestion. *)
Definition count_votes (t suggestion_id : string) (d : DB) : nat :=
  length (List.filter
            (fun r => String.eqb (v_suggestion_id r) suggestion_id
                      && String.eqb (v_vote_type r) t) (votes d)).

(** The vote rows of a suggestion. *)
Definition vote_rows (suggestion_id : string) (d : DB) : list VoteRow :=
  List.filter (fun r => String.eqb (v_suggestion_id r) suggestion_id) (votes d).

(** The reviewer gate of [approve] and [reject] lets the caller through: a
    reviewer role is configured, and the caller holds it or is an
    administrator. *)
Definition is_reviewer (i : Interaction) (d : DB) : bool :=
  match get_guild_settings (i_guild_id i) d with
  | Some settings =>
      truthy_id (gs_reviewer_role_id settings)
      && (match get_role i (gs_reviewer_role_id settings) with
          | Some role => existsb (Z.eqb role) (i_user_roles i)
          | None => false
          end || i_administrator i)
  | None => false
  end.

(** The guild has no destination channel: no settings row, or a NULL
    channel in it. *)
Definition no_destination_channel (guild : option Z) (d : DB) : Prop :=
  forall settings, get_guild_settings guild d = Some settings ->
                   gs_suggestion_channel_id settings = None.

(** The count recorded for type [t] in the result of the GROUP BY. *)
Fixpoint group_count (t : string) (groups : list (string * nat)) : option nat :=
  match groups with
  | [] => None
  | (t', n) :: rest => if String.eqb t' t then Some n else group_count t rest
  end.

(** ** The writes of the subsystem *)

(** The statements that write to the database: every handler changes the
    database through these accessors only, each of which commits on its
    own, so the states other handlers can observe - between any two
    suspension points of any interleaving - are those reached by sequences
    of them. *)
Inductive store_op :=
| SaveSuggestion (suggestion_id : string) (guild_id : option Z) (user_id message_id : Z)
    (thread_id : option Z) (title description pros cons : string)
    (image_url : option string) (created_at : string)
| UpdateSuggestionStatus (suggestion_id status : string) (reason : option string)
    (anonymous : bool)
| AddVote (suggestion_id : string) (user_id : Z) (vote_type : string)
| RemoveVote (suggestion_id : string) (user_id : Z)
| SetSuggestionChannel (guild_id channel_id : Z)
| SetReviewerRole (guild_id role_id : Z)
| SetBlockedRole (guild_id role_id : Z).

Definition apply_op (op : store_op) (d : DB) : DB :=
  match op with
  | SaveSuggestion id g u m t title description pros_ cons_ image created =>
      (save_suggestion id g u m t title description pros_ cons_ image created d).2
  | UpdateSuggestionStatus id status reason anonymous =>
      update_suggestion_status id status reason anonymous d
  | AddVote id u t => (add_vote id u t d).2
  | RemoveVote id u => remove_vote id u d
  | SetSuggestionChannel g c => set_suggestion_channel g c d
  | SetReviewerRole g r => set_reviewer_role g r d
  | SetBlockedRole g r => set_blocked_role g r d
  end.

(** [reaches d d']: [d'] results from [d] by a sequence of writes. *)
Inductive reaches (d : DB) : DB -> Prop :=
| reaches_refl : reaches d d
| reaches_step d' op : reaches d d' -> reaches d (apply_op op d').

(** The databases that can arise from a fresh file. *)
Definition reachable (d : DB) : Prop := reaches empty_db d.

(** A computation changes the database by writes only. *)
Definition writes_only {A} (m : M A) : Prop :=
  forall w, reaches (w_db w) (w_db (m w).2).

(** The PRIMARY KEY constraints, as properties of the tables. *)
Definition vote_key (r : VoteRow) : string * Z := (v_suggestion_id r, v_user_id r).

Definition votes_pk (d : DB) : Prop := NoDup (List.map vote_key (votes d)).

Definition suggestions_pk (d : DB) : Prop :=
  NoDup (List.map s_suggestion_id (suggestions d)).

(** ** The decision table of a vote *)

(** The row a vote in direction [dir] inserts. *)
Definition vote_row (dir : direction) (suggestion_id : string) (user_id : Z) : VoteRow :=
  {| v_suggestion_id := suggestion_id; v_user_id := user_id;
     v_vote_type := vote_name dir |}.

(** The vote rows of everyone else. *)
Definition other_votes (suggestion_id : string) (user_id : Z) (d : DB) : list VoteRow :=
  List.filter (fun r => negb (vote_of suggestion_id user_id r)) (votes d).

(** The action taken on a vote in direction [dir], and the database it
    leaves, by the voter's current vote.  (A current vote of a type other
    than the two the buttons insert takes the last branch of the callback,
    whose insert then hits the primary key.) *)
Definition toggled (dir : direction) (suggestion_id : string) (user_id : Z) (d : DB)
    : action * DB :=
  match get_user_vote suggestion_id user_id d with
  | None =>
      (Added, set_votes (votes d ++ [vote_row dir suggestion_id user_id]) d)
  | Some t =>
      if String.eqb t (vote_name dir) then
        (Removed, set_votes (other_votes suggestion_id user_id d) d)
      else if String.eqb t (vote_name (opposite dir)) then
        (Switched,
         set_votes (other_votes suggestion_id user_id d
                    ++ [vote_row dir suggestion_id user_id]) d)
      else (Added, d)
  end.


(** ** Outcomes of the commands *)

(** The platform calls of a computation leave the database alone and only
    extend the trace. *)
Definition platform_only {A} (m : M A) : Prop :=
  forall w, w_db (m w).2 = w_db w
            /\ exists events, w_trace (m w).2 = (w_trace w ++ events)%list.

(** The checks before publication pass: the guild has a destination
    channel, the channel exists, the bot holds the permissions it needs, and
    the platform accepts the message and the thread. *)
Definition publishes (i : Interaction) (d : DB) (channel message thread : Z) : Prop :=
  exists settings,
    get_guild_settings (i_guild_id i) d = Some settings
    /\ truthy_id (gs_suggestion_channel_id settings) = true
    /\ get_channel i (gs_suggestion_channel_id settings) = Some channel
    /\ check_missing_permissions (i_bot_perms i) required_perms = []
    /\ i_channel_send i = Ok message
    /\ i_create_thread i = Ok thread.

(** ** Sample data *)

(** Guild 1, with channel 10 for suggestions and reviewer role 20. *)
Definition sample_settings : SettingsRow :=
  {| gs_guild_id := 1; gs_suggestion_channel_id := Some 10;
     gs_reviewer_role_id := Some 20; gs_blocked_role_id := None |}.

(** A suggestion of user 100 in guild 1, published as message 500 with
    thread 600. *)
Definition sample_row (suggestion_id status : string) (reason : option string)
    (anonymous : Z) : SuggestionRow :=
  {| s_suggestion_id := suggestion_id; s_guild_id := Some 1; s_user_id := 100;
     s_message_id := 500; s_thread_id := Some 600;
     s_title := "Add a poll command"; s_description := "Polls in one command";
     s_pros := "Quick"; s_cons := "More buttons"; s_image_url := None;
     s_status := status; s_created_at := "2024-05-01T12:00:00+00:00";
     s_decision_reason := reason; s_decided_anonymously := anonymous |}.

Definition db_pending : DB :=
  {| suggestion_guild_settings := [sample_settings];
     suggestions := [sample_row "k3x9a2bq" "pending" None 0];
     votes := [] |}.

Definition db_decided : DB :=
  {| suggestion_guild_settings := [sample_settings];
     suggestions := [sample_row "k3x9a2bq" "approved" (Some "good idea") 0];
     votes := [{| v_suggestion_id := "k3x9a2bq"; v_user_id := 200;
                  v_vote_type := "upvote" |}] |}.

(** One pending and one approved suggestion. *)
Definition db_restart : DB :=
  {| suggestion_guild_settings := [sample_settings];
     suggestions := [sample_row "k3x9a2bq" "pending" None 0;
                     sample_row "p0m4z7cd" "approved" (Some "good idea") 0];
     votes := [] |}.

(** A suggestion whose identifier is the one the draws below produce. *)
Definition db_collide : DB :=
  {| suggestion_guild_settings := [sample_settings];
     suggestions := [sample_row "aaaaaaaa" "pending" None 0];
     votes := [] |}.

Definition sample_embed : Embed :=
  {| e_title := "Add a poll command"; e_color := Blue; e_author := 100;
     e_fields := [{| f_name := "Description"; f_value := Text "Polls in one command" |};
                  {| f_name := "Pros"; f_value := Text "Quick" |};
                  {| f_name := "Cons"; f_value := Text "More buttons" |};
                  {| f_name := "Results so far:"; f_value := Tally 0 0 |}];
     e_footer := (100, "k3x9a2bq");
     e_image := None |}.

(** A member of [guild] with the given roles, on a platform where every call
    succeeds; the first eight draws are 0, the later ones 1. *)
Definition member (guild user : Z) (roles : list Z) : Interaction :=
  {| i_guild_id := Some guild; i_user_id := user; i_user_roles := roles;
     i_administrator := false; i_guild_roles := [20]; i_guild_channels := [10];
     i_bot_perms := required_perms;
     i_rng := fun k => if (k <? 8)%nat then 0%nat else 1%nat;
     i_now := "2024-05-02T09:30:00+00:00";
     i_channel_send := Ok 501; i_create_thread := Ok 601;
     i_message_id := 500; i_message_embeds := [sample_embed];
     i_message_edit := Ok tt;
     i_fetch_message := fun _ => Ok [sample_embed];
     i_fetch_channel := fun _ => Ok AThread;
     i_thread_edit := Ok tt;
     i_respond := fun _ => Ok tt |}.

(** The same member when the public message is gone. *)
Definition member_message_gone (guild user : Z) (roles : list Z) : Interaction :=
  let i := member guild user roles in
  {| i_guild_id := i_guild_id i; i_user_id := i_user_id i; i_user_roles := i_user_roles i;
     i_administrator := i_administrator i; i_guild_roles := i_guild_roles i;
     i_guild_channels := i_guild_channels i; i_bot_perms := i_bot_perms i;
     i_rng := i_rng i; i_now := i_now i; i_channel_send := i_channel_send i;
     i_create_thread := i_create_thread i; i_message_id := i_message_id i;
     i_message_embeds := i_message_embeds i; i_message_edit := Raised NotFound;
     i_fetch_message := fun _ => Raised NotFound;
     i_fetch_channel := i_fetch_channel i; i_thread_edit := i_thread_edit i;
     i_respond := i_respond i |}.

(** * The rest of the module *)

(** ** The [suggest] command *)

(** A [discord.Attachment]: its [content_type] (which the platform may
    leave out) and its [url]. *)
Record Attachment := { content_type : option string; url : string }.

(** How [suggest] ends: one of its two refusals, the [AttributeError] of
    [None.startswith], or [send_modal(SuggestionModal(image_url=...))]. *)
Inductive suggest_outcome :=
| NotAllowed            (* '❌ You are not allowed to submit suggestions.' *)
| InvalidImage          (* '❌ Please attach a valid image file.' *)
| AttributeError
| SendModal (image_url : option string).

(** [suggest] only reads the database. *)
Definition suggest (i : Interaction) (image : option Attachment) (d : DB) : suggest_outcome :=
  let settings := get_guild_settings (i_guild_id i) d in
  if match settings with
     | Some settings =>
         truthy_id (gs_blocked_role_id settings)
         && match get_role i (gs_blocked_role_id settings) with
            | Some blocked_role => existsb (Z.eqb blocked_role) (i_user_roles i)
            | None => false
            end
     | None => false
     end
  then NotAllowed
  else
    match image with
    | Some image =>
        match content_type image with
        | None => AttributeError
        | Some t =>
            if negb (String.prefix "image/" t) then InvalidImage
            else SendModal (Some (url image))
        end
    | None => SendModal None
    end.

(** ** The dice of the game *)

(** [random.randint(a, b)]: [ValueError] ([None]) on an empty range, else
    the raw draw [r] reduced into [a..b]. *)
Definition randint (a b : Z) (r : nat) : option Z :=
  if a <=? b then Some (a + Z.of_nat r mod (b - a + 1)) else None.

(** [sum(random.randint(1, faces) for _ in range(n))], the k-th die using
    draw [first + k]. *)
Fixpoint roll_sum (rng : nat -> nat) (faces : Z) (first n : nat) : option Z :=
  match n with
  | O => Some 0
  | S n' =>
      match randint 1 faces (rng first) with
      | None => None
      | Some die =>
          match roll_sum rng faces (S first) n' with
          | None => None
          | Some rest => Some (die + rest)
          end
      end
  end.

(** [roll_dice_range(min_d, max_d, faces)]: the total and the number of
    dice; [range(n)] is empty for [n <= 0]. *)
Definition roll_dice_range (rng : nat -> nat) (min_d max_d faces : Z) : option (Z * Z) :=
  match randint min_d max_d (rng 0%nat) with
  | None => None
  | Some n =>
      match roll_sum rng faces 1 (Z.to_nat n) with
      | None => None
      | Some total => Some (total, n)
      end
  end.

(** ** Vocabulary of the further properties *)

(** Every vote row has one of the two types the buttons insert. *)
Definition button_votes (d : DB) : Prop :=
  Forall (fun r => v_vote_type r = "upvote" \/ v_vote_type r = "downvote") (votes d).

(** One settings row per guild. *)
Definition settings_pk (d : DB) : Prop :=
  NoDup (List.map gs_guild_id (suggestion_guild_settings d)).

(** The row [save_suggestion] inserts. *)
Definition new_row (suggestion_id : string) (guild_id : option Z) (user_id message_id : Z)
    (thread_id : option Z) (title description pros cons : string)
    (image_url : option string) (created_at : string) : SuggestionRow :=
  {| s_suggestion_id := suggestion_id; s_guild_id := guild_id; s_user_id := user_id;
     s_message_id := message_id; s_thread_id := thread_id; s_title := title;
     s_description := description; s_pros := pros; s_cons := cons;
     s_image_url := image_url; s_status := "pending"; s_created_at := created_at;
     s_decision_reason := None; s_decided_anonymously := 0 |}.

(** Number of vote rows of a suggestion. *)
Definition count_rows (suggestion_id : string) (d : DB) : nat :=
  length (vote_rows suggestion_id d).

(** The checks of [on_submit] before it publishes pass: the guild has a
    destination channel, the channel exists and the bot holds the
    permissions it needs there. *)
Definition channel_ready (i : Interaction) (d : DB) (channel : Z) : Prop :=
  exists settings,
    get_guild_settings (i_guild_id i) d = Some settings
    /\ truthy_id (gs_suggestion_channel_id settings) = true
    /\ get_channel i (gs_suggestion_channel_id settings) = Some channel
    /\ check_missing_permissions (i_bot_perms i) required_perms = [].

(** The reply of the [except] clauses of [on_submit]. *)
Definition submit_error (e : exn) : reply :=
  match e with
  | Forbidden => LacksPermissions
  | _ => ErrorCreating e
  end.

(** The member of the sample guild when the platform refuses the thread. *)
Definition member_no_thread (guild user : Z) (roles : list Z) : Interaction :=
  let i := member guild user roles in
  {| i_guild_id := i_guild_id i; i_user_id := i_user_id i; i_user_roles := i_user_roles i;
     i_administrator := i_administrator i; i_guild_roles := i_guild_roles i;
     i_guild_channels := i_guild_channels i; i_bot_perms := i_bot_perms i;
     i_rng := i_rng i; i_now := i_now i; i_channel_send := i_channel_send i;
     i_create_thread := Raised Forbidden; i_message_id := i_message_id i;
     i_message_embeds := i_message_embeds i; i_message_edit := i_message_edit i;
     i_fetch_message := i_fetch_message i;
     i_fetch_channel := i_fetch_channel i; i_thread_edit := i_thread_edit i;
     i_respond := i_respond i |}.


(** The handlers that serve an interaction: the modal, the two buttons and
    the commands. *)
Inductive interaction_handler : M unit -> Prop :=
| serve_on_submit i title description pros cons image_url :
    interaction_handler (on_submit i title description pros cons image_url)
| serve_castVote dir suggestion_id i :
    interaction_handler (castVote dir suggestion_id i)
| serve_approve i suggestion_id reason anonymous :
    interaction_handler (approve i suggestion_id reason anonymous)
| serve_reject i suggestion_id reason anonymous :
    interaction_handler (reject i suggestion_id reason anonymous)
| serve_setchannel i channel : interaction_handler (setchannel i channel)
| serve_setreviewerrole i role : interaction_handler (setreviewerrole i role)
| serve_setblockedrole i role : interaction_handler (setblockedrole i role).

(** ** What an edited embed shows *)



(** The member of the sample guild when the interaction has expired: every
    acknowledgment raises. *)
Definition member_no_ack (guild user : Z) (roles : list Z) : Interaction :=
  let i := member guild user roles in
  {| i_guild_id := i_guild_id i; i_user_id := i_user_id i; i_user_roles := i_user_roles i;
     i_administrator := i_administrator i; i_guild_roles := i_guild_roles i;
     i_guild_channels := i_guild_channels i; i_bot_perms := i_bot_perms i;
     i_rng := i_rng i; i_now := i_now i; i_channel_send := i_channel_send i;
     i_create_thread := i_create_thread i; i_message_id := i_message_id i;
     i_message_embeds := i_message_embeds i; i_message_edit := i_message_edit i;
     i_fetch_message := i_fetch_message i;
     i_fetch_channel := i_fetch_channel i; i_thread_edit := i_thread_edit i;
     i_respond := fun _ => Raised NotFound |}.

(** Titles outside ASCII: the two bytes of U+00E9, and titles made of that
    letter alone. *)
Definition e_acute : string := String "195" (String "169" EmptyString).

Definition accented_title (n : nat) : string := String.concat "" (repeat e_acute n).

(** * Properties *)

(** ** The tally *)

Lemma group_count_bump t t' groups :
  group_count t (bump t' groups) =
  if String.eqb t' t then Some (S (default 0%nat (group_count t groups)))
  else group_count t groups.
Proof.
  induction groups as [|[k n] rest IH]; simpl.
  - destruct (String.eqb_spec t' t); reflexivity.
  - destruct (String.eqb_spec k t') as [->|Hk]; simpl.
    + destruct (String.eqb_spec t' t); reflexivity.
    + rewrite IH. destruct (String.eqb_spec k t) as [->|Hkt];
        destruct (String.eqb_spec t' t); subst; try reflexivity; congruence.
Qed.

Lemma bump_keys t t' groups :
  t ∈ (bump t' groups).*1 <-> t = t' \/ t ∈ groups.*1.
Proof.
  induction groups as [|[k n] rest IH]; simpl.
  - rewrite list_elem_of_singleton, elem_of_nil. tauto.
  - destruct (String.eqb_spec k t') as [->|Hk]; simpl.
    + rewrite !elem_of_cons. tauto.
    + rewrite !elem_of_cons, IH. tauto.
Qed.

Lemma bump_NoDup t groups : NoDup groups.*1 -> NoDup (bump t groups).*1.
Proof.
  induction groups as [|[k n] rest IH]; simpl; intros Hnd.
  - apply NoDup_singleton.
  - apply NoDup_cons in Hnd as [Hk Hrest].
    destruct (String.eqb_spec k t) as [->|Hkt]; simpl.
    + apply NoDup_cons; auto.
    + apply NoDup_cons; split; [|auto].
      rewrite bump_keys. intros [->|?]; [congruence|contradiction].
Qed.

Lemma group_count_absent t groups : t ∉ groups.*1 -> group_count t groups = None.
Proof.
  induction groups as [|[k n] rest IH]; simpl; intros Hin; [reflexivity|].
  apply not_elem_of_cons in Hin as [Hne Hin].
  destruct (String.eqb_spec k t); [congruence|auto].
Qed.

(** Filling the dict from groups with distinct keys. *)
Lemma fill_lookup (groups : list (string * nat)) (acc : gmap string nat) t :
  NoDup groups.*1 ->
  fold_left (fun (votes : gmap string nat) (g : string * nat) => <[g.1 := g.2]> votes)
    groups acc !! t
  = match group_count t groups with Some n => Some n | None => acc !! t end.
Proof.
  revert acc. induction groups as [|[k n] rest IH]; simpl; intros acc Hnd; [reflexivity|].
  apply NoDup_cons in Hnd as [Hk Hrest]. rewrite IH by assumption.
  destruct (String.eqb_spec k t) as [->|Hkt].
  - rewrite (group_count_absent _ _ Hk). apply lookup_insert_eq.
  - destruct (group_count t rest); [reflexivity|]. by apply lookup_insert_ne.
Qed.

Lemma vote_groups_NoDup suggestion_id d : NoDup (vote_groups suggestion_id d).*1.
Proof.
  unfold vote_groups.
  induction (List.filter _ (votes d)) as [|r rows IH]; simpl.
  - apply NoDup_nil_2.
  - by apply bump_NoDup.
Qed.

Lemma vote_groups_count t suggestion_id d :
  default 0%nat (group_count t (vote_groups suggestion_id d)) = count_votes t suggestion_id d.
Proof.
  unfold vote_groups, count_votes.
  induction (votes d) as [|r rows IH]; simpl; [reflexivity|].
  destruct (String.eqb_spec (v_suggestion_id r) suggestion_id); simpl; [|exact IH].
  rewrite group_count_bump.
  destruct (String.eqb_spec (v_vote_type r) t); simpl; [by rewrite IH|exact IH].
Qed.

Lemma get_votes_lookup t suggestion_id d :
  t = "upvote" \/ t = "downvote" ->
  get_votes suggestion_id d !! t = Some (count_votes t suggestion_id d).
Proof.
  intros Ht. unfold get_votes.
  rewrite fill_lookup by apply vote_groups_NoDup.
  rewrite <- vote_groups_count.
  destruct (group_count t (vote_groups suggestion_id d)); [reflexivity|].
  destruct Ht as [-> | ->]; reflexivity.
Qed.

Lemma get_votes_total t suggestion_id d :
  t = "upvote" \/ t = "downvote" ->
  get_votes suggestion_id d !!! t = count_votes t suggestion_id d.
Proof.
  intros Ht. unfold lookup_total, map_lookup_total.
  by rewrite (get_votes_lookup _ _ _ Ht).
Qed.

(** C4: [get_votes] is total and reports, under ['upvote'] and
    ['downvote'], the number of vote rows of that type for the suggestion,
    whatever the database holds; for a suggestion without vote rows it is
    the dict [{'upvote': 0, 'downvote': 0}]. *)
Theorem get_votes_counts_rows (suggestion_id : string) (d : DB) :
  get_votes suggestion_id d !! "upvote" = Some (count_votes "upvote" suggestion_id d)
  /\ get_votes suggestion_id d !! "downvote" = Some (count_votes "downvote" suggestion_id d)
  /\ (vote_rows suggestion_id d = [] ->
      get_votes suggestion_id d = <["downvote" := 0%nat]> (<["upvote" := 0%nat]> ∅)).
Proof.
  split; [|split].
  - apply get_votes_lookup; auto.
  - apply get_votes_lookup; auto.
  - unfold vote_rows, get_votes, vote_groups. intros ->. reflexivity.
Qed.

(** ** Running handlers *)

Ltac unfold_monad :=
  unfold run, respond, bind, ret, raise, query, exec, exec_ret, exec_raise,
    platform, fetch, try_except in *; simpl in *.

Lemma bool_decide_refl {A} `{EqDecision A} (x : A) : bool_decide (x = x) = true.
Proof. by apply bool_decide_eq_true. Qed.

(** The guards of the vote callbacks. *)
Lemma handle_vote_guards mine other removed switched added suggestion_id i d :
  run (handle_vote mine other removed switched added suggestion_id i) d =
  match get_suggestion suggestion_id d with
  | None => (i_respond i 0%nat, {| w_db := d; w_trace := [Respond SuggestionNotFound] |})
  | Some row =>
      if negb (bool_decide (s_guild_id row = i_guild_id i))
      then (i_respond i 0%nat, {| w_db := d; w_trace := [Respond SuggestionNotFound] |})
      else if negb (String.eqb (s_status row) "pending")
      then (i_respond i 0%nat, {| w_db := d; w_trace := [Respond VotingClosed] |})
      else run (handle_vote mine other removed switched added suggestion_id i) d
  end.
Proof.
  unfold handle_vote. unfold_monad.
  destruct (get_suggestion suggestion_id d) as [row|]; [|reflexivity].
  destruct (bool_decide (s_guild_id row = i_guild_id i)); simpl; [|reflexivity].
  destruct (String.eqb (s_status row) "pending"); reflexivity.
Qed.

Lemma castVote_unfold dir :
  castVote dir =
  handle_vote (vote_name dir) (vote_name (opposite dir))
    (ack dir Removed) (ack dir Switched) (ack dir Added).
Proof. destruct dir; reflexivity. Qed.

(** C3: a vote on a suggestion whose status is not ['pending'] leaves the
    database as it was - no vote row is added, removed or changed - and,
    the suggestion being one of the guild the button is pressed in, the
    only thing the callback does is to answer that voting is closed (it
    returns or raises as that send does). *)
Theorem cast_vote_closed (dir : direction) (d : DB) (suggestion_id : string)
    (i : Interaction) (row : SuggestionRow) :
  get_suggestion suggestion_id d = Some row ->
  s_status row <> "pending" ->
  w_db (run (castVote dir suggestion_id i) d).2 = d
  /\ (s_guild_id row = i_guild_id i ->
      run (castVote dir suggestion_id i) d
      = (i_respond i 0%nat, {| w_db := d; w_trace := [Respond VotingClosed] |})).
Proof.
  intros Hget Hstatus. rewrite castVote_unfold, handle_vote_guards, Hget.
  apply String.eqb_neq in Hstatus. rewrite Hstatus. simpl.
  split.
  - destruct (bool_decide _); reflexivity.
  - intros ->. by rewrite bool_decide_refl.
Qed.

(** ** Writes and the primary keys *)

Lemma reaches_trans d1 d2 d3 : reaches d1 d2 -> reaches d2 d3 -> reaches d1 d3.
Proof. intros H12 H23. induction H23; [assumption|by constructor]. Qed.

Lemma reaches_op op d : reaches d (apply_op op d).
Proof. constructor. constructor. Qed.

Lemma vote_of_key suggestion_id user_id r :
  vote_of suggestion_id user_id r = true <-> vote_key r = (suggestion_id, user_id).
Proof.
  unfold vote_of, vote_key. rewrite andb_true_iff, String.eqb_eq, Z.eqb_eq.
  split; [intros [-> ->]; reflexivity | intros [= -> ->]; auto].
Qed.

Lemma existsb_vote_of suggestion_id user_id rows :
  existsb (vote_of suggestion_id user_id) rows = false ->
  (suggestion_id, user_id) ∉ List.map vote_key rows.
Proof.
  intros Hex Hin. apply list_elem_of_In, in_map_iff in Hin as (r & Hkey & Hr).
  assert (existsb (vote_of suggestion_id user_id) rows = true); [|congruence].
  apply existsb_exists. exists r. split; [assumption|]. by apply vote_of_key.
Qed.

Lemma NoDup_map_filter {A B} (f : A -> B) (p : A -> bool) (l : list A) :
  NoDup (List.map f l) -> NoDup (List.map f (List.filter p l)).
Proof.
  induction l as [|x l IH]; simpl; intros Hnd; [assumption|].
  apply NoDup_cons in Hnd as [Hx Hl].
  destruct (p x); simpl; [|auto].
  apply NoDup_cons. split; [|auto].
  intros Hin. apply Hx.
  apply list_elem_of_In, in_map_iff in Hin as (y & Hy & Hin).
  apply filter_In in Hin as [Hin _].
  apply list_elem_of_In, in_map_iff. eauto.
Qed.

Lemma NoDup_snoc {A} (l : list A) (x : A) : NoDup l -> x ∉ l -> NoDup (l ++ [x]).
Proof.
  intros Hl Hx. apply NoDup_app. split; [assumption|]. split.
  - intros y Hy Hy'. apply list_elem_of_singleton in Hy'. by subst.
  - apply NoDup_singleton.
Qed.

Lemma votes_pk_op op d : votes_pk d -> votes_pk (apply_op op d).
Proof.
  unfold votes_pk. intros Hpk. destruct op; simpl; try assumption.
  - unfold save_suggestion. destruct (get_suggestion _ d); assumption.
  - unfold add_vote.
    destruct (existsb (vote_of suggestion_id user_id) (votes d)) eqn:Hex; simpl;
      [assumption|].
    rewrite map_app. simpl. apply NoDup_snoc; [assumption|].
    by apply existsb_vote_of.
  - by apply NoDup_map_filter.
Qed.

Lemma find_none_not_in (suggestion_id : string) (rows : list SuggestionRow) :
  List.find (fun r => String.eqb (s_suggestion_id r) suggestion_id) rows = None ->
  suggestion_id ∉ List.map s_suggestion_id rows.
Proof.
  intros Hfind Hin. apply list_elem_of_In, in_map_iff in Hin as (r & Hid & Hr).
  apply (find_none _ _ Hfind) in Hr. simpl in Hr.
  apply String.eqb_neq in Hr. congruence.
Qed.

Lemma map_id_update suggestion_id status reason anonymous (rows : list SuggestionRow) :
  List.map s_suggestion_id
    (List.map (fun r => if String.eqb (s_suggestion_id r) suggestion_id
                        then decided status reason anonymous r else r) rows)
  = List.map s_suggestion_id rows.
Proof.
  induction rows as [|r rows IH]; simpl; [reflexivity|]. rewrite IH. f_equal.
  destruct (String.eqb (s_suggestion_id r) suggestion_id); reflexivity.
Qed.

Lemma suggestions_pk_op op d : suggestions_pk d -> suggestions_pk (apply_op op d).
Proof.
  unfold suggestions_pk. intros Hpk. destruct op; simpl; try assumption.
  - unfold save_suggestion, get_suggestion.
    destruct (List.find _ (suggestions d)) eqn:Hfind; simpl; [assumption|].
    rewrite map_app. simpl. apply NoDup_snoc; [assumption|].
    by apply find_none_not_in.
  - by rewrite map_id_update.
  - unfold add_vote. destruct (existsb _ (votes d)); assumption.
Qed.

Lemma reachable_pk d : reachable d -> votes_pk d /\ suggestions_pk d.
Proof.
  induction 1 as [|d' op _ [IHv IHs]].
  - split; apply NoDup_nil_2.
  - split; [by apply votes_pk_op | by apply suggestions_pk_op].
Qed.

(** At most one row per key in a table whose keys are distinct. *)
Lemma NoDup_filter_key {A K} (key : A -> K) (p : A -> bool) (k : K) (l : list A) :
  (forall x, p x = true <-> key x = k) ->
  NoDup (List.map key l) -> (length (List.filter p l) <= 1)%nat.
Proof.
  intros Hp. induction l as [|x l IH]; simpl; intros Hnd; [lia|].
  apply NoDup_cons in Hnd as [Hx Hl].
  destruct (p x) eqn:Hpx; simpl; [|auto].
  assert (List.filter p l = []) as ->; [|simpl; lia].
  destruct (List.filter p l) as [|y rest] eqn:Hf; [reflexivity|].
  exfalso. apply Hx.
  assert (In y (List.filter p l)) as Hy by (rewrite Hf; left; reflexivity).
  apply filter_In in Hy as [Hin Hpy].
  apply Hp in Hpx, Hpy. rewrite Hpx, <- Hpy.
  apply list_elem_of_In, in_map. assumption.
Qed.

(** Handlers write through the accessors only. *)

Lemma writes_only_ret {A} (a : A) : writes_only (ret a).
Proof. intros w. constructor. Qed.

Lemma writes_only_raise {A} e : writes_only (@raise A e).
Proof. intros w. constructor. Qed.

Lemma writes_only_query {A} (f : DB -> A) : writes_only (query f).
Proof. intros w. constructor. Qed.

Lemma writes_only_platform {A} e (o : result A) : writes_only (platform e o).
Proof. intros w. constructor. Qed.

Lemma writes_only_fetch {A} (o : result A) : writes_only (fetch o).
Proof. intros w. constructor. Qed.

Lemma writes_only_respond i r : writes_only (respond i r).
Proof. intros w. constructor. Qed.

Lemma writes_only_exec (f : DB -> DB) :
  (forall d, reaches d (f d)) -> writes_only (exec f).
Proof. intros Hf w. apply Hf. Qed.

Lemma writes_only_exec_ret {A} (f : DB -> A * DB) :
  (forall d, reaches d (f d).2) -> writes_only (exec_ret f).
Proof. intros Hf w. apply Hf. Qed.

Lemma writes_only_exec_raise {A} (f : DB -> result A * DB) :
  (forall d, reaches d (f d).2) -> writes_only (exec_raise f).
Proof. intros Hf w. apply Hf. Qed.

Lemma writes_only_bind {A B} (m : M A) (k : A -> M B) :
  writes_only m -> (forall a, writes_only (k a)) -> writes_only (bind m k).
Proof.
  intros Hm Hk w. unfold bind. specialize (Hm w).
  destruct (m w) as [[a|e] w']; simpl in *; [|assumption].
  eapply reaches_trans; [eassumption|apply Hk].
Qed.

Lemma writes_only_try {A} (m : M A) catches h :
  writes_only m -> (forall e, writes_only (h e)) -> writes_only (try_except m catches h).
Proof.
  intros Hm Hh w. unfold try_except. specialize (Hm w).
  destruct (m w) as [[a|e] w']; simpl in *; [assumption|].
  destruct (catches e); simpl; [|assumption].
  eapply reaches_trans; [eassumption|apply Hh].
Qed.

Lemma writes_only_for_each {A} (xs : list A) body :
  (forall x, writes_only (body x)) -> writes_only (for_each xs body).
Proof.
  intros Hbody. induction xs as [|x xs IH]; simpl.
  - apply writes_only_ret.
  - apply writes_only_bind; auto.
Qed.

Create HintDb writes.
#[local] Hint Resolve writes_only_ret writes_only_raise writes_only_query
  writes_only_platform writes_only_fetch writes_only_respond
  writes_only_for_each : writes.

Ltac writes_step :=
  first
    [ apply writes_only_bind; [|intros ?]
    | apply writes_only_try; [|intros ?]
    | apply writes_only_exec; intros ?; apply reaches_op
    | apply writes_only_exec_ret; intros ?; apply reaches_op
    | apply writes_only_exec_raise; intros ?; apply reaches_op
    | solve [auto with writes]
    | match goal with
      | |- writes_only (match ?x with _ => _ end) => destruct x
      | |- writes_only (if ?x then _ else _) => destruct x
      end ].

Lemma writes_only_on_submit i title description pros cons image_url :
  writes_only (on_submit i title description pros cons image_url).
Proof.
  unfold on_submit. repeat writes_step.
  apply writes_only_exec_raise. intros d0.
  apply (reaches_op (SaveSuggestion _ _ _ _ _ _ _ _ _ _ _)).
Qed.

Lemma writes_only_update_embed suggestion_id i : writes_only (update_embed suggestion_id i).
Proof. unfold update_embed. repeat writes_step. Qed.

Lemma writes_only_handle_vote mine other removed switched added suggestion_id i :
  writes_only (handle_vote mine other removed switched added suggestion_id i).
Proof.
  unfold handle_vote. repeat writes_step;
    try apply writes_only_update_embed;
    try (apply writes_only_exec; intros ?; apply (reaches_op (RemoveVote _ _)));
    try (apply writes_only_exec_ret; intros ?; apply (reaches_op (AddVote _ _ _))).
Qed.

Lemma writes_only_castVote dir suggestion_id i :
  writes_only (castVote dir suggestion_id i).
Proof. rewrite castVote_unfold. apply writes_only_handle_vote. Qed.

Lemma writes_only_render_decision v i suggestion_id suggestion reason anonymous :
  writes_only (render_decision v i suggestion_id suggestion reason anonymous).
Proof. unfold render_decision. repeat writes_step. Qed.

Lemma writes_only_decide_command v i suggestion_id reason anonymous :
  writes_only (decide_command v i suggestion_id reason anonymous).
Proof.
  unfold decide_command. repeat writes_step;
    try apply writes_only_render_decision.
  apply writes_only_exec. intros ?.
  apply (reaches_op (UpdateSuggestionStatus _ _ _ _)).
Qed.

Lemma writes_only_settings_commands i x :
  writes_only (setchannel i x) /\ writes_only (setreviewerrole i x)
  /\ writes_only (setblockedrole i x).
Proof.
  unfold setchannel, setreviewerrole, setblockedrole.
  repeat split; destruct (i_guild_id i); repeat writes_step.
  - apply writes_only_exec. intros ?. apply (reaches_op (SetSuggestionChannel _ _)).
  - apply writes_only_exec. intros ?. apply (reaches_op (SetReviewerRole _ _)).
  - apply writes_only_exec. intros ?. apply (reaches_op (SetBlockedRole _ _)).
Qed.

Lemma writes_only_on_ready game_db : writes_only (on_ready game_db).
Proof.
  unfold on_ready. repeat writes_step.
  - apply writes_only_exec. intros d. constructor.
  - apply writes_only_for_each. intros x. repeat writes_step.
Qed.

(** Serving an interaction takes a reachable database to a reachable one. *)
Lemma writes_only_reachable {A} (m : M A) d :
  writes_only m -> reachable d -> reachable (w_db (run m d).2).
Proof.
  intros Hm Hd. unfold reachable in *. eapply reaches_trans; [eassumption|].
  apply (Hm {| w_db := d; w_trace := [] |}).
Qed.

(** ** Votes *)

Lemma get_user_vote_none suggestion_id user_id d :
  get_user_vote suggestion_id user_id d = None ->
  existsb (vote_of suggestion_id user_id) (votes d) = false.
Proof.
  unfold get_user_vote. induction (votes d) as [|r rows IH]; simpl; [reflexivity|].
  destruct (vote_of suggestion_id user_id r); simpl; [discriminate|exact IH].
Qed.

Lemma get_user_vote_some suggestion_id user_id d t :
  get_user_vote suggestion_id user_id d = Some t ->
  existsb (vote_of suggestion_id user_id) (votes d) = true.
Proof.
  unfold get_user_vote. induction (votes d) as [|r rows IH]; simpl; [discriminate|].
  destruct (vote_of suggestion_id user_id r); simpl; [reflexivity|exact IH].
Qed.

Lemma existsb_other_votes suggestion_id user_id d :
  existsb (vote_of suggestion_id user_id) (other_votes suggestion_id user_id d) = false.
Proof.
  unfold other_votes. induction (votes d) as [|r rows IH]; simpl; [reflexivity|].
  destruct (vote_of suggestion_id user_id r) eqn:Hr; simpl; [exact IH|].
  by rewrite Hr.
Qed.

Lemma other_votes_all suggestion_id user_id d :
  existsb (vote_of suggestion_id user_id) (votes d) = false ->
  other_votes suggestion_id user_id d = votes d.
Proof.
  unfold other_votes. induction (votes d) as [|r rows IH]; simpl; [reflexivity|].
  destruct (vote_of suggestion_id user_id r); simpl; [discriminate|].
  intros H. by rewrite IH.
Qed.

Lemma vote_name_opposite dir : String.eqb (vote_name (opposite dir)) (vote_name dir) = false.
Proof. destruct dir; reflexivity. Qed.

Lemma update_embed_db suggestion_id i w :
  w_db (update_embed suggestion_id i w).2 = w_db w.
Proof.
  unfold update_embed. unfold_monad.
  destruct (get_suggestion suggestion_id (w_db w)); [|reflexivity].
  destruct (i_message_embeds i); [reflexivity|]. simpl.
  destruct (i_message_edit i) as [[]|[]]; reflexivity.
Qed.

(** On a pending suggestion of the guild, the callback applies the decision
    table and acknowledges the action; when that send returns it re-renders
    the tally, and when it raises the callback stops there. *)
Lemma castVote_pending dir d suggestion_id i row :
  get_suggestion suggestion_id d = Some row ->
  s_guild_id row = i_guild_id i ->
  s_status row = "pending" ->
  run (castVote dir suggestion_id i) d
  = let w := {| w_db := (toggled dir suggestion_id (i_user_id i) d).2;
                w_trace := [Respond (ack dir (toggled dir suggestion_id
                                                (i_user_id i) d).1)] |} in
    match i_respond i 0%nat with
    | Ok _ => update_embed suggestion_id i w
    | Raised e => (Raised e, w)
    end.
Proof.
  intros Hget Hguild Hstatus. rewrite castVote_unfold.
  unfold handle_vote, toggled. unfold_monad.
  rewrite Hget, Hguild, bool_decide_refl, Hstatus. simpl.
  destruct (get_user_vote suggestion_id (i_user_id i) d) as [t|] eqn:Hcur.
  - destruct (String.eqb_spec t (vote_name dir)) as [->|Hmine].
    + rewrite bool_decide_refl. simpl. by destruct (i_respond i 0%nat).
    + rewrite bool_decide_eq_false_2 by congruence.
      destruct (String.eqb_spec t (vote_name (opposite dir))) as [->|Hother].
      * rewrite bool_decide_refl. simpl. unfold add_vote. simpl.
        fold (other_votes suggestion_id (i_user_id i) d).
        rewrite existsb_other_votes. simpl. by destruct (i_respond i 0%nat).
      * rewrite bool_decide_eq_false_2 by congruence. simpl.
        unfold add_vote. rewrite (get_user_vote_some _ _ _ _ Hcur). simpl.
        by destruct (i_respond i 0%nat).
  - rewrite !bool_decide_eq_false_2 by discriminate. simpl.
    unfold add_vote. rewrite (get_user_vote_none _ _ _ Hcur). simpl.
    by destruct (i_respond i 0%nat).
Qed.

(** The database it leaves is that of the decision table, whatever the
    platform answers. *)
Lemma castVote_pending_db dir d suggestion_id i row :
  get_suggestion suggestion_id d = Some row ->
  s_guild_id row = i_guild_id i ->
  s_status row = "pending" ->
  w_db (run (castVote dir suggestion_id i) d).2
  = (toggled dir suggestion_id (i_user_id i) d).2.
Proof.
  intros Hget Hguild Hstatus.
  rewrite (castVote_pending dir d suggestion_id i row Hget Hguild Hstatus). simpl.
  destruct (i_respond i 0%nat); [apply update_embed_db|reflexivity].
Qed.

Lemma toggled_suggestions dir suggestion_id user_id d :
  suggestions (toggled dir suggestion_id user_id d).2 = suggestions d.
Proof.
  unfold toggled. destruct (get_user_vote suggestion_id user_id d) as [t|]; [|reflexivity].
  destruct (String.eqb t (vote_name dir)); [reflexivity|].
  destruct (String.eqb t (vote_name (opposite dir))); reflexivity.
Qed.


Lemma get_user_vote_added dir suggestion_id user_id d :
  get_user_vote suggestion_id user_id d = None ->
  get_user_vote suggestion_id user_id
    (set_votes (votes d ++ [vote_row dir suggestion_id user_id]) d)
  = Some (vote_name dir).
Proof.
  intros Hnone. apply get_user_vote_none in Hnone.
  unfold get_user_vote. simpl.
  induction (votes d) as [|r rows IH]; simpl in *.
  - unfold vote_of. simpl. by rewrite String.eqb_refl, Z.eqb_refl.
  - destruct (vote_of suggestion_id user_id r); simpl in *; [discriminate|auto].
Qed.

Lemma other_votes_added dir suggestion_id user_id d :
  get_user_vote suggestion_id user_id d = None ->
  other_votes suggestion_id user_id
    (set_votes (votes d ++ [vote_row dir suggestion_id user_id]) d)
  = votes d.
Proof.
  intros Hnone. apply get_user_vote_none in Hnone.
  unfold other_votes. simpl. rewrite List.filter_app. simpl.
  unfold vote_of at 2. simpl. rewrite String.eqb_refl, Z.eqb_refl. simpl.
  rewrite app_nil_r. by apply other_votes_all.
Qed.

Lemma set_votes_back t d : set_votes (votes d) (set_votes t d) = d.
Proof. destruct d; reflexivity. Qed.


Lemma set_first_field_found names new front f back :
  existsb (String.eqb (f_name f)) names = true ->
  Forall (fun g => existsb (String.eqb (f_name g)) names = false) front ->
  set_first_field names new (front ++ f :: back) = (front ++ new :: back)%list.
Proof.
  intros Hf. induction 1 as [|g front Hg _ IH]; simpl.
  - by rewrite Hf.
  - by rewrite Hg, IH.
Qed.

Lemma set_first_field_absent names new fields :
  Forall (fun g => existsb (String.eqb (f_name g)) names = false) fields ->
  set_first_field names new fields = fields.
Proof.
  induction 1 as [|g fields Hg _ IH]; simpl; [reflexivity|]. by rewrite Hg, IH.
Qed.




Lemma get_user_vote_removed suggestion_id user_id d :
  get_user_vote suggestion_id user_id
    (set_votes (other_votes suggestion_id user_id d) d) = None.
Proof.
  unfold get_user_vote. simpl.
  pose proof (existsb_other_votes suggestion_id user_id d) as Hex.
  induction (other_votes suggestion_id user_id d) as [|r rows IH]; simpl in *;
    [reflexivity|].
  destruct (vote_of suggestion_id user_id r); simpl in *; [discriminate|auto].
Qed.

(** Two presses of the same button from the other two states: a vote of the
    button's type is removed and cast again; a vote of the opposite type is
    switched and then removed. *)
Lemma toggle_twice_other_states dir d suggestion_id i1 i2 row :
  get_suggestion suggestion_id d = Some row ->
  s_status row = "pending" ->
  s_guild_id row = i_guild_id i1 ->
  s_guild_id row = i_guild_id i2 ->
  i_user_id i2 = i_user_id i1 ->
  let u := i_user_id i1 in
  let d1 := w_db (run (castVote dir suggestion_id i1) d).2 in
  let d2 := w_db (run (castVote dir suggestion_id i2) d1).2 in
  (get_user_vote suggestion_id u d = Some (vote_name dir) ->
   get_user_vote suggestion_id u d2 = Some (vote_name dir))
  /\ (get_user_vote suggestion_id u d = Some (vote_name (opposite dir)) ->
      get_user_vote suggestion_id u d2 = None).
Proof.
  intros Hget Hstatus Hg1 Hg2 Hu u d1 d2.
  assert (Hd1 : d1 = (toggled dir suggestion_id u d).2)
    by (unfold d1; apply (castVote_pending_db dir d suggestion_id i1 row Hget Hg1 Hstatus)).
  assert (Hget1 : get_suggestion suggestion_id d1 = Some row)
    by (unfold get_suggestion; rewrite Hd1, toggled_suggestions; exact Hget).
  assert (Hd2 : d2 = (toggled dir suggestion_id u d1).2)
    by (unfold d2; rewrite (castVote_pending_db dir d1 suggestion_id i2 row Hget1 Hg2 Hstatus),
          Hu; reflexivity).
  split; intros Hcur.
  - assert (Hnone : get_user_vote suggestion_id u d1 = None).
    { rewrite Hd1. unfold toggled. rewrite Hcur, String.eqb_refl. simpl.
      apply get_user_vote_removed. }
    rewrite Hd2. unfold toggled. rewrite Hnone. simpl.
    by apply get_user_vote_added.
  - assert (Hmine : get_user_vote suggestion_id u d1 = Some (vote_name dir)).
    { rewrite Hd1. unfold toggled. rewrite Hcur, vote_name_opposite, String.eqb_refl. simpl.
      apply (get_user_vote_added dir suggestion_id u
               (set_votes (other_votes suggestion_id u d) d)).
      apply get_user_vote_removed. }
    rewrite Hd2. unfold toggled. rewrite Hmine, String.eqb_refl. simpl.
    apply get_user_vote_removed.
Qed.

(** C6: in every database the writes of the subsystem can produce, at most
    one vote row exists per (suggestion, voter); and on a pending suggestion
    a voter without a vote who presses the same button twice has a vote of
    that type after the first press and, after the second, the database is
    the one before the first: no row for the pair. *)
Theorem toggle_twice_and_unique_row :
  (forall (d : DB) (suggestion_id : string) (user_id : Z),
     reachable d ->
     (length (List.filter (vote_of suggestion_id user_id) (votes d)) <= 1)%nat)
  /\ (forall (dir : direction) (d : DB) (suggestion_id : string)
        (i1 i2 : Interaction) (row : SuggestionRow),
        get_suggestion suggestion_id d = Some row ->
        s_status row = "pending" ->
        s_guild_id row = i_guild_id i1 ->
        s_guild_id row = i_guild_id i2 ->
        i_user_id i2 = i_user_id i1 ->
        get_user_vote suggestion_id (i_user_id i1) d = None ->
        let d1 := w_db (run (castVote dir suggestion_id i1) d).2 in
        let d2 := w_db (run (castVote dir suggestion_id i2) d1).2 in
        get_user_vote suggestion_id (i_user_id i1) d1 = Some (vote_name dir)
        /\ get_user_vote suggestion_id (i_user_id i1) d2 = None
        /\ d2 = d).
Proof.
  split.
  - intros d suggestion_id user_id Hd.
    apply (NoDup_filter_key vote_key _ (suggestion_id, user_id)).
    + intros r. apply vote_of_key.
    + by apply reachable_pk.
  - intros dir d suggestion_id i1 i2 row Hget Hstatus Hg1 Hg2 Hu Hnone d1 d2.
    assert (Hd1 : d1 = set_votes (votes d ++ [vote_row dir suggestion_id (i_user_id i1)]) d).
    { unfold d1. rewrite (castVote_pending_db dir d suggestion_id i1 row Hget Hg1 Hstatus).
      unfold toggled. by rewrite Hnone. }
    assert (Hcur1 : get_user_vote suggestion_id (i_user_id i1) d1 = Some (vote_name dir))
      by (rewrite Hd1; by apply get_user_vote_added).
    assert (Hd2 : d2 = d).
    { unfold d2.
      assert (Hget1 : get_suggestion suggestion_id d1 = Some row)
        by (rewrite Hd1; exact Hget).
      rewrite (castVote_pending_db dir d1 suggestion_id i2 row Hget1 Hg2 Hstatus).
      unfold toggled.
      rewrite Hu, Hcur1, String.eqb_refl. simpl.
      rewrite Hd1 at 1. rewrite other_votes_added by assumption.
      rewrite Hd1. apply set_votes_back. }
    split; [assumption|]. split; [by rewrite Hd2|assumption].
Qed.

(** ** Decisions *)

Lemma get_suggestion_updated suggestion_id status reason anonymous d :
  get_suggestion suggestion_id
    (update_suggestion_status suggestion_id status reason anonymous d)
  = decided status reason anonymous <$> get_suggestion suggestion_id d.
Proof.
  unfold get_suggestion, update_suggestion_status. simpl.
  induction (suggestions d) as [|r rows IH]; simpl; [reflexivity|].
  destruct (String.eqb (s_suggestion_id r) suggestion_id) eqn:Hid; simpl.
  - by rewrite Hid.
  - by rewrite Hid.
Qed.

Ltac case_platform :=
  repeat match goal with
         | |- context [match ?x with _ => _ end] =>
             lazymatch x with
             | context [match _ with _ => _ end] => fail
             | _ => destruct x eqn:?; simpl
             end
         end.

Lemma platform_only_render_decision v i suggestion_id suggestion reason anonymous :
  platform_only (render_decision v i suggestion_id suggestion reason anonymous).
Proof.
  intros w. unfold render_decision. unfold_monad.
  case_platform; (split; [reflexivity|]);
    first [ by (exists []; rewrite app_nil_r)
          | by eexists
          | by (rewrite <- app_assoc; eexists) ].
Qed.

Lemma platform_only_swallow (m : M unit) :
  platform_only m ->
  forall w, exists events,
    try_except m (fun _ => true) (fun _ => ret tt) w
    = (Ok tt, {| w_db := w_db w; w_trace := w_trace w ++ events |}).
Proof.
  intros Hm w. destruct (Hm w) as [Hdb [events Htrace]]. exists events.
  unfold try_except, ret. destruct (m w) as [[[]|e] [d' t']]; simpl in *; by subst.
Qed.

(** The gate lets a reviewer through. *)
Lemma is_reviewer_gate i d :
  is_reviewer i d = true ->
  exists settings,
    get_guild_settings (i_guild_id i) d = Some settings
    /\ truthy_id (gs_reviewer_role_id settings) = true
    /\ (match get_role i (gs_reviewer_role_id settings) with
        | None => true
        | Some role => negb (existsb (Z.eqb role) (i_user_roles i))
        end && negb (i_administrator i)) = false.
Proof.
  unfold is_reviewer. destruct (get_guild_settings (i_guild_id i) d) as [settings|];
    [|discriminate].
  intros [Hrole Hholds]%andb_true_iff. exists settings. repeat split; [assumption|].
  destruct (get_role i (gs_reviewer_role_id settings)) as [role|]; simpl in *.
  - destruct (existsb (Z.eqb role) (i_user_roles i)); simpl in *; [reflexivity|].
    by rewrite Hholds.
  - by rewrite Hholds.
Qed.

Lemma responses_app t1 t2 : responses (t1 ++ t2) = (responses t1 ++ responses t2)%list.
Proof.
  induction t1 as [|e t1 IH]; simpl; [reflexivity|].
  destruct e; simpl; by rewrite ?IH.
Qed.

Lemma render_decision_responses v i suggestion_id suggestion reason anonymous w :
  responses (w_trace (render_decision v i suggestion_id suggestion reason anonymous w).2)
  = responses (w_trace w).
Proof.
  unfold render_decision. unfold_monad.
  case_platform; rewrite ?responses_app; simpl; rewrite ?app_nil_r; reflexivity.
Qed.

Lemma swallow_all (m : M unit) w :
  try_except m (fun _ => true) (fun _ => ret tt) w = (Ok tt, (m w).2).
Proof. unfold try_except, ret. by destruct (m w) as [[[]|e] w']. Qed.

(** A decision by a reviewer on a suggestion of the guild commits the
    update, whatever the status of the suggestion and whatever the platform
    answers afterwards; the rendering sends no acknowledgment, and the
    command ends with its own, returning or raising as that send does. *)
Lemma decide_command_commits v i suggestion_id reason anonymous d row :
  is_reviewer i d = true ->
  get_suggestion suggestion_id d = Some row ->
  s_guild_id row = i_guild_id i ->
  exists events,
    run (decide_command v i suggestion_id reason anonymous) d
    = (i_respond i 0%nat,
       {| w_db := update_suggestion_status suggestion_id (vd_status v) reason anonymous d;
          w_trace := events ++ [Respond (vd_reply v suggestion_id)] |})
    /\ responses events = [].
Proof.
  intros (settings & Hsettings & Hrole & Hgate)%is_reviewer_gate Hget Hguild.
  unfold decide_command, run, bind at 1, query at 1. simpl.
  rewrite Hsettings, Hrole. simpl. rewrite Hgate.
  unfold bind at 1, query at 1. simpl.
  rewrite Hget, Hguild, bool_decide_refl. simpl.
  unfold bind at 1, exec at 1. simpl. unfold bind at 1.
  destruct (get_channel i (gs_suggestion_channel_id settings)) as [channel|].
  - rewrite swallow_all. unfold respond, platform.
    set (w0 := {| w_db := update_suggestion_status suggestion_id (vd_status v)
                            reason anonymous d;
                  w_trace := [] |}).
    destruct (platform_only_render_decision v i suggestion_id row reason anonymous w0)
      as [Hdb [events Htrace]].
    pose proof (render_decision_responses v i suggestion_id row reason anonymous w0)
      as Hres.
    rewrite Hres, Hdb, Htrace. simpl. exists events. split; [reflexivity|].
    rewrite Htrace in Hres. exact Hres.
  - exists []. split; reflexivity.
Qed.

(** What a decision command answers when it does not reach the update. *)
Lemma decide_command_refused v i suggestion_id reason anonymous d :
  (forall row, get_suggestion suggestion_id d = Some row ->
               s_guild_id row <> i_guild_id i) ->
  run (decide_command v i suggestion_id reason anonymous) d
  = (i_respond i 0%nat,
     {| w_db := d;
        w_trace :=
          [Respond
             (match get_guild_settings (i_guild_id i) d with
              | None => ReviewerRoleNotSetUp
              | Some settings =>
                  if negb (truthy_id (gs_reviewer_role_id settings))
                  then ReviewerRoleNotSetUp
                  else if is_reviewer i d then SuggestionNotFound
                       else NeedReviewerRole
              end)] |}).
Proof.
  intros Hforeign. unfold decide_command, is_reviewer. unfold_monad.
  destruct (get_guild_settings (i_guild_id i) d) as [settings|]; [|reflexivity].
  destruct (truthy_id (gs_reviewer_role_id settings)); simpl; [|reflexivity].
  destruct (get_role i (gs_reviewer_role_id settings)) as [role|]; simpl.
  - destruct (existsb (Z.eqb role) (i_user_roles i)); simpl.
    + destruct (get_suggestion suggestion_id d) as [row|] eqn:Hget; [|reflexivity].
      by rewrite bool_decide_eq_false_2 by (by apply Hforeign).
    + destruct (i_administrator i); simpl; [|reflexivity].
      destruct (get_suggestion suggestion_id d) as [row|] eqn:Hget; [|reflexivity].
      by rewrite bool_decide_eq_false_2 by (by apply Hforeign).
  - destruct (i_administrator i); simpl; [|reflexivity].
    destruct (get_suggestion suggestion_id d) as [row|] eqn:Hget; [|reflexivity].
    by rewrite bool_decide_eq_false_2 by (by apply Hforeign).
Qed.

(** C1, as the code has it: [approve] and [reject] do not look at the
    current status.  Invoked by a reviewer in the guild of the suggestion,
    on a suggestion of any status - pending or already decided - the
    command goes through: it ends with its acknowledgment (returning or
    raising as that send does), and the row of the suggestion then has the
    status of the verdict and the decision reason and anonymity flag of
    this call, its other columns being as before. *)
Theorem decide_overwrites_any_status (i : Interaction) (suggestion_id : string)
    (reason : option string) (anonymous : bool) (d : DB) (row : SuggestionRow) :
  is_reviewer i d = true ->
  get_suggestion suggestion_id d = Some row ->
  s_guild_id row = i_guild_id i ->
  (exists events d',
     run (approve i suggestion_id reason anonymous) d
     = (i_respond i 0%nat,
        {| w_db := d';
           w_trace := events ++ [Respond (SuggestionApproved suggestion_id)] |})
     /\ get_suggestion suggestion_id d' = Some (decided "approved" reason anonymous row))
  /\ (exists events d',
        run (reject i suggestion_id reason anonymous) d
        = (i_respond i 0%nat,
           {| w_db := d';
              w_trace := events ++ [Respond (SuggestionRejected suggestion_id)] |})
        /\ get_suggestion suggestion_id d' = Some (decided "rejected" reason anonymous row)).
Proof.
  intros Hrev Hget Hguild. split.
  - destruct (decide_command_commits approved i suggestion_id reason anonymous d row
                Hrev Hget Hguild) as (events & Hrun & _).
    exists events. eexists. split; [exact Hrun|].
    rewrite get_suggestion_updated, Hget. reflexivity.
  - destruct (decide_command_commits rejected i suggestion_id reason anonymous d row
                Hrev Hget Hguild) as (events & Hrun & _).
    exists events. eexists. split; [exact Hrun|].
    rewrite get_suggestion_updated, Hget. reflexivity.
Qed.

(** C9: once [approve] or [reject] has passed its checks and committed the
    update of status, reason and anonymity flag, nothing that happens to
    the rendering - whatever fetching the public message, reading its embed,
    editing it, fetching the thread or locking it answers or raises -
    changes the database again: no failure of the rendering leaves the
    command, which goes on to its acknowledgment (returning or raising as
    that send does), and the database is exactly the committed one. *)
Theorem decision_survives_rendering_failure (i : Interaction) (suggestion_id : string)
    (reason : option string) (anonymous : bool) (d : DB) (row : SuggestionRow) :
  is_reviewer i d = true ->
  get_suggestion suggestion_id d = Some row ->
  s_guild_id row = i_guild_id i ->
  (exists events,
     run (approve i suggestion_id reason anonymous) d
     = (i_respond i 0%nat,
        {| w_db := update_suggestion_status suggestion_id "approved" reason anonymous d;
           w_trace := events ++ [Respond (SuggestionApproved suggestion_id)] |}))
  /\ (exists events,
        run (reject i suggestion_id reason anonymous) d
        = (i_respond i 0%nat,
           {| w_db := update_suggestion_status suggestion_id "rejected" reason anonymous d;
              w_trace := events ++ [Respond (SuggestionRejected suggestion_id)] |})).
Proof.
  intros Hrev Hget Hguild. split.
  - destruct (decide_command_commits approved i suggestion_id reason anonymous d row
                Hrev Hget Hguild) as (events & Hrun & _).
    by exists events.
  - destruct (decide_command_commits rejected i suggestion_id reason anonymous d row
                Hrev Hget Hguild) as (events & Hrun & _).
    by exists events.
Qed.

(** C10: when the suggestion exists but belongs to another guild than the
    one the action is invoked in, a vote answers "Suggestion not found" and
    a decision command answers what it answers for an identifier that is in
    no row - "Suggestion not found" once the reviewer gate is passed - and
    in both cases the database is left as it was. *)
Theorem foreign_guild_not_found (d : DB) (suggestion_id : string) (i : Interaction)
    (row : SuggestionRow) :
  get_suggestion suggestion_id d = Some row ->
  s_guild_id row <> i_guild_id i ->
  (forall dir,
     run (castVote dir suggestion_id i) d
     = (i_respond i 0%nat, {| w_db := d; w_trace := [Respond SuggestionNotFound] |}))
  /\ (forall command reason anonymous,
        command = approve \/ command = reject ->
        exists r,
          run (command i suggestion_id reason anonymous) d
          = (i_respond i 0%nat, {| w_db := d; w_trace := [Respond r] |})
          /\ (is_reviewer i d = true -> r = SuggestionNotFound)
          /\ (forall d0,
                get_suggestion suggestion_id d0 = None ->
                suggestion_guild_settings d0 = suggestion_guild_settings d ->
                run (command i suggestion_id reason anonymous) d0
                = (i_respond i 0%nat, {| w_db := d0; w_trace := [Respond r] |}))).
Proof.
  intros Hget Hforeign. split.
  - intros dir. rewrite castVote_unfold, handle_vote_guards, Hget.
    by rewrite bool_decide_eq_false_2.
  - intros command reason anonymous Hcommand.
    assert (Hv : exists v, command = decide_command v)
      by (destruct Hcommand as [-> | ->]; eexists; reflexivity).
    destruct Hv as [v ->]. eexists. split; [|split].
    + apply decide_command_refused. intros row' Hrow'. congruence.
    + intros Hrev. unfold is_reviewer in Hrev |- *.
      destruct (get_guild_settings (i_guild_id i) d) as [settings|]; [|discriminate].
      rewrite Hrev. apply andb_true_iff in Hrev as [-> _]. reflexivity.
    + intros d0 Hnone Hsame. rewrite decide_command_refused by (intros ?; congruence).
      unfold is_reviewer, get_guild_settings. rewrite Hsame. reflexivity.
Qed.

(** ** Submission *)

(** C7: when the guild of the interaction has no destination channel - no
    settings row, or a NULL channel in it - the modal's [on_submit] only
    answers that the suggestion channel is not set up: the database is left
    as it was (no suggestion row is created) and nothing is published. *)
Theorem submit_not_configured (i : Interaction) (title description pros cons : string)
    (image_url : option string) (d : DB) :
  no_destination_channel (i_guild_id i) d ->
  run (on_submit i title description pros cons image_url) d
  = (i_respond i 0%nat, {| w_db := d; w_trace := [Respond ChannelNotSetUp] |}).
Proof.
  intros Hnone. unfold on_submit. unfold_monad.
  destruct (get_guild_settings (i_guild_id i) d) as [settings|] eqn:Hsettings;
    [|reflexivity].
  by rewrite (Hnone settings Hsettings).
Qed.

Lemma get_in_range (s : string) (n : nat) :
  (n < String.length s)%nat ->
  exists c, String.get n s = Some c /\ In c (list_ascii_of_string s).
Proof.
  revert n. induction s as [|a s IH]; simpl; intros n Hn; [lia|].
  destruct n as [|n].
  - exists a. auto.
  - destruct (IH n) as (c & Hc & Hin); [lia|]. exists c. auto.
Qed.

Lemma choice_in (seq : string) (r : nat) :
  seq <> "" -> In (choice seq r) (list_ascii_of_string seq).
Proof.
  intros Hne. unfold choice.
  destruct (get_in_range seq (r mod String.length seq)) as (c & -> & Hin); [|assumption].
  apply Nat.mod_upper_bound. destruct seq; [congruence|simpl; lia].
Qed.

Lemma generate_suggestion_id_shape rng :
  String.length (generate_suggestion_id rng) = 8%nat
  /\ Forall (fun c => In c (list_ascii_of_string alphabet))
       (list_ascii_of_string (generate_suggestion_id rng)).
Proof.
  split; [reflexivity|].
  unfold generate_suggestion_id. rewrite list_ascii_of_string_of_list_ascii.
  apply Forall_forall. intros c Hc.
  apply list_elem_of_In, in_map_iff in Hc as (k & <- & _).
  apply choice_in. discriminate.
Qed.

Lemma save_suggestion_taken suggestion_id g u m t title description pros cons
    image created d row :
  get_suggestion suggestion_id d = Some row ->
  save_suggestion suggestion_id g u m t title description pros cons image created d
  = (Raised IntegrityError, d).
Proof. intros Hget. unfold save_suggestion. by rewrite Hget. Qed.

#[local] Arguments generate_suggestion_id : simpl never.
#[local] Arguments save_suggestion : simpl never.
#[local] Arguments check_missing_permissions : simpl never.

(** C5, as the code has it: the identifier is drawn once, eight characters
    each taken from the lowercase letters and the digits by the system
    random source.  When it is the identifier of an existing suggestion, no
    row is created or changed, whatever else happens; and when the checks
    before publication pass, the message and the thread are created, the
    insert raises, and the submitter is answered with the error: no other
    identifier is drawn. *)
Theorem submit_draws_one_id (i : Interaction) (title description pros cons : string)
    (image_url : option string) (d : DB) (row : SuggestionRow) :
  let suggestion_id := generate_suggestion_id (i_rng i) in
  get_suggestion suggestion_id d = Some row ->
  (String.length suggestion_id = 8%nat
   /\ Forall (fun c => In c (list_ascii_of_string alphabet))
        (list_ascii_of_string suggestion_id))
  /\ w_db (run (on_submit i title description pros cons image_url) d).2 = d
  /\ (forall channel message thread,
        publishes i d channel message thread ->
        run (on_submit i title description pros cons image_url) d
        = (i_respond i 0%nat,
           {| w_db := d;
              w_trace :=
                [ChannelSend channel
                   (suggestion_embed i suggestion_id title description pros cons image_url)
                   suggestion_id;
                 CreateThread message (thread_name title);
                 Respond (ErrorCreating IntegrityError)] |})).
Proof.
  intros suggestion_id Hget. split; [apply generate_suggestion_id_shape|]. split.
  - unfold on_submit. unfold_monad. fold suggestion_id.
    repeat first
      [ rewrite (save_suggestion_taken _ _ _ _ _ _ _ _ _ _ _ _ _ Hget); simpl
      | match goal with
        | |- context [match ?x with _ => _ end] =>
            lazymatch x with
            | context [match _ with _ => _ end] => fail
            | context [save_suggestion] => fail
            | _ => destruct x eqn:?; simpl
            end
        end ];
      reflexivity.
  - intros channel message thread
      (settings & Hsettings & Htruthy & Hchannel & Hperms & Hsend & Hthread).
    unfold on_submit. unfold_monad. fold suggestion_id.
    rewrite Hsettings, Htruthy, Hchannel, Hperms, Hsend. simpl.
    rewrite Hthread. simpl.
    rewrite (save_suggestion_taken _ _ _ _ _ _ _ _ _ _ _ _ _ Hget). reflexivity.
Qed.

(** ** Startup *)

Lemma add_views_run (rows : list string) (w : World) :
  for_each rows (fun suggestion_id =>
    try_except (platform (AddView suggestion_id) (Ok tt)) (fun _ => true)
      (fun _ => ret tt)) w
  = (Ok tt, {| w_db := w_db w; w_trace := w_trace w ++ List.map AddView rows |}).
Proof.
  revert w. induction rows as [|x rows IH]; intros w; simpl.
  - unfold ret. rewrite app_nil_r. by destruct w.
  - unfold bind, try_except, platform. simpl. rewrite IH. simpl.
    by rewrite <- app_assoc.
Qed.

Lemma get_suggestion_unique suggestion_id d row :
  suggestions_pk d ->
  In row (suggestions d) -> s_suggestion_id row = suggestion_id ->
  get_suggestion suggestion_id d = Some row.
Proof.
  unfold suggestions_pk, get_suggestion.
  induction (suggestions d) as [|r rows IH]; simpl; intros Hpk Hin Hid; [contradiction|].
  apply NoDup_cons in Hpk as [Hr Hrows].
  destruct (String.eqb_spec (s_suggestion_id r) suggestion_id) as [Heq|Hne].
  - destruct Hin as [->|Hin]; [reflexivity|].
    exfalso. apply Hr. rewrite Heq, <- Hid. by apply list_elem_of_In, in_map.
  - destruct Hin as [->|Hin]; [congruence|auto].
Qed.

(** C8: [on_ready] changes nothing in the database, whatever the game
    database does; once the game database is up it registers one view per
    identifier selected, in order, and returns; and in a database the
    subsystem can produce, the identifiers selected are exactly those of the
    suggestions whose status is ['pending']. *)
Theorem on_ready_reattaches_pending (d : DB) :
  reachable d ->
  (forall game_db, w_db (run (on_ready game_db) d).2 = d)
  /\ run (on_ready (Ok tt)) d
     = (Ok tt, {| w_db := d; w_trace := List.map AddView (pending_ids d) |})
  /\ (forall suggestion_id,
        In suggestion_id (pending_ids d)
        <-> exists row, get_suggestion suggestion_id d = Some row
                        /\ s_status row = "pending").
Proof.
  intros Hd. split; [|split].
  - intros [[]|e]; unfold on_ready, run, bind, fetch, exec, query; simpl; [|reflexivity].
    by rewrite add_views_run.
  - unfold on_ready, run, bind, fetch, exec, query. simpl.
    by rewrite add_views_run.
  - intros suggestion_id. unfold pending_ids. rewrite in_map_iff. split.
    + intros (row & Hid & Hin). apply filter_In in Hin as [Hin Hstatus].
      exists row. split; [|by apply String.eqb_eq].
      apply get_suggestion_unique; [by apply reachable_pk|assumption..].
    + intros (row & Hget & Hstatus). exists row.
      apply find_some in Hget as [Hin Hid]. apply String.eqb_eq in Hid.
      split; [assumption|]. apply filter_In. split; [assumption|].
      by apply String.eqb_eq.
Qed.

(** * The properties on sample data *)

Example scenario_votes :
  let a := member 1 200 [] in
  let b := member 1 201 [] in
  let d1 := w_db (run (castVote Upvote "k3x9a2bq" a) db_pending).2 in
  let d2 := w_db (run (castVote Upvote "k3x9a2bq" a) d1).2 in
  let d3 := w_db (run (castVote Downvote "k3x9a2bq" a) d2).2 in
  let d4 := w_db (run (castVote Upvote "k3x9a2bq" b) d3).2 in
  let d5 := w_db (run (approve (member 1 7 [20]) "k3x9a2bq" (Some "good idea") false) d4).2 in
  let tally d := (count_votes "upvote" "k3x9a2bq" d, count_votes "downvote" "k3x9a2bq" d) in
  (tally d1, tally d2, tally d3, tally d4)
  = ((1, 0), (0, 0), (0, 1), (1, 1))%nat
  /\ (s_status <$> get_suggestion "k3x9a2bq" d5) = Some "approved"
  /\ w_trace (run (castVote Upvote "k3x9a2bq" b) d5).2 = [Respond VotingClosed].
Proof. vm_compute. auto. Qed.

(** A reviewer rejects, anonymously and without a reason, the suggestion
    that was approved with the reason "good idea": the command succeeds and
    the row now says rejected, no reason, anonymous. *)
Lemma redecide_overwrites :
  let reviewer := member 1 7 [20] in
  let outcome := run (reject reviewer "k3x9a2bq" None true) db_decided in
  get_suggestion "k3x9a2bq" db_decided
  = Some (sample_row "k3x9a2bq" "approved" (Some "good idea") 0)
  /\ "approved" <> "pending"
  /\ outcome.1 = Ok tt
  /\ last (w_trace outcome.2) = Some (Respond (SuggestionRejected "k3x9a2bq"))
  /\ get_suggestion "k3x9a2bq" (w_db outcome.2)
     = Some (sample_row "k3x9a2bq" "rejected" None 1)
  /\ get_suggestion "k3x9a2bq" (w_db outcome.2) <> get_suggestion "k3x9a2bq" db_decided.
Proof. vm_compute. repeat split; discriminate. Qed.

Lemma decide_overwrites_any_status_witness :
  (exists events d',
     run (approve (member 1 7 [20]) "k3x9a2bq" (Some "still good") true) db_decided
     = (Ok tt, {| w_db := d';
                  w_trace := events ++ [Respond (SuggestionApproved "k3x9a2bq")] |})
     /\ get_suggestion "k3x9a2bq" d'
        = Some (decided "approved" (Some "still good") true
                  (sample_row "k3x9a2bq" "approved" (Some "good idea") 0)))
  /\ (exists events d',
        run (reject (member 1 7 [20]) "k3x9a2bq" (Some "still good") true) db_decided
        = (Ok tt, {| w_db := d';
                     w_trace := events ++ [Respond (SuggestionRejected "k3x9a2bq")] |})
        /\ get_suggestion "k3x9a2bq" d'
           = Some (decided "rejected" (Some "still good") true
                     (sample_row "k3x9a2bq" "approved" (Some "good idea") 0))).
Proof.
  apply (decide_overwrites_any_status (member 1 7 [20]) "k3x9a2bq" (Some "still good")
           true db_decided (sample_row "k3x9a2bq" "approved" (Some "good idea") 0));
    reflexivity.
Defined.



Lemma cast_vote_closed_witness :
  w_db (run (castVote Downvote "k3x9a2bq" (member 1 201 [])) db_decided).2 = db_decided
  /\ run (castVote Downvote "k3x9a2bq" (member 1 201 [])) db_decided
     = (Ok tt, {| w_db := db_decided; w_trace := [Respond VotingClosed] |}).
Proof.
  destruct (cast_vote_closed Downvote db_decided "k3x9a2bq" (member 1 201 [])
              (sample_row "k3x9a2bq" "approved" (Some "good idea") 0))
    as [Hdb Hrun]; [reflexivity|discriminate|].
  split; [exact Hdb|]. apply Hrun. reflexivity.
Defined.

Lemma get_votes_counts_rows_witness :
  get_votes "k3x9a2bq" db_pending = <["downvote" := 0%nat]> (<["upvote" := 0%nat]> ∅)
  /\ get_votes "k3x9a2bq" db_decided !! "upvote" = Some 1%nat.
Proof.
  split.
  - apply (get_votes_counts_rows "k3x9a2bq" db_pending). reflexivity.
  - apply (get_votes_counts_rows "k3x9a2bq" db_decided).
Defined.

(** The identifier drawn is taken; a second draw would have been free, but
    the submitter is answered with the error and no row is added. *)
Lemma submit_collision_not_retried :
  let i := member 1 100 [] in
  generate_suggestion_id (i_rng i) = "aaaaaaaa"
  /\ get_suggestion "aaaaaaaa" db_collide = Some (sample_row "aaaaaaaa" "pending" None 0)
  /\ generate_suggestion_id (fun k => i_rng i (8 + k)%nat) = "bbbbbbbb"
  /\ get_suggestion "bbbbbbbb" db_collide = None
  /\ run (on_submit i "Dark mode" "A dark theme" "Easy on the eyes" "More work" None)
       db_collide
     = (Ok tt,
        {| w_db := db_collide;
           w_trace :=
             [ChannelSend 10
                (suggestion_embed i "aaaaaaaa" "Dark mode" "A dark theme"
                   "Easy on the eyes" "More work" None) "aaaaaaaa";
              CreateThread 501 "Dark mode";
              Respond (ErrorCreating IntegrityError)] |}).
Proof. vm_compute. repeat split. Qed.

Lemma submit_draws_one_id_witness :
  let i := member 1 100 [] in
  String.length (generate_suggestion_id (i_rng i)) = 8%nat
  /\ w_db (run (on_submit i "Dark mode" "A dark theme" "Easy on the eyes" "More work" None)
             db_collide).2 = db_collide
  /\ run (on_submit i "Dark mode" "A dark theme" "Easy on the eyes" "More work" None)
        db_collide
     = (Ok tt,
        {| w_db := db_collide;
           w_trace :=
             [ChannelSend 10
                (suggestion_embed i (generate_suggestion_id (i_rng i)) "Dark mode"
                   "A dark theme" "Easy on the eyes" "More work" None)
                (generate_suggestion_id (i_rng i));
              CreateThread 501 (thread_name "Dark mode");
              Respond (ErrorCreating IntegrityError)] |}).
Proof.
  intros i.
  destruct (submit_draws_one_id i "Dark mode" "A dark theme" "Easy on the eyes"
              "More work" None db_collide (sample_row "aaaaaaaa" "pending" None 0))
    as ((Hlen & _) & Hdb & Hrun); [reflexivity|].
  split; [exact Hlen|]. split; [exact Hdb|].
  apply (Hrun 10 501 601). exists sample_settings. repeat split; reflexivity.
Defined.

Lemma db_restart_reachable : reachable db_restart.
Proof.
  pose (save id :=
          SaveSuggestion id (Some 1) 100 500 (Some 600) "Add a poll command"
            "Polls in one command" "Quick" "More buttons" None
            "2024-05-01T12:00:00+00:00").
  change db_restart with
    (apply_op (UpdateSuggestionStatus "p0m4z7cd" "approved" (Some "good idea") false)
       (apply_op (save "p0m4z7cd")
          (apply_op (save "k3x9a2bq")
             (apply_op (SetReviewerRole 1 20)
                (apply_op (SetSuggestionChannel 1 10) empty_db))))).
  repeat constructor.
Qed.

Lemma toggle_twice_and_unique_row_witness :
  let a := member 1 200 [] in
  let d1 := w_db (run (castVote Upvote "k3x9a2bq" a) db_restart).2 in
  let d2 := w_db (run (castVote Upvote "k3x9a2bq" a) d1).2 in
  (length (List.filter (vote_of "k3x9a2bq" 200) (votes db_restart)) <= 1)%nat
  /\ get_user_vote "k3x9a2bq" 200 d1 = Some "upvote"
  /\ get_user_vote "k3x9a2bq" 200 d2 = None
  /\ d2 = db_restart.
Proof.
  intros a d1 d2. destruct toggle_twice_and_unique_row as [Hunique Htoggle]. split.
  - apply Hunique. exact db_restart_reachable.
  - apply (Htoggle Upvote db_restart "k3x9a2bq" a a
             (sample_row "k3x9a2bq" "pending" None 0)); reflexivity.
Defined.

Lemma submit_not_configured_witness :
  run (on_submit (member 2 100 []) "Dark mode" "A dark theme" "Easy on the eyes"
         "More work" None) db_pending
  = (Ok tt, {| w_db := db_pending; w_trace := [Respond ChannelNotSetUp] |}).
Proof.
  apply (submit_not_configured (member 2 100 [])). intros settings. discriminate.
Defined.

Lemma on_ready_reattaches_pending_witness :
  run (on_ready (Ok tt)) db_restart
  = (Ok tt, {| w_db := db_restart; w_trace := [AddView "k3x9a2bq"] |})
  /\ ~ In "p0m4z7cd" (pending_ids db_restart).
Proof.
  destruct (on_ready_reattaches_pending db_restart db_restart_reachable)
    as (_ & Hrun & Hmem).
  split; [exact Hrun|].
  intros Hin. apply Hmem in Hin as (row & Hget & Hstatus).
  vm_compute in Hget. injection Hget as <-. discriminate.
Defined.

Lemma decision_survives_rendering_failure_witness :
  let reviewer := member_message_gone 1 7 [20] in
  i_fetch_message reviewer 500 = Raised NotFound
  /\ exists events,
       run (approve reviewer "k3x9a2bq" (Some "good idea") false) db_pending
       = (Ok tt,
          {| w_db := update_suggestion_status "k3x9a2bq" "approved" (Some "good idea")
                       false db_pending;
             w_trace := events ++ [Respond (SuggestionApproved "k3x9a2bq")] |}).
Proof.
  intros reviewer. split; [reflexivity|].
  apply (decision_survives_rendering_failure reviewer "k3x9a2bq" (Some "good idea")
           false db_pending (sample_row "k3x9a2bq" "pending" None 0)); reflexivity.
Defined.

Lemma foreign_guild_not_found_witness :
  let visitor := member 2 7 [20] in
  run (castVote Upvote "k3x9a2bq" visitor) db_pending
  = (Ok tt, {| w_db := db_pending; w_trace := [Respond SuggestionNotFound] |})
  /\ exists r,
       run (approve visitor "k3x9a2bq" None false) db_pending
       = (Ok tt, {| w_db := db_pending; w_trace := [Respond r] |}).
Proof.
  intros visitor.
  destruct (foreign_guild_not_found db_pending "k3x9a2bq" visitor
              (sample_row "k3x9a2bq" "pending" None 0)) as [Hvote Hdecide];
    [reflexivity|discriminate|].
  split; [apply Hvote|].
  destruct (Hdecide approve None false) as (r & Hrun & _); [by left|].
  by exists r.
Defined.

(** * Further properties of the module *)

(** ** The accessors *)

Lemma find_snoc {A} (p : A -> bool) (l : list A) (x : A) :
  List.find p (l ++ [x])
  = match List.find p l with
    | Some y => Some y
    | None => if p x then Some x else None
    end.
Proof.
  induction l as [|y l IH]; simpl; [reflexivity|].
  destruct (p y); [reflexivity|exact IH].
Qed.

Lemma find_filter_other {A} (p q : A -> bool) (l : list A) :
  (forall x, p x = true -> q x = true) ->
  List.find p (List.filter q l) = List.find p l.
Proof.
  intros Hpq. induction l as [|x l IH]; simpl; [reflexivity|].
  destruct (q x) eqn:Hq; simpl.
  - destruct (p x); [reflexivity|exact IH].
  - destruct (p x) eqn:Hp; [|exact IH].
    apply Hpq in Hp. congruence.
Qed.

(** X1: [save_suggestion] succeeds exactly when the identifier is free.  It
    then stores the row as pending and undecided, [get_suggestion] finds it
    under its identifier, and every other identifier, the votes and the
    settings are as before; on a taken identifier it raises
    [IntegrityError] and changes nothing. *)
Theorem save_suggestion_round_trip (suggestion_id : string) (guild_id : option Z)
    (user_id message_id : Z) (thread_id : option Z) (title description pros cons : string)
    (image_url : option string) (created_at : string) (d : DB) :
  let saved := save_suggestion suggestion_id guild_id user_id message_id thread_id
                 title description pros cons image_url created_at d in
  (get_suggestion suggestion_id d = None ->
   saved.1 = Ok tt
   /\ get_suggestion suggestion_id saved.2
      = Some (new_row suggestion_id guild_id user_id message_id thread_id
                title description pros cons image_url created_at)
   /\ (forall other, other <> suggestion_id ->
                     get_suggestion other saved.2 = get_suggestion other d)
   /\ votes saved.2 = votes d
   /\ suggestion_guild_settings saved.2 = suggestion_guild_settings d)
  /\ (forall row, get_suggestion suggestion_id d = Some row ->
                  saved = (Raised IntegrityError, d)).
Proof.
  intros saved. unfold saved, save_suggestion. split.
  - intros Hfree. rewrite Hfree. simpl. split; [reflexivity|].
    split; [|split; [|split; reflexivity]].
    + unfold get_suggestion in *. simpl.
      rewrite find_snoc, Hfree. simpl. by rewrite String.eqb_refl.
    + intros other Hother. unfold get_suggestion. simpl. rewrite find_snoc. simpl.
      apply String.eqb_neq in Hother. rewrite String.eqb_sym, Hother.
      by destruct (List.find _ (suggestions d)).
  - intros row Htaken. by rewrite Htaken.
Qed.

Lemma save_suggestion_round_trip_witness :
  let saved := save_suggestion "p0m4z7cd" (Some 1) 100 501 (Some 601) "Dark mode"
                 "A dark theme" "Easy on the eyes" "More work" None
                 "2024-05-02T09:30:00+00:00" db_pending in
  get_suggestion "p0m4z7cd" saved.2
  = Some (new_row "p0m4z7cd" (Some 1) 100 501 (Some 601) "Dark mode" "A dark theme"
            "Easy on the eyes" "More work" None "2024-05-02T09:30:00+00:00")
  /\ get_suggestion "k3x9a2bq" saved.2 = get_suggestion "k3x9a2bq" db_pending
  /\ save_suggestion "k3x9a2bq" (Some 1) 100 501 (Some 601) "Dark mode"
       "A dark theme" "Easy on the eyes" "More work" None
       "2024-05-02T09:30:00+00:00" db_pending
     = (Raised IntegrityError, db_pending).
Proof.
  intros saved.
  destruct (save_suggestion_round_trip "p0m4z7cd" (Some 1) 100 501 (Some 601) "Dark mode"
              "A dark theme" "Easy on the eyes" "More work" None
              "2024-05-02T09:30:00+00:00" db_pending) as [Hfree _].
  destruct Hfree as (_ & Hget & Hother & _); [reflexivity|].
  split; [exact Hget|]. split; [apply Hother; discriminate|].
  destruct (save_suggestion_round_trip "k3x9a2bq" (Some 1) 100 501 (Some 601) "Dark mode"
              "A dark theme" "Easy on the eyes" "More work" None
              "2024-05-02T09:30:00+00:00" db_pending) as [_ Htaken].
  apply (Htaken (sample_row "k3x9a2bq" "pending" None 0)). reflexivity.
Defined.

Lemma update_other_row suggestion_id other status reason anonymous
    (rows : list SuggestionRow) :
  other <> suggestion_id ->
  List.find (fun r => String.eqb (s_suggestion_id r) other)
    (List.map (fun r => if String.eqb (s_suggestion_id r) suggestion_id
                        then decided status reason anonymous r else r) rows)
  = List.find (fun r => String.eqb (s_suggestion_id r) other) rows.
Proof.
  intros Hother. induction rows as [|r rows IH]; simpl; [reflexivity|].
  destruct (String.eqb_spec (s_suggestion_id r) suggestion_id) as [Hid|Hid]; simpl.
  - rewrite Hid. apply String.eqb_neq in Hother. rewrite String.eqb_sym, Hother.
    exact IH.
  - destruct (String.eqb (s_suggestion_id r) other); [reflexivity|exact IH].
Qed.

Lemma update_unknown_rows suggestion_id status reason anonymous
    (rows : list SuggestionRow) :
  List.find (fun r => String.eqb (s_suggestion_id r) suggestion_id) rows = None ->
  List.map (fun r => if String.eqb (s_suggestion_id r) suggestion_id
                     then decided status reason anonymous r else r) rows = rows.
Proof.
  induction rows as [|r rows IH]; simpl; [reflexivity|].
  destruct (String.eqb (s_suggestion_id r) suggestion_id); [discriminate|].
  intros Hnone. by rewrite IH.
Qed.

(** X2: [update_suggestion_status] touches the row of its identifier only:
    every other suggestion, the identifiers in the table (no row appears or
    disappears), the votes and the settings are as before; and for an
    identifier that is in no row it changes nothing at all. *)
Theorem update_suggestion_status_frame (suggestion_id status : string)
    (reason : option string) (anonymous : bool) (d : DB) :
  let d' := update_suggestion_status suggestion_id status reason anonymous d in
  (forall other, other <> suggestion_id ->
                 get_suggestion other d' = get_suggestion other d)
  /\ List.map s_suggestion_id (suggestions d') = List.map s_suggestion_id (suggestions d)
  /\ votes d' = votes d
  /\ suggestion_guild_settings d' = suggestion_guild_settings d
  /\ (get_suggestion suggestion_id d = None -> d' = d).
Proof.
  intros d'. unfold d', update_suggestion_status, get_suggestion. simpl.
  split; [|split; [|split; [|split]]]; try reflexivity.
  - intros other Hother. by apply update_other_row.
  - apply map_id_update.
  - intros Hnone. rewrite update_unknown_rows by assumption. by destruct d.
Qed.

Lemma update_suggestion_status_frame_witness :
  get_suggestion "k3x9a2bq"
    (update_suggestion_status "p0m4z7cd" "rejected" None true db_restart)
  = get_suggestion "k3x9a2bq" db_restart
  /\ update_suggestion_status "zzzzzzzz" "rejected" None true db_restart = db_restart.
Proof.
  split.
  - apply (update_suggestion_status_frame "p0m4z7cd" "rejected" None true db_restart).
    discriminate.
  - apply (update_suggestion_status_frame "zzzzzzzz" "rejected" None true db_restart).
    reflexivity.
Defined.

Lemma vote_of_other suggestion_id user_id other_id other_user r :
  (other_id, other_user) <> (suggestion_id, user_id) ->
  vote_of other_id other_user r = true -> vote_of suggestion_id user_id r = false.
Proof.
  intros Hne Hr. apply vote_of_key in Hr.
  destruct (vote_of suggestion_id user_id r) eqn:Hr'; [|reflexivity].
  apply vote_of_key in Hr'. congruence.
Qed.

(** X3: [add_vote] inserts exactly when the voter has no vote on the
    suggestion: it then returns [True] and the voter's vote is the one
    inserted; when the voter already has a vote, of whatever type, it
    returns [False] and changes nothing.  The votes of every other
    (suggestion, voter) pair are as before in both cases. *)
Theorem add_vote_result (suggestion_id : string) (user_id : Z) (vote_type : string)
    (d : DB) :
  let added := add_vote suggestion_id user_id vote_type d in
  (get_user_vote suggestion_id user_id d = None ->
   added.1 = true
   /\ votes added.2 = (votes d ++ [{| v_suggestion_id := suggestion_id;
                                      v_user_id := user_id;
                                      v_vote_type := vote_type |}])%list
   /\ get_user_vote suggestion_id user_id added.2 = Some vote_type)
  /\ (forall current, get_user_vote suggestion_id user_id d = Some current ->
                      added = (false, d))
  /\ (forall other_id other_user,
        (other_id, other_user) <> (suggestion_id, user_id) ->
        get_user_vote other_id other_user added.2 = get_user_vote other_id other_user d).
Proof.
  intros added. unfold added, add_vote. split; [|split].
  - intros Hnone. rewrite (get_user_vote_none _ _ _ Hnone). simpl.
    split; [reflexivity|]. split; [reflexivity|].
    unfold get_user_vote in *. simpl. rewrite find_snoc.
    destruct (List.find (vote_of suggestion_id user_id) (votes d)); [discriminate|].
    unfold vote_of. simpl. by rewrite String.eqb_refl, Z.eqb_refl.
  - intros current Hsome. by rewrite (get_user_vote_some _ _ _ _ Hsome).
  - intros other_id other_user Hne.
    destruct (existsb (vote_of suggestion_id user_id) (votes d)); [reflexivity|].
    unfold get_user_vote. simpl. rewrite find_snoc.
    destruct (List.find (vote_of other_id other_user) (votes d)); [reflexivity|].
    destruct (vote_of other_id other_user _) eqn:Hrow; [|reflexivity].
    apply (vote_of_other suggestion_id user_id) in Hrow; [|assumption].
    unfold vote_of in Hrow. simpl in Hrow.
    by rewrite String.eqb_refl, Z.eqb_refl in Hrow.
Qed.

Lemma add_vote_result_witness :
  (add_vote "k3x9a2bq" 201 "downvote" db_decided).1 = true
  /\ get_user_vote "k3x9a2bq" 201 (add_vote "k3x9a2bq" 201 "downvote" db_decided).2
     = Some "downvote"
  /\ add_vote "k3x9a2bq" 200 "downvote" db_decided = (false, db_decided)
  /\ get_user_vote "k3x9a2bq" 200 (add_vote "k3x9a2bq" 201 "downvote" db_decided).2
     = get_user_vote "k3x9a2bq" 200 db_decided.
Proof.
  destruct (add_vote_result "k3x9a2bq" 201 "downvote" db_decided)
    as (Hfree & _ & Hother).
  destruct Hfree as (Htrue & _ & Hvote); [reflexivity|].
  split; [exact Htrue|]. split; [exact Hvote|]. split.
  - apply (add_vote_result "k3x9a2bq" 200 "downvote" db_decided) with "upvote".
    reflexivity.
  - apply Hother. discriminate.
Defined.

Lemma filter_twice {A} (p : A -> bool) (l : list A) :
  List.filter p (List.filter p l) = List.filter p l.
Proof.
  induction l as [|x l IH]; simpl; [reflexivity|].
  destruct (p x) eqn:Hp; simpl; [|exact IH]. by rewrite Hp, IH.
Qed.

(** X4: [remove_vote] leaves the voter without a vote on the suggestion, is
    idempotent, changes nothing when the voter has no vote, and leaves the
    votes of every other (suggestion, voter) pair, the suggestions and the
    settings as they were. *)
Theorem remove_vote_result (suggestion_id : string) (user_id : Z) (d : DB) :
  let d' := remove_vote suggestion_id user_id d in
  get_user_vote suggestion_id user_id d' = None
  /\ remove_vote suggestion_id user_id d' = d'
  /\ (get_user_vote suggestion_id user_id d = None -> d' = d)
  /\ (forall other_id other_user,
        (other_id, other_user) <> (suggestion_id, user_id) ->
        get_user_vote other_id other_user d' = get_user_vote other_id other_user d)
  /\ suggestions d' = suggestions d
  /\ suggestion_guild_settings d' = suggestion_guild_settings d.
Proof.
  intros d'. unfold d'. split; [|split; [|split; [|split; [|split]]]]; try reflexivity.
  - apply get_user_vote_removed.
  - unfold remove_vote. simpl. by rewrite filter_twice.
  - intros Hnone. apply get_user_vote_none in Hnone.
    unfold remove_vote. fold (other_votes suggestion_id user_id d).
    rewrite other_votes_all by assumption. by destruct d.
  - intros other_id other_user Hne. unfold get_user_vote, remove_vote. simpl.
    rewrite find_filter_other; [reflexivity|].
    intros r Hr. by rewrite (vote_of_other _ _ _ _ _ Hne Hr).
Qed.

Lemma remove_vote_result_witness :
  remove_vote "k3x9a2bq" 201 db_decided = db_decided
  /\ get_user_vote "k3x9a2bq" 200 (remove_vote "k3x9a2bq" 201 db_decided)
     = get_user_vote "k3x9a2bq" 200 db_decided.
Proof.
  destruct (remove_vote_result "k3x9a2bq" 201 db_decided)
    as (_ & _ & Hnone & Hother & _).
  split; [apply Hnone; reflexivity|]. apply Hother. discriminate.
Defined.

(** ** The guild settings *)

Section Upsert.
Variables (g : Z) (fresh : SettingsRow) (upd : SettingsRow -> SettingsRow).
Hypothesis fresh_id : gs_guild_id fresh = g.
Hypothesis upd_id : forall r, gs_guild_id (upd r) = gs_guild_id r.

Lemma upsert_found (t : list SettingsRow) :
  List.find (fun r => gs_guild_id r =? g) (upsert_settings g fresh upd t)
  = Some (match List.find (fun r => gs_guild_id r =? g) t with
          | Some r => upd r
          | None => fresh
          end).
Proof.
  unfold upsert_settings.
  destruct (existsb (fun r => gs_guild_id r =? g) t) eqn:Hex.
  - induction t as [|r t IH]; simpl in *; [discriminate|].
    destruct (gs_guild_id r =? g) eqn:Hr; simpl.
    + by rewrite upd_id, Hr.
    + rewrite Hr. auto.
  - rewrite find_snoc, fresh_id, Z.eqb_refl.
    induction t as [|r t IH]; simpl in *; [reflexivity|].
    destruct (gs_guild_id r =? g); simpl in *; [discriminate|auto].
Qed.

Lemma upsert_other (g' : Z) (t : list SettingsRow) :
  g' <> g ->
  List.find (fun r => gs_guild_id r =? g') (upsert_settings g fresh upd t)
  = List.find (fun r => gs_guild_id r =? g') t.
Proof.
  intros Hne. unfold upsert_settings.
  destruct (existsb (fun r => gs_guild_id r =? g) t).
  - induction t as [|r t IH]; simpl; [reflexivity|].
    destruct (Z.eqb_spec (gs_guild_id r) g) as [Hr|Hr].
    + rewrite upd_id, Hr. apply Z.eqb_neq in Hne. rewrite Z.eqb_sym, Hne. exact IH.
    + destruct (gs_guild_id r =? g'); [reflexivity|exact IH].
  - rewrite find_snoc, fresh_id. apply Z.eqb_neq in Hne. rewrite Z.eqb_sym, Hne.
    by destruct (List.find _ t).
Qed.

Lemma upsert_keys_NoDup (t : list SettingsRow) :
  NoDup (List.map gs_guild_id t) ->
  NoDup (List.map gs_guild_id (upsert_settings g fresh upd t)).
Proof.
  intros Hnd. unfold upsert_settings.
  destruct (existsb (fun r => gs_guild_id r =? g) t) eqn:Hex.
  - replace (List.map gs_guild_id
               (List.map (fun r => if gs_guild_id r =? g then upd r else r) t))
      with (List.map gs_guild_id t); [assumption|].
    clear Hnd Hex. induction t as [|r t IH]; simpl; [reflexivity|].
    rewrite <- IH. f_equal. destruct (gs_guild_id r =? g); [by rewrite upd_id|reflexivity].
  - rewrite map_app. simpl. apply NoDup_snoc; [assumption|].
    rewrite fresh_id. intros Hin.
    apply list_elem_of_In, in_map_iff in Hin as (r & Hr & Hin).
    assert (existsb (fun r => gs_guild_id r =? g) t = true); [|congruence].
    apply existsb_exists. exists r. split; [assumption|]. by apply Z.eqb_eq.
Qed.
End Upsert.

(** X5: each of [set_suggestion_channel], [set_reviewer_role] and
    [set_blocked_role] is an upsert on the guild's row: afterwards
    [get_guild_settings] finds a row for the guild whose column just set
    has the new value and whose two other columns are those of the
    previous row - NULL when the guild had none; the rows of the other
    guilds are as before. *)
Theorem settings_round_trip (guild_id value : Z) (d : DB) :
  let before := get_guild_settings (Some guild_id) d in
  (exists row,
     get_guild_settings (Some guild_id) (set_suggestion_channel guild_id value d) = Some row
     /\ gs_suggestion_channel_id row = Some value
     /\ gs_reviewer_role_id row = before ≫= gs_reviewer_role_id
     /\ gs_blocked_role_id row = before ≫= gs_blocked_role_id)
  /\ (exists row,
        get_guild_settings (Some guild_id) (set_reviewer_role guild_id value d) = Some row
        /\ gs_suggestion_channel_id row = before ≫= gs_suggestion_channel_id
        /\ gs_reviewer_role_id row = Some value
        /\ gs_blocked_role_id row = before ≫= gs_blocked_role_id)
  /\ (exists row,
        get_guild_settings (Some guild_id) (set_blocked_role guild_id value d) = Some row
        /\ gs_suggestion_channel_id row = before ≫= gs_suggestion_channel_id
        /\ gs_reviewer_role_id row = before ≫= gs_reviewer_role_id
        /\ gs_blocked_role_id row = Some value)
  /\ (forall other, other <> Some guild_id ->
        get_guild_settings other (set_suggestion_channel guild_id value d)
        = get_guild_settings other d
        /\ get_guild_settings other (set_reviewer_role guild_id value d)
           = get_guild_settings other d
        /\ get_guild_settings other (set_blocked_role guild_id value d)
           = get_guild_settings other d).
Proof.
  intros before. unfold before, get_guild_settings.
  unfold set_suggestion_channel, set_reviewer_role, set_blocked_role. simpl.
  split; [|split; [|split]].
  - eexists. split; [apply upsert_found; reflexivity|].
    by destruct (List.find _ (suggestion_guild_settings d)).
  - eexists. split; [apply upsert_found; reflexivity|].
    by destruct (List.find _ (suggestion_guild_settings d)).
  - eexists. split; [apply upsert_found; reflexivity|].
    by destruct (List.find _ (suggestion_guild_settings d)).
  - intros [g'|] Hother; [|auto].
    assert (g' <> guild_id) by congruence.
    repeat split; by apply upsert_other.
Qed.

Lemma settings_round_trip_witness :
  get_guild_settings (Some 2) (set_suggestion_channel 1 11 db_pending)
  = get_guild_settings (Some 2) db_pending
  /\ exists row,
       get_guild_settings (Some 1) (set_suggestion_channel 1 11 db_pending) = Some row
       /\ gs_suggestion_channel_id row = Some 11
       /\ gs_reviewer_role_id row = Some 20.
Proof.
  destruct (settings_round_trip 1 11 db_pending) as ((row & Hget & Hc & Hr & _) & _ & _ & Hother).
  split; [apply Hother; discriminate|].
  exists row. auto.
Defined.

Lemma settings_pk_op op d : settings_pk d -> settings_pk (apply_op op d).
Proof.
  unfold settings_pk. intros Hpk. destruct op; simpl; try assumption.
  - unfold save_suggestion. destruct (get_suggestion _ d); assumption.
  - unfold add_vote. destruct (existsb _ (votes d)); assumption.
  - by apply upsert_keys_NoDup.
  - by apply upsert_keys_NoDup.
  - by apply upsert_keys_NoDup.
Qed.

(** X6: in every database the writes of the module can produce there is at
    most one settings row per guild. *)
Theorem one_settings_row_per_guild (d : DB) (guild_id : Z) :
  reachable d ->
  (length (List.filter (fun r => (gs_guild_id r =? guild_id)%Z)
             (suggestion_guild_settings d)) <= 1)%nat.
Proof.
  intros Hd. apply (NoDup_filter_key gs_guild_id _ guild_id).
  - intros r. apply Z.eqb_eq.
  - induction Hd as [|d' op _ IH]; [apply NoDup_nil_2|by apply settings_pk_op].
Qed.

Lemma one_settings_row_per_guild_witness :
  (length (List.filter (fun r => (gs_guild_id r =? 1)%Z)
             (suggestion_guild_settings db_restart)) <= 1)%nat.
Proof. apply (one_settings_row_per_guild db_restart 1 db_restart_reachable). Defined.

(** ** The tally, continued *)

Lemma vote_groups_keys t suggestion_id d :
  t ∈ (vote_groups suggestion_id d).*1 ->
  exists r, In r (votes d) /\ v_vote_type r = t.
Proof.
  unfold vote_groups. induction (votes d) as [|r rows IH]; simpl.
  - intros Hin. by apply elem_of_nil in Hin.
  - destruct (String.eqb (v_suggestion_id r) suggestion_id); simpl.
    + rewrite bump_keys. intros [->|Hin]; [eauto|].
      destruct (IH Hin) as (r' & Hr' & Ht). eauto.
    + intros Hin. destruct (IH Hin) as (r' & Hr' & Ht). eauto.
Qed.

Lemma count_votes_split suggestion_id (rows : list VoteRow) :
  Forall (fun r => v_vote_type r = "upvote" \/ v_vote_type r = "downvote") rows ->
  (length (List.filter (fun r => String.eqb (v_suggestion_id r) suggestion_id
                                 && String.eqb (v_vote_type r) "upvote") rows)
   + length (List.filter (fun r => String.eqb (v_suggestion_id r) suggestion_id
                                   && String.eqb (v_vote_type r) "downvote") rows)
   = length (List.filter (fun r => String.eqb (v_suggestion_id r) suggestion_id) rows))%nat.
Proof.
  induction 1 as [|r rows Hr _ IH]; simpl; [reflexivity|].
  destruct (String.eqb (v_suggestion_id r) suggestion_id); simpl; [|exact IH].
  destruct Hr as [-> | ->]; simpl; lia.
Qed.

(** X7: when every vote row has one of the two types of the buttons,
    [get_votes] is exactly the dict with the two counts - no other key -
    and the two counts add up to the number of vote rows of the
    suggestion. *)
Theorem get_votes_button_votes (suggestion_id : string) (d : DB) :
  button_votes d ->
  get_votes suggestion_id d
  = <["downvote" := count_votes "downvote" suggestion_id d]>
      (<["upvote" := count_votes "upvote" suggestion_id d]> ∅)
  /\ (count_votes "upvote" suggestion_id d + count_votes "downvote" suggestion_id d
      = count_rows suggestion_id d)%nat.
Proof.
  intros Hbutton. split; [|by apply count_votes_split].
  apply map_eq. intros t.
  destruct (decide (t = "downvote")) as [->|Hdown].
  { rewrite lookup_insert_eq. apply get_votes_lookup. auto. }
  rewrite lookup_insert_ne by congruence.
  destruct (decide (t = "upvote")) as [->|Hup].
  { rewrite lookup_insert_eq. apply get_votes_lookup. auto. }
  rewrite lookup_insert_ne by congruence. rewrite lookup_empty.
  unfold get_votes. rewrite fill_lookup by apply vote_groups_NoDup.
  rewrite group_count_absent.
  - rewrite !lookup_insert_ne by congruence. apply lookup_empty.
  - intros Hin. apply vote_groups_keys in Hin as (r & Hr & Ht).
    unfold button_votes in Hbutton. rewrite Forall_forall in Hbutton.
    apply list_elem_of_In, Hbutton in Hr. destruct Hr; congruence.
Qed.

Lemma get_votes_button_votes_witness :
  get_votes "k3x9a2bq" db_decided = <["downvote" := 0%nat]> (<["upvote" := 1%nat]> ∅).
Proof.
  apply (get_votes_button_votes "k3x9a2bq" db_decided).
  repeat constructor.
Defined.

(** ** The vote callbacks, continued *)

(** The database a vote leaves: the one it found, or - on a pending
    suggestion of the guild - the one of the decision table. *)
Lemma castVote_db dir d suggestion_id i :
  w_db (run (castVote dir suggestion_id i) d).2 = d
  \/ exists row,
       get_suggestion suggestion_id d = Some row
       /\ s_guild_id row = i_guild_id i
       /\ s_status row = "pending"
       /\ w_db (run (castVote dir suggestion_id i) d).2
          = (toggled dir suggestion_id (i_user_id i) d).2.
Proof.
  destruct (get_suggestion suggestion_id d) as [row|] eqn:Hget.
  - destruct (decide (s_guild_id row = i_guild_id i)) as [Hguild|Hguild].
    + destruct (String.eqb_spec (s_status row) "pending") as [Hstatus|Hstatus].
      * right. exists row. repeat split; try assumption.
        apply (castVote_pending_db dir d suggestion_id i row Hget Hguild Hstatus).
      * left. rewrite castVote_unfold, handle_vote_guards, Hget.
        rewrite Hguild, bool_decide_refl. apply String.eqb_neq in Hstatus.
        by rewrite Hstatus.
    + left. rewrite castVote_unfold, handle_vote_guards, Hget.
      by rewrite bool_decide_eq_false_2.
  - left. by rewrite castVote_unfold, handle_vote_guards, Hget.
Qed.

Lemma filter_no_vote suggestion_id user_id (rows : list VoteRow) :
  (suggestion_id, user_id) ∉ List.map vote_key rows ->
  List.filter (fun r => negb (vote_of suggestion_id user_id r)) rows = rows.
Proof.
  induction rows as [|r rows IH]; simpl; intros Hnot; [reflexivity|].
  apply not_elem_of_cons in Hnot as [Hr Hrows].
  destruct (vote_of suggestion_id user_id r) eqn:Hvote; simpl.
  - apply vote_of_key in Hvote. congruence.
  - by rewrite IH.
Qed.

(** Deleting the voter's row takes one off the count of its type. *)
Lemma count_without_vote suggestion_id user_id t (rows : list VoteRow) r0 :
  NoDup (List.map vote_key rows) ->
  List.find (vote_of suggestion_id user_id) rows = Some r0 ->
  let counted r := String.eqb (v_suggestion_id r) suggestion_id
                   && String.eqb (v_vote_type r) t in
  (length (List.filter counted
             (List.filter (fun r => negb (vote_of suggestion_id user_id r)) rows))
   + (if String.eqb (v_vote_type r0) t then 1 else 0)
   = length (List.filter counted rows))%nat.
Proof.
  intros Hnd Hfind counted. induction rows as [|r rows IH]; simpl in *; [discriminate|].
  apply NoDup_cons in Hnd as [Hr Hrows].
  destruct (vote_of suggestion_id user_id r) eqn:Hvote; simpl.
  - injection Hfind as ->.
    pose proof Hvote as Hkey. apply vote_of_key in Hkey. rewrite Hkey in Hr.
    rewrite (filter_no_vote _ _ _ Hr).
    unfold counted at 2. unfold vote_of in Hvote.
    apply andb_true_iff in Hvote as [-> _]. simpl.
    destruct (String.eqb (v_vote_type r0) t); simpl; lia.
  - specialize (IH Hrows Hfind). destruct (counted r); simpl; lia.
Qed.

Lemma count_votes_added t suggestion_id rows d (r : VoteRow) :
  count_votes t suggestion_id (set_votes (rows ++ [r]) d)
  = (count_votes t suggestion_id (set_votes rows d)
     + (if String.eqb (v_suggestion_id r) suggestion_id && String.eqb (v_vote_type r) t
        then 1 else 0))%nat.
Proof.
  unfold count_votes. simpl. rewrite List.filter_app, length_app. simpl.
  by destruct (_ && _).
Qed.

Lemma get_user_vote_find suggestion_id user_id d t :
  get_user_vote suggestion_id user_id d = Some t ->
  exists r0, List.find (vote_of suggestion_id user_id) (votes d) = Some r0
             /\ v_vote_type r0 = t.
Proof.
  unfold get_user_vote.
  destruct (List.find (vote_of suggestion_id user_id) (votes d)) as [r0|]; [|discriminate].
  intros [= <-]. eauto.
Qed.

Lemma set_votes_same d : set_votes (votes d) d = d.
Proof. by destruct d. Qed.

(** X8: on a pending suggestion of the guild, in a database with at most
    one vote row per (suggestion, voter), a press moves the tally by the
    voter's own vote only: a first vote adds one to the count of its type;
    pressing the button of the current vote takes one off that count;
    pressing the other button takes one off the count of the current vote
    and adds one to the other.  The count not mentioned stays as it was. *)
Theorem cast_vote_tally (dir : direction) (d : DB) (suggestion_id : string)
    (i : Interaction) (row : SuggestionRow) :
  votes_pk d ->
  get_suggestion suggestion_id d = Some row ->
  s_guild_id row = i_guild_id i ->
  s_status row = "pending" ->
  let d' := w_db (run (castVote dir suggestion_id i) d).2 in
  let mine := vote_name dir in
  let other := vote_name (opposite dir) in
  let count t x := count_votes t suggestion_id x in
  (get_user_vote suggestion_id (i_user_id i) d = None ->
   count mine d' = S (count mine d) /\ count other d' = count other d)
  /\ (get_user_vote suggestion_id (i_user_id i) d = Some mine ->
      S (count mine d') = count mine d /\ count other d' = count other d)
  /\ (get_user_vote suggestion_id (i_user_id i) d = Some other ->
      count mine d' = S (count mine d) /\ S (count other d') = count other d).
Proof.
  intros Hpk Hget Hguild Hstatus d' mine other count.
  assert (Hd' : d' = (toggled dir suggestion_id (i_user_id i) d).2).
  { unfold d'. apply (castVote_pending_db dir d suggestion_id i row Hget Hguild Hstatus). }
  assert (Hrow : forall t,
             (if String.eqb (v_suggestion_id (vote_row dir suggestion_id (i_user_id i)))
                   suggestion_id
                 && String.eqb (v_vote_type (vote_row dir suggestion_id (i_user_id i))) t
              then 1 else 0)%nat
             = (if String.eqb mine t then 1 else 0)%nat).
  { intros t. simpl. by rewrite String.eqb_refl. }
  assert (Hgone : forall t t0,
             get_user_vote suggestion_id (i_user_id i) d = Some t0 ->
             (count t (set_votes (other_votes suggestion_id (i_user_id i) d) d)
              + (if String.eqb t0 t then 1 else 0) = count t d)%nat).
  { intros t t0 Hcur. apply get_user_vote_find in Hcur as (r0 & Hfind & <-).
    apply (count_without_vote suggestion_id (i_user_id i) t (votes d) r0 Hpk Hfind). }
  assert (Hmo : String.eqb mine other = false) by (unfold mine, other; by destruct dir).
  assert (Hom : String.eqb other mine = false) by (unfold mine, other; by destruct dir).
  rewrite Hd'. unfold toggled. split; [|split]; intros Hcur; rewrite Hcur.
  - simpl. unfold count. rewrite !count_votes_added, !Hrow, !set_votes_same.
    fold mine other. rewrite String.eqb_refl, Hmo. lia.
  - fold mine. rewrite String.eqb_refl. simpl.
    pose proof (Hgone mine mine Hcur) as H1. pose proof (Hgone other mine Hcur) as H2.
    rewrite String.eqb_refl in H1. rewrite Hmo in H2. lia.
  - fold mine other. rewrite Hom, String.eqb_refl. simpl. unfold count.
    rewrite !count_votes_added, !Hrow.
    pose proof (Hgone mine other Hcur) as H1. pose proof (Hgone other other Hcur) as H2.
    rewrite Hom in H1. rewrite String.eqb_refl in H2. unfold count in H1, H2.
    fold mine other. rewrite String.eqb_refl, Hmo. lia.
Qed.

Lemma cast_vote_tally_witness :
  let d' := w_db (run (castVote Upvote "k3x9a2bq" (member 1 201 [])) db_pending).2 in
  count_votes "upvote" "k3x9a2bq" d' = 1%nat
  /\ count_votes "downvote" "k3x9a2bq" d' = 0%nat.
Proof.
  intros d'.
  destruct (cast_vote_tally Upvote db_pending "k3x9a2bq" (member 1 201 [])
              (sample_row "k3x9a2bq" "pending" None 0)) as (Hfirst & _);
    [apply NoDup_nil_2|reflexivity..|].
  apply Hfirst. reflexivity.
Defined.

Lemma toggled_other_pair dir suggestion_id user_id other_id other_user d :
  (other_id, other_user) <> (suggestion_id, user_id) ->
  get_user_vote other_id other_user (toggled dir suggestion_id user_id d).2
  = get_user_vote other_id other_user d.
Proof.
  intros Hne.
  assert (Hrow : vote_of other_id other_user (vote_row dir suggestion_id user_id) = false).
  { destruct (vote_of other_id other_user _) eqn:Hrow; [|reflexivity].
    apply vote_of_key in Hrow. unfold vote_key in Hrow. simpl in Hrow. congruence. }
  assert (Hfilter : List.find (vote_of other_id other_user)
                      (other_votes suggestion_id user_id d)
                    = List.find (vote_of other_id other_user) (votes d)).
  { unfold other_votes. apply find_filter_other.
    intros r Hr. by rewrite (vote_of_other _ _ _ _ _ Hne Hr). }
  unfold toggled, get_user_vote.
  destruct (List.find (vote_of suggestion_id user_id) (votes d)) as [r0|]; simpl.
  - destruct (String.eqb (v_vote_type r0) (vote_name dir)); simpl.
    + by rewrite Hfilter.
    + destruct (String.eqb (v_vote_type r0) (vote_name (opposite dir))); simpl;
        [|reflexivity].
      rewrite find_snoc, Hfilter, Hrow.
      by destruct (List.find (vote_of other_id other_user) (votes d)).
  - rewrite find_snoc, Hrow.
    by destruct (List.find (vote_of other_id other_user) (votes d)).
Qed.

Lemma toggled_settings dir suggestion_id user_id d :
  suggestion_guild_settings (toggled dir suggestion_id user_id d).2
  = suggestion_guild_settings d.
Proof.
  unfold toggled. destruct (get_user_vote suggestion_id user_id d) as [t|]; [|reflexivity].
  destruct (String.eqb t (vote_name dir)); [reflexivity|].
  destruct (String.eqb t (vote_name (opposite dir))); reflexivity.
Qed.

(** X9: whatever the suggestion and its status, a press on a vote button
    changes nothing but the presser's own vote on that suggestion: the
    vote of every other (suggestion, voter) pair, the suggestions table and
    the settings are as before. *)
Theorem cast_vote_frame (dir : direction) (d : DB) (suggestion_id : string)
    (i : Interaction) :
  let d' := w_db (run (castVote dir suggestion_id i) d).2 in
  suggestions d' = suggestions d
  /\ suggestion_guild_settings d' = suggestion_guild_settings d
  /\ (forall other_id other_user,
        (other_id, other_user) <> (suggestion_id, i_user_id i) ->
        get_user_vote other_id other_user d' = get_user_vote other_id other_user d).
Proof.
  intros d'. unfold d'.
  destruct (castVote_db dir d suggestion_id i) as [-> | (row & _ & _ & _ & ->)].
  - auto.
  - split; [apply toggled_suggestions|]. split; [apply toggled_settings|].
    intros other_id other_user Hne. by apply toggled_other_pair.
Qed.

Lemma cast_vote_frame_witness :
  get_user_vote "k3x9a2bq" 200
    (w_db (run (castVote Downvote "k3x9a2bq" (member 1 201 [])) db_decided).2)
  = get_user_vote "k3x9a2bq" 200 db_decided.
Proof.
  apply (cast_vote_frame Downvote db_decided "k3x9a2bq" (member 1 201 [])).
  discriminate.
Defined.

(** X10: a vote on a pending suggestion is committed before anything is
    sent, and neither a failing acknowledgment nor a failing re-rendering
    undoes it: the database is the one of the decision table and the first
    platform call is the acknowledgment, whether the callback then returns
    (the edit succeeded or was forbidden) or raises (what the
    acknowledgment raised, [IndexError] on a message without embed, or what
    [message.edit] raised). *)
Theorem cast_vote_survives_rendering (dir : direction) (d : DB) (suggestion_id : string)
    (i : Interaction) (row : SuggestionRow) :
  get_suggestion suggestion_id d = Some row ->
  s_guild_id row = i_guild_id i ->
  s_status row = "pending" ->
  let outcome := run (castVote dir suggestion_id i) d in
  w_db outcome.2 = (toggled dir suggestion_id (i_user_id i) d).2
  /\ head (w_trace outcome.2)
     = Some (Respond (ack dir (toggled dir suggestion_id (i_user_id i) d).1))
  /\ outcome.1 = match i_respond i 0%nat with
                 | Raised e => Raised e
                 | Ok _ =>
                     match i_message_embeds i with
                     | [] => Raised IndexError
                     | _ :: _ =>
                         match i_message_edit i with
                         | Raised Forbidden => Ok tt
                         | edited => edited
                         end
                     end
                 end.
Proof.
  intros Hget Hguild Hstatus outcome. unfold outcome.
  split; [apply (castVote_pending_db dir d suggestion_id i row Hget Hguild Hstatus)|].
  rewrite (castVote_pending dir d suggestion_id i row Hget Hguild Hstatus). simpl.
  destruct (i_respond i 0%nat); [|split; reflexivity].
  assert (Hget' : get_suggestion suggestion_id (toggled dir suggestion_id (i_user_id i) d).2
                  = Some row)
    by (unfold get_suggestion; rewrite toggled_suggestions; exact Hget).
  unfold update_embed. unfold_monad. rewrite Hget'.
  destruct (i_message_embeds i) as [|embed rest]; simpl; [auto|].
  destruct (i_message_edit i) as [[]|[]]; simpl; auto.
Qed.

Lemma cast_vote_survives_rendering_witness :
  let i := member_message_gone 1 201 [] in
  let outcome := run (castVote Upvote "k3x9a2bq" i) db_pending in
  outcome.1 = Raised NotFound
  /\ get_user_vote "k3x9a2bq" 201 (w_db outcome.2) = Some "upvote".
Proof.
  intros i outcome.
  destruct (cast_vote_survives_rendering Upvote db_pending "k3x9a2bq" i
              (sample_row "k3x9a2bq" "pending" None 0)) as (Hdb & _ & Hres);
    [reflexivity..|].
  split; [exact Hres|]. fold outcome in Hdb. rewrite Hdb. reflexivity.
Defined.

(** ** Submission, continued *)

(** What [on_submit] does once its checks have passed.  An acknowledgment
    that raises inside the [try] is caught like any other exception and
    answered by a second one. *)
Lemma on_submit_ready i title description pros cons image_url d channel :
  channel_ready i d channel ->
  let suggestion_id := generate_suggestion_id (i_rng i) in
  let sent := ChannelSend channel
                (suggestion_embed i suggestion_id title description pros cons image_url)
                suggestion_id in
  run (on_submit i title description pros cons image_url) d
  = match i_channel_send i with
    | Raised e =>
        (i_respond i 0%nat, {| w_db := d; w_trace := [sent; Respond (submit_error e)] |})
    | Ok message =>
        let threaded := CreateThread message (thread_name title) in
        match i_create_thread i with
        | Raised e =>
            (i_respond i 0%nat,
             {| w_db := d; w_trace := [sent; threaded; Respond (submit_error e)] |})
        | Ok thread =>
            match save_suggestion suggestion_id (i_guild_id i) (i_user_id i) message
                    (Some thread) title description pros cons image_url (i_now i) d with
            | (Raised e, d') =>
                (i_respond i 0%nat,
                 {| w_db := d'; w_trace := [sent; threaded; Respond (submit_error e)] |})
            | (Ok _, d') =>
                match i_respond i 0%nat with
                | Ok _ =>
                    (Ok tt,
                     {| w_db := d';
                        w_trace := [sent; threaded; Respond SuggestionSubmitted] |})
                | Raised e =>
                    (i_respond i 1%nat,
                     {| w_db := d';
                        w_trace := [sent; threaded; Respond SuggestionSubmitted;
                                    Respond (submit_error e)] |})
                end
            end
        end
    end.
Proof.
  intros (settings & Hsettings & Htruthy & Hchannel & Hperms) suggestion_id sent.
  unfold on_submit. unfold_monad. fold suggestion_id.
  rewrite Hsettings, Htruthy, Hchannel, Hperms. simpl.
  destruct (i_channel_send i) as [message|e]; simpl; [|by destruct e].
  destruct (i_create_thread i) as [thread|e]; simpl; [|by destruct e].
  destruct (save_suggestion suggestion_id _ _ _ _ _ _ _ _ _ _ d) as [[[]|e] d']; simpl;
    [|by destruct e].
  destruct (i_respond i 0%nat) as [[]|e]; simpl; [reflexivity|by destruct e].
Qed.

(** What [on_submit] does when a check fails. *)
Lemma on_submit_not_ready i title description pros cons image_url d :
  (forall channel, ~ channel_ready i d channel) ->
  exists r,
    run (on_submit i title description pros cons image_url) d
    = (i_respond i 0%nat, {| w_db := d; w_trace := [Respond r] |})
    /\ r <> SuggestionSubmitted.
Proof.
  intros Hnot. unfold on_submit. unfold_monad.
  destruct (get_guild_settings (i_guild_id i) d) as [settings|] eqn:Hsettings;
    [|by eexists].
  destruct (truthy_id (gs_suggestion_channel_id settings)) eqn:Htruthy; simpl;
    [|by eexists].
  destruct (get_channel i (gs_suggestion_channel_id settings)) as [channel|] eqn:Hchannel;
    [|by eexists].
  destruct (check_missing_permissions (i_bot_perms i) required_perms) eqn:Hperms;
    [|by eexists].
  exfalso. apply (Hnot channel). exists settings. auto.
Qed.

(** X11: when the checks pass, the platform accepts the message and the
    thread, and the identifier drawn is free, [on_submit] publishes the
    embed with the buttons of that identifier, opens the thread, stores one
    new row - pending, undecided, of the submitter and guild of the
    interaction, pointing to the message and thread just created - and
    then answers that the suggestion was submitted.  When that answer is
    delivered the handler returns; when it raises, the exception is caught,
    the error is answered in a second acknowledgment, whose outcome is the
    handler's, and the row stays stored.  Every other suggestion and all
    votes are as before. *)
Theorem submit_stores_pending_row (i : Interaction) (title description pros cons : string)
    (image_url : option string) (d : DB) (channel message thread : Z) :
  let suggestion_id := generate_suggestion_id (i_rng i) in
  publishes i d channel message thread ->
  get_suggestion suggestion_id d = None ->
  exists d',
    run (on_submit i title description pros cons image_url) d
    = (let sent := ChannelSend channel
                     (suggestion_embed i suggestion_id title description pros cons
                        image_url)
                     suggestion_id in
       let threaded := CreateThread message (thread_name title) in
       match i_respond i 0%nat with
       | Ok _ =>
           (Ok tt,
            {| w_db := d';
               w_trace := [sent; threaded; Respond SuggestionSubmitted] |})
       | Raised e =>
           (i_respond i 1%nat,
            {| w_db := d';
               w_trace := [sent; threaded; Respond SuggestionSubmitted;
                           Respond (submit_error e)] |})
       end)
    /\ get_suggestion suggestion_id d'
       = Some (new_row suggestion_id (i_guild_id i) (i_user_id i) message (Some thread)
                 title description pros cons image_url (i_now i))
    /\ (forall other, other <> suggestion_id ->
                      get_suggestion other d' = get_suggestion other d)
    /\ votes d' = votes d.
Proof.
  intros suggestion_id (settings & Hs & Ht & Hc & Hp & Hsend & Hthread) Hfree.
  assert (Hready : channel_ready i d channel) by (exists settings; auto).
  rewrite (on_submit_ready i title description pros cons image_url d channel Hready).
  rewrite Hsend, Hthread. simpl. fold suggestion_id. clearbody suggestion_id.
  unfold save_suggestion. rewrite Hfree. eexists. split; [reflexivity|].
  unfold get_suggestion in *. simpl. split; [|split; [|reflexivity]].
  - rewrite find_snoc, Hfree. simpl. by rewrite String.eqb_refl.
  - intros other Hother. rewrite find_snoc. simpl.
    apply String.eqb_neq in Hother. rewrite String.eqb_sym, Hother.
    by destruct (List.find (fun r => String.eqb (s_suggestion_id r) other)
                   (suggestions d)).
Qed.

Lemma submit_stores_pending_row_witness :
  let i := member 1 100 [] in
  exists d',
    run (on_submit i "Dark mode" "A dark theme" "Easy on the eyes" "More work" None)
      db_pending
    = (Ok tt,
       {| w_db := d';
          w_trace :=
            [ChannelSend 10
               (suggestion_embed i "aaaaaaaa" "Dark mode" "A dark theme"
                  "Easy on the eyes" "More work" None)
               "aaaaaaaa";
             CreateThread 501 "Dark mode";
             Respond SuggestionSubmitted] |})
    /\ get_suggestion "aaaaaaaa" d'
       = Some (new_row "aaaaaaaa" (Some 1) 100 501 (Some 601) "Dark mode" "A dark theme"
                 "Easy on the eyes" "More work" None "2024-05-02T09:30:00+00:00")
    /\ get_suggestion "k3x9a2bq" d' = get_suggestion "k3x9a2bq" db_pending.
Proof.
  intros i.
  destruct (submit_stores_pending_row i "Dark mode" "A dark theme" "Easy on the eyes"
              "More work" None db_pending 10 501 601)
    as (d' & Hrun & Hget & Hother & _).
  - exists sample_settings. repeat split; reflexivity.
  - reflexivity.
  - exists d'. split; [exact Hrun|]. split; [exact Hget|].
    apply Hother. discriminate.
Defined.

Lemma channel_ready_dec i d :
  (exists channel, channel_ready i d channel) \/ (forall channel, ~ channel_ready i d channel).
Proof.
  unfold channel_ready.
  destruct (get_guild_settings (i_guild_id i) d) as [settings|];
    [|right; intros c (x & Hx & _); discriminate].
  destruct (truthy_id (gs_suggestion_channel_id settings)) eqn:Htruthy;
    [|right; intros c (x & Hx & Ht & _); congruence].
  destruct (get_channel i (gs_suggestion_channel_id settings)) as [channel|] eqn:Hchannel;
    [|right; intros c (x & Hx & _ & Hc & _); congruence].
  destruct (check_missing_permissions (i_bot_perms i) required_perms) eqn:Hperms;
    [|right; intros c (x & Hx & _ & _ & Hp); congruence].
  left. exists channel, settings. auto.
Qed.

Lemma submit_error_not_success e : submit_error e <> SuggestionSubmitted.
Proof. by destruct e. Qed.

(** X12: [on_submit] raises only what an acknowledgment of its own raises,
    and writes to the database only on the path whose first acknowledgment
    is "Suggestion submitted": there the message and the thread were
    created, the identifier was free, and the one change is the new row
    appended to the suggestions, made before that acknowledgment is sent.
    If it is delivered the handler returns, and it is the only one; if it
    raises with [e], the exception is caught, the error [e] is answered in
    a second acknowledgment whose outcome is the handler's, and the row
    stays stored.  On every other path - a failed check, a refusal of the
    platform, a taken identifier - there is exactly one acknowledgment,
    not the success one, its outcome is the handler's, and the database is
    as it was. *)
Theorem submit_writes_only_on_success (i : Interaction)
    (title description pros cons : string) (image_url : option string) (d : DB) :
  let outcome := run (on_submit i title description pros cons image_url) d in
  let suggestion_id := generate_suggestion_id (i_rng i) in
  (get_suggestion suggestion_id d = None
   /\ (exists message thread,
         i_channel_send i = Ok message
         /\ i_create_thread i = Ok thread
         /\ w_db outcome.2
            = set_suggestions
                (suggestions d ++
                 [new_row suggestion_id (i_guild_id i) (i_user_id i) message
                    (Some thread) title description pros cons image_url (i_now i)]) d)
   /\ match i_respond i 0%nat with
      | Ok _ =>
          outcome.1 = Ok tt
          /\ responses (w_trace outcome.2) = [SuggestionSubmitted]
      | Raised e =>
          outcome.1 = i_respond i 1%nat
          /\ responses (w_trace outcome.2) = [SuggestionSubmitted; submit_error e]
      end)
  \/ (exists r, responses (w_trace outcome.2) = [r]
                /\ r <> SuggestionSubmitted
                /\ outcome.1 = i_respond i 0%nat
                /\ w_db outcome.2 = d).
Proof.
  intros outcome suggestion_id. unfold outcome.
  destruct (channel_ready_dec i d) as [[channel Hready]|Hnot].
  - rewrite (on_submit_ready i title description pros cons image_url d channel Hready).
    fold suggestion_id.
    destruct (i_channel_send i) as [message|e]; simpl.
    + destruct (i_create_thread i) as [thread|e]; simpl.
      * unfold save_suggestion.
        destruct (get_suggestion suggestion_id d) eqn:Hget; simpl.
        -- right. eexists. by repeat split.
        -- left. split; [reflexivity|].
           destruct (i_respond i 0%nat) as [[]|e]; simpl;
             (split; [by exists message, thread|by split]).
      * right. exists (submit_error e).
        repeat split. apply submit_error_not_success.
    + right. exists (submit_error e).
      repeat split. apply submit_error_not_success.
  - destruct (on_submit_not_ready i title description pros cons image_url d Hnot)
      as (r & -> & Hr).
    right. by exists r.
Qed.

Lemma submit_writes_only_on_success_witness :
  let i := member_no_ack 1 100 [] in
  let outcome := run (on_submit i "Dark mode" "A dark theme" "Easy on the eyes"
                        "More work" None) db_pending in
  outcome.1 = Raised NotFound
  /\ responses (w_trace outcome.2) = [SuggestionSubmitted; ErrorCreating NotFound]
  /\ (exists row, get_suggestion "aaaaaaaa" (w_db outcome.2) = Some row)
  /\ (get_suggestion "aaaaaaaa" db_pending = None
      /\ (exists message thread,
            i_channel_send i = Ok message
            /\ i_create_thread i = Ok thread
            /\ w_db outcome.2
               = set_suggestions
                   (suggestions db_pending ++
                    [new_row "aaaaaaaa" (i_guild_id i) (i_user_id i) message
                       (Some thread) "Dark mode" "A dark theme" "Easy on the eyes"
                       "More work" None (i_now i)]) db_pending)
      /\ match i_respond i 0%nat with
         | Ok _ =>
             outcome.1 = Ok tt
             /\ responses (w_trace outcome.2) = [SuggestionSubmitted]
         | Raised e =>
             outcome.1 = i_respond i 1%nat
             /\ responses (w_trace outcome.2) = [SuggestionSubmitted; submit_error e]
         end
      \/ (exists r, responses (w_trace outcome.2) = [r]
                    /\ r <> SuggestionSubmitted
                    /\ outcome.1 = i_respond i 0%nat
                    /\ w_db outcome.2 = db_pending)).
Proof.
  intros i outcome.
  split; [reflexivity|]. split; [reflexivity|]. split; [by eexists|].
  exact (submit_writes_only_on_success i "Dark mode" "A dark theme" "Easy on the eyes"
           "More work" None db_pending).
Defined.

(** X13: when the message has been sent and [create_thread] then raises,
    [on_submit] answers with the error - returning or raising as that send
    does - and stores nothing; the message stays published with the
    buttons of the identifier drawn, and - the identifier being in no row -
    a press on them is answered "Suggestion not found". *)
Theorem submit_thread_failure (i : Interaction) (title description pros cons : string)
    (image_url : option string) (d : DB) (channel message : Z) (e : exn) :
  let suggestion_id := generate_suggestion_id (i_rng i) in
  channel_ready i d channel ->
  i_channel_send i = Ok message ->
  i_create_thread i = Raised e ->
  get_suggestion suggestion_id d = None ->
  let outcome := run (on_submit i title description pros cons image_url) d in
  outcome
  = (i_respond i 0%nat,
     {| w_db := d;
        w_trace :=
          [ChannelSend channel
             (suggestion_embed i suggestion_id title description pros cons image_url)
             suggestion_id;
           CreateThread message (thread_name title);
           Respond (submit_error e)] |})
  /\ (forall dir voter,
        run (castVote dir suggestion_id voter) (w_db outcome.2)
        = (i_respond voter 0%nat,
           {| w_db := d; w_trace := [Respond SuggestionNotFound] |})).
Proof.
  intros suggestion_id Hready Hsend Hthread Hfree outcome. unfold outcome.
  rewrite (on_submit_ready i title description pros cons image_url d channel Hready).
  rewrite Hsend, Hthread. simpl. split; [reflexivity|].
  intros dir voter. by rewrite castVote_unfold, handle_vote_guards, Hfree.
Qed.

Lemma submit_thread_failure_witness :
  let i := member_no_thread 1 100 [] in
  let outcome := run (on_submit i "Dark mode" "A dark theme" "Easy on the eyes"
                        "More work" None) db_pending in
  outcome.1 = Ok tt
  /\ w_db outcome.2 = db_pending
  /\ responses (w_trace outcome.2) = [LacksPermissions]
  /\ run (castVote Upvote "aaaaaaaa" (member 1 201 [])) (w_db outcome.2)
     = (Ok tt, {| w_db := db_pending; w_trace := [Respond SuggestionNotFound] |}).
Proof.
  intros i outcome.
  destruct (submit_thread_failure i "Dark mode" "A dark theme" "Easy on the eyes"
              "More work" None db_pending 10 501 Forbidden) as [Hrun Hvote].
  - exists sample_settings. repeat split; reflexivity.
  - reflexivity.
  - reflexivity.
  - reflexivity.
  - fold outcome in Hrun, Hvote. split; [by rewrite Hrun|].
    split; [by rewrite Hrun|]. split; [by rewrite Hrun|].
    apply (Hvote Upvote (member 1 201 [])).
Defined.

Lemma take_code_points_count (n : nat) (s : string) :
  code_points (take_code_points n s) = Nat.min n (code_points s).
Proof.
  revert n. induction s as [|c s IH]; intros n; simpl.
  - by destruct n.
  - destruct (continuation c) eqn:Hc; simpl.
    + rewrite Hc. apply IH.
    + destruct n as [|n]; simpl; [reflexivity|]. by rewrite Hc, IH.
Qed.

Lemma take_code_points_prefix (n : nat) (s : string) :
  String.prefix (take_code_points n s) s = true.
Proof.
  revert n. induction s as [|c s IH]; intros n; simpl; [reflexivity|].
  destruct (continuation c); simpl.
  - rewrite IH. by destruct (ascii_dec c c).
  - destruct n as [|n]; simpl; [reflexivity|].
    rewrite IH. by destruct (ascii_dec c c).
Qed.

Lemma take_code_points_whole (n : nat) (s : string) :
  exists rest,
    s = take_code_points n s ++ rest
    /\ forall c rest', rest = String c rest' -> continuation c = false.
Proof.
  revert n. induction s as [|c s IH]; intros n; simpl.
  - exists EmptyString. split; [reflexivity|discriminate].
  - destruct (continuation c) eqn:Hc; simpl.
    + destruct (IH n) as (rest & Hs & Hrest). exists rest. split; [|exact Hrest].
      change (String c s = String c (take_code_points n s ++ rest)). congruence.
    + destruct n as [|n]; simpl.
      * exists (String c s). split; [reflexivity|]. intros c' rest' H.
        by inversion H; subst.
      * destruct (IH n) as (rest & Hs & Hrest). exists rest. split; [|exact Hrest].
        change (String c s = String c (take_code_points n s ++ rest)). congruence.
Qed.

Lemma prefix_refl (s : string) : String.prefix s s = true.
Proof.
  induction s as [|a s IH]; simpl; [reflexivity|].
  by destruct (ascii_dec a a).
Qed.

Lemma append_empty (s : string) : s ++ EmptyString = s.
Proof.
  induction s as [|a s IH]; [reflexivity|].
  change (String a (s ++ EmptyString) = String a s). congruence.
Qed.

(** X15: the thread of a suggestion is named by a prefix of its title, of
    at most 80 code points: the title itself when it has no more than
    that, its first 80 code points otherwise.  Lengths are counted in code
    points, as [len] and slicing do, not in bytes of the encoded text, and
    the cut never falls inside the encoding of a code point. *)
Theorem thread_name_bound (title : string) :
  (code_points (thread_name title) <= 80)%nat
  /\ String.prefix (thread_name title) title = true
  /\ ((code_points title <= 80)%nat -> thread_name title = title)
  /\ ((80 < code_points title)%nat -> code_points (thread_name title) = 80%nat)
  /\ (exists rest,
        title = thread_name title ++ rest
        /\ forall c rest', rest = String c rest' -> continuation c = false).
Proof.
  unfold thread_name.
  destruct (Nat.ltb_spec 80 (code_points title)) as [Hlong|Hshort].
  - rewrite take_code_points_count.
    split; [lia|]. split; [apply take_code_points_prefix|].
    split; [lia|]. split; [lia|]. apply take_code_points_whole.
  - split; [lia|]. split; [apply prefix_refl|].
    split; [reflexivity|]. split; [lia|].
    exists EmptyString. split; [by rewrite append_empty|discriminate].
Qed.

Lemma thread_name_bound_witness :
  (80 < code_points (accented_title 81))%nat
  /\ String.length (accented_title 81) = 162%nat
  /\ thread_name (accented_title 81) = accented_title 80
  /\ String.length (thread_name (accented_title 81)) = 160%nat
  /\ code_points (thread_name (accented_title 81)) = 80%nat.
Proof.
  assert (Hlong : (80 < code_points (accented_title 81))%nat) by (vm_compute; lia).
  split; [exact Hlong|]. split; [reflexivity|]. split; [reflexivity|].
  split; [reflexivity|].
  by apply (thread_name_bound (accented_title 81)).
Defined.

(** A title of 41 accented letters takes 82 bytes and is kept whole. *)
Lemma thread_name_counts_code_points :
  String.length (accented_title 41) = 82%nat
  /\ thread_name (accented_title 41) = accented_title 41.
Proof. split; reflexivity. Qed.

(** ** Rendering *)







(** ** Decisions, continued *)

(** X17: the gate of [approve] and [reject].  When the guild has no
    reviewer role configured, the command answers "Reviewer role not set
    up" - to administrators too; when a role is configured and the caller
    is not an administrator and the role no longer exists or the caller
    does not hold it, the command answers "You need the reviewer role".
    In both cases nothing is written and nothing is rendered, and the
    command returns or raises as that one answer does. *)
Theorem decide_gate (v : Verdict) (i : Interaction) (suggestion_id : string)
    (reason : option string) (anonymous : bool) (d : DB) :
  ((forall settings, get_guild_settings (i_guild_id i) d = Some settings ->
                     truthy_id (gs_reviewer_role_id settings) = false) ->
   run (decide_command v i suggestion_id reason anonymous) d
   = (i_respond i 0%nat, {| w_db := d; w_trace := [Respond ReviewerRoleNotSetUp] |}))
  /\ (forall settings,
        get_guild_settings (i_guild_id i) d = Some settings ->
        truthy_id (gs_reviewer_role_id settings) = true ->
        i_administrator i = false ->
        (forall role, get_role i (gs_reviewer_role_id settings) = Some role ->
                      ~ In role (i_user_roles i)) ->
        run (decide_command v i suggestion_id reason anonymous) d
        = (i_respond i 0%nat, {| w_db := d; w_trace := [Respond NeedReviewerRole] |})).
Proof.
  split.
  - intros Hnone. unfold decide_command. unfold_monad.
    destruct (get_guild_settings (i_guild_id i) d) as [settings|]; [|reflexivity].
    by rewrite (Hnone settings eq_refl).
  - intros settings Hsettings Hrole Hadmin Hholds. unfold decide_command. unfold_monad.
    rewrite Hsettings, Hrole, Hadmin. simpl.
    destruct (get_role i (gs_reviewer_role_id settings)) as [role|]; [|reflexivity].
    destruct (existsb (Z.eqb role) (i_user_roles i)) eqn:Hex; [|reflexivity].
    exfalso. apply existsb_exists in Hex as (x & Hin & Heq).
    apply Z.eqb_eq in Heq as <-. by apply (Hholds role).
Qed.

Lemma decide_gate_witness :
  run (approve (member 1 8 []) "k3x9a2bq" None false) db_pending
  = (Ok tt, {| w_db := db_pending; w_trace := [Respond NeedReviewerRole] |})
  /\ run (reject (member 2 7 [20]) "k3x9a2bq" None false) db_pending
     = (Ok tt, {| w_db := db_pending; w_trace := [Respond ReviewerRoleNotSetUp] |}).
Proof.
  split.
  - apply (decide_gate approved (member 1 8 []) "k3x9a2bq" None false db_pending)
      with sample_settings; try reflexivity.
    intros role _ [].
  - apply (decide_gate rejected (member 2 7 [20]) "k3x9a2bq" None false db_pending).
    intros settings. discriminate.
Defined.

(** X18: a decision closes the vote.  Once [approve] or [reject] has
    gone through, the vote rows are those of before the decision, and
    every later press on a button of the suggestion leaves the database as
    it is - in the guild of the suggestion with the one answer "Voting is
    closed", returning or raising as that answer does. *)
Theorem decision_closes_voting (i : Interaction) (suggestion_id : string)
    (reason : option string) (anonymous : bool) (d : DB) (row : SuggestionRow)
    (command : Interaction -> string -> option string -> bool -> M unit) :
  command = approve \/ command = reject ->
  is_reviewer i d = true ->
  get_suggestion suggestion_id d = Some row ->
  s_guild_id row = i_guild_id i ->
  let d' := w_db (run (command i suggestion_id reason anonymous) d).2 in
  votes d' = votes d
  /\ (forall dir voter, w_db (run (castVote dir suggestion_id voter) d').2 = d')
  /\ (forall dir voter,
        i_guild_id voter = i_guild_id i ->
        run (castVote dir suggestion_id voter) d'
        = (i_respond voter 0%nat, {| w_db := d'; w_trace := [Respond VotingClosed] |})).
Proof.
  intros Hcommand Hrev Hget Hguild d'.
  assert (Hv : exists v, command = decide_command v
                         /\ String.eqb (vd_status v) "pending" = false)
    by (destruct Hcommand as [-> | ->]; eexists; split; reflexivity).
  destruct Hv as (v & -> & Hstatus).
  destruct (decide_command_commits v i suggestion_id reason anonymous d row
              Hrev Hget Hguild) as (events & Hrun & _).
  assert (Hd' : d' = update_suggestion_status suggestion_id (vd_status v) reason anonymous d)
    by (unfold d'; by rewrite Hrun).
  clearbody d'. subst d'.
  assert (Hget' : get_suggestion suggestion_id
                    (update_suggestion_status suggestion_id (vd_status v) reason anonymous d)
                  = Some (decided (vd_status v) reason anonymous row))
    by (by rewrite get_suggestion_updated, Hget).
  split; [reflexivity|]. split.
  - intros dir voter. rewrite castVote_unfold, handle_vote_guards, Hget'. simpl.
    rewrite Hstatus. by destruct (bool_decide _).
  - intros dir voter Hvoter. rewrite castVote_unfold, handle_vote_guards, Hget'. simpl.
    by rewrite Hguild, Hvoter, bool_decide_refl, Hstatus.
Qed.

Lemma decision_closes_voting_witness :
  let d' := w_db (run (reject (member 1 7 [20]) "k3x9a2bq" None true) db_pending).2 in
  run (castVote Upvote "k3x9a2bq" (member 1 201 [])) d'
  = (Ok tt, {| w_db := d'; w_trace := [Respond VotingClosed] |}).
Proof.
  intros d'.
  apply (decision_closes_voting (member 1 7 [20]) "k3x9a2bq" None true db_pending
           (sample_row "k3x9a2bq" "pending" None 0) reject); try reflexivity.
  by right.
Defined.

(** X19: a decision changes the database in the decided row only, and
    does not record who decided: the votes, the settings and every other
    suggestion are as before, and any two reviewers issuing the same
    command with the same arguments leave the same database. *)
Theorem decision_frame (v : Verdict) (i : Interaction) (suggestion_id : string)
    (reason : option string) (anonymous : bool) (d : DB) (row : SuggestionRow) :
  is_reviewer i d = true ->
  get_suggestion suggestion_id d = Some row ->
  s_guild_id row = i_guild_id i ->
  let d' := w_db (run (decide_command v i suggestion_id reason anonymous) d).2 in
  votes d' = votes d
  /\ suggestion_guild_settings d' = suggestion_guild_settings d
  /\ (forall other, other <> suggestion_id ->
                    get_suggestion other d' = get_suggestion other d)
  /\ (forall i', is_reviewer i' d = true -> i_guild_id i' = i_guild_id i ->
                 w_db (run (decide_command v i' suggestion_id reason anonymous) d).2 = d').
Proof.
  intros Hrev Hget Hguild d'.
  destruct (decide_command_commits v i suggestion_id reason anonymous d row
              Hrev Hget Hguild) as (events & Hrun & _).
  assert (Hd' : d' = update_suggestion_status suggestion_id (vd_status v) reason anonymous d)
    by (unfold d'; by rewrite Hrun).
  clearbody d'. subst d'.
  split; [reflexivity|]. split; [reflexivity|]. split.
  - intros other Hother. unfold get_suggestion, update_suggestion_status. simpl.
    by apply update_other_row.
  - intros i' Hrev' Hguild'.
    destruct (decide_command_commits v i' suggestion_id reason anonymous d row
                Hrev' Hget) as (events' & Hrun' & _); [congruence|].
    by rewrite Hrun'.
Qed.

Lemma decision_frame_witness :
  w_db (run (approve (member 1 7 [20]) "p0m4z7cd" (Some "again") false) db_restart).2
  = w_db (run (approve (member 1 9 [20]) "p0m4z7cd" (Some "again") false) db_restart).2
  /\ get_suggestion "k3x9a2bq"
       (w_db (run (approve (member 1 9 [20]) "p0m4z7cd" (Some "again") false)
                db_restart).2)
     = get_suggestion "k3x9a2bq" db_restart.
Proof.
  destruct (decision_frame approved (member 1 9 [20]) "p0m4z7cd" (Some "again") false
              db_restart (sample_row "p0m4z7cd" "approved" (Some "good idea") 0))
    as (_ & _ & Hother & Hactor); try reflexivity.
  split; [|apply Hother; discriminate].
  apply (Hactor (member 1 7 [20])); reflexivity.
Defined.

Lemma set_results_so_far_found new front f back :
  f_name f = "Results so far:" ->
  Forall (fun g => f_name g <> "Results so far:") front ->
  set_first_field ["Results so far:"] new (front ++ f :: back) = (front ++ new :: back)%list.
Proof.
  intros Hf Hfront. apply set_first_field_found.
  - simpl. by rewrite Hf.
  - induction Hfront as [|g front Hg _ IH]; constructor; [|exact IH].
    simpl. apply String.eqb_neq in Hg. by rewrite Hg.
Qed.

Lemma set_results_so_far_absent new fields :
  Forall (fun g => f_name g <> "Results so far:") fields ->
  set_first_field ["Results so far:"] new fields = fields.
Proof.
  intros Hfields. apply set_first_field_absent.
  induction Hfields as [|g fields Hg _ IH]; constructor; [|exact IH].
  simpl. apply String.eqb_neq in Hg. by rewrite Hg.
Qed.

(** X20: what a decision shows.  When the public message can be fetched,
    the first platform call of [approve] / [reject] is the edit of that
    message.  The embed sent has the colour of the verdict and the title,
    author, footer and image of the embed fetched.  Its fields are those of
    the embed fetched, with the first field named "Results so far:", if
    there is one, replaced in its place by "Results:" holding the counts of
    the vote rows, followed by one new field, named after the verdict, that
    names the reviewer - or no one when the decision is anonymous - and
    gives the reason when there is a non-empty one. *)
Theorem decision_rendering (v : Verdict) (i : Interaction) (suggestion_id : string)
    (reason : option string) (anonymous : bool) (d : DB) (row : SuggestionRow)
    (settings : SettingsRow) (channel : Z) (embed : Embed) (rest : list Embed) :
  is_reviewer i d = true ->
  get_guild_settings (i_guild_id i) d = Some settings ->
  get_suggestion suggestion_id d = Some row ->
  s_guild_id row = i_guild_id i ->
  get_channel i (gs_suggestion_channel_id settings) = Some channel ->
  i_fetch_message i (s_message_id row) = Ok (embed :: rest) ->
  let decision :=
    {| f_name := vd_field v;
       f_value := DecisionText (vd_by v)
                    (if anonymous then None else Some (i_user_id i))
                    (if truthy_text reason then reason else None) |} in
  let results :=
    {| f_name := "Results:";
       f_value := Tally (count_votes "upvote" suggestion_id d)
                        (count_votes "downvote" suggestion_id d) |} in
  exists edited,
    head (w_trace (run (decide_command v i suggestion_id reason anonymous) d).2)
    = Some (MessageEdit (s_message_id row) edited)
    /\ e_color edited = vd_color v
    /\ e_title edited = e_title embed
    /\ e_author edited = e_author embed
    /\ e_footer edited = e_footer embed
    /\ e_image edited = e_image embed
    /\ (forall front f back,
          e_fields embed = (front ++ f :: back)%list ->
          f_name f = "Results so far:" ->
          Forall (fun g => f_name g <> "Results so far:") front ->
          e_fields edited = (front ++ results :: back ++ [decision])%list)
    /\ (Forall (fun g => f_name g <> "Results so far:") (e_fields embed) ->
        e_fields edited = (e_fields embed ++ [decision])%list).
Proof.
  intros Hrev Hsettings Hget Hguild Hchannel Hfetch decision results.
  destruct (is_reviewer_gate i d Hrev) as (settings' & Hsettings' & Hrole & Hgate).
  rewrite Hsettings in Hsettings'. injection Hsettings' as <-.
  assert (Hhead :
    head (w_trace (run (decide_command v i suggestion_id reason anonymous) d).2)
    = Some (MessageEdit (s_message_id row)
              (add_field (f_name decision) (f_value decision)
                 (with_fields
                    (set_first_field ["Results so far:"] results (e_fields embed))
                    (with_color (vd_color v) embed))))).
  { unfold decide_command, run, bind at 1, query at 1. simpl.
    rewrite Hsettings, Hrole. simpl. rewrite Hgate.
    unfold bind at 1, query at 1. simpl.
    rewrite Hget, Hguild, bool_decide_refl. simpl.
    unfold bind at 1, exec at 1. simpl. rewrite Hchannel.
    unfold render_decision, results_field. unfold_monad. rewrite Hfetch. simpl.
    rewrite !get_votes_total by auto.
    change (count_votes ?t suggestion_id (update_suggestion_status _ _ _ _ d))
      with (count_votes t suggestion_id d).
    case_platform; reflexivity. }
  eexists. split; [exact Hhead|]. simpl.
  do 5 (split; [reflexivity|]). split.
  - intros front f back -> Hf Hfront.
    rewrite set_results_so_far_found by assumption.
    by rewrite <- app_assoc.
  - intros Hnone. by rewrite set_results_so_far_absent.
Qed.

Lemma decision_rendering_witness :
  exists edited,
    head (w_trace (run (approve (member 1 7 [20]) "k3x9a2bq" (Some "") true) db_decided).2)
    = Some (MessageEdit 500 edited)
    /\ e_color edited = Green
    /\ e_title edited = "Add a poll command"
    /\ e_fields edited
       = [{| f_name := "Description"; f_value := Text "Polls in one command" |};
          {| f_name := "Pros"; f_value := Text "Quick" |};
          {| f_name := "Cons"; f_value := Text "More buttons" |};
          {| f_name := "Results:"; f_value := Tally 1 0 |};
          {| f_name := "✅ Approved";
             f_value := DecisionText "Approved by: " None None |}].
Proof.
  destruct (decision_rendering approved (member 1 7 [20]) "k3x9a2bq" (Some "") true
              db_decided (sample_row "k3x9a2bq" "approved" (Some "good idea") 0)
              sample_settings 10 sample_embed [])
    as (edited & Hhead & Hcolor & Htitle & _ & _ & _ & Hfound & _); try reflexivity.
  exists edited. split; [exact Hhead|]. split; [exact Hcolor|]. split; [exact Htitle|].
  apply (Hfound [{| f_name := "Description"; f_value := Text "Polls in one command" |};
                 {| f_name := "Pros"; f_value := Text "Quick" |};
                 {| f_name := "Cons"; f_value := Text "More buttons" |}]
           {| f_name := "Results so far:"; f_value := Tally 0 0 |} []).
  - reflexivity.
  - reflexivity.
  - repeat constructor; discriminate.
Defined.

(** ** Restart *)

Lemma pending_ids_updated suggestion_id status reason anonymous d :
  String.eqb status "pending" = false ->
  pending_ids (update_suggestion_status suggestion_id status reason anonymous d)
  = List.filter (fun id => negb (String.eqb id suggestion_id)) (pending_ids d).
Proof.
  intros Hstatus. unfold pending_ids, update_suggestion_status. simpl.
  induction (suggestions d) as [|r rows IH]; simpl; [reflexivity|].
  destruct (String.eqb (s_suggestion_id r) suggestion_id) eqn:Hid; simpl.
  - rewrite Hstatus. destruct (String.eqb (s_status r) "pending"); simpl;
      [by rewrite Hid|]; exact IH.
  - destruct (String.eqb (s_status r) "pending"); simpl; [|exact IH].
    rewrite Hid. simpl. by rewrite IH.
Qed.

(** X21: after a restart a decided suggestion gets no buttons back.  Once
    [approve] or [reject] has gone through, [on_ready] registers the views
    it registered before the decision, in the same order, without the
    decided suggestion. *)
Theorem restart_after_decision (i : Interaction) (suggestion_id : string)
    (reason : option string) (anonymous : bool) (d : DB) (row : SuggestionRow)
    (command : Interaction -> string -> option string -> bool -> M unit) :
  command = approve \/ command = reject ->
  is_reviewer i d = true ->
  get_suggestion suggestion_id d = Some row ->
  s_guild_id row = i_guild_id i ->
  let d' := w_db (run (command i suggestion_id reason anonymous) d).2 in
  w_trace (run (on_ready (Ok tt)) d').2
  = List.map AddView
      (List.filter (fun id => negb (String.eqb id suggestion_id)) (pending_ids d))
  /\ ~ In (AddView suggestion_id) (w_trace (run (on_ready (Ok tt)) d').2).
Proof.
  intros Hcommand Hrev Hget Hguild d'.
  assert (Hv : exists v, command = decide_command v
                         /\ String.eqb (vd_status v) "pending" = false)
    by (destruct Hcommand as [-> | ->]; eexists; split; reflexivity).
  destruct Hv as (v & -> & Hstatus).
  destruct (decide_command_commits v i suggestion_id reason anonymous d row
              Hrev Hget Hguild) as (events & Hrun & _).
  assert (Hd' : d' = update_suggestion_status suggestion_id (vd_status v) reason anonymous d)
    by (unfold d'; by rewrite Hrun).
  clearbody d'. subst d'.
  assert (Htrace : forall x, w_trace (run (on_ready (Ok tt)) x).2
                             = List.map AddView (pending_ids x)).
  { intros x. unfold on_ready, run, bind, fetch, exec, query. simpl.
    by rewrite add_views_run. }
  rewrite Htrace, pending_ids_updated by assumption. split; [reflexivity|].
  intros Hin. apply in_map_iff in Hin as (id & [= ->] & Hin).
  apply filter_In in Hin as [_ Hne]. by rewrite String.eqb_refl in Hne.
Qed.

Lemma restart_after_decision_witness :
  let d' := w_db (run (reject (member 1 7 [20]) "k3x9a2bq" None false) db_restart).2 in
  w_trace (run (on_ready (Ok tt)) db_restart).2 = [AddView "k3x9a2bq"]
  /\ w_trace (run (on_ready (Ok tt)) d').2 = [].
Proof.
  intros d'. split; [reflexivity|].
  destruct (restart_after_decision (member 1 7 [20]) "k3x9a2bq" None false db_restart
              (sample_row "k3x9a2bq" "pending" None 0) reject) as [Htrace _];
    [by right|reflexivity..|].
  fold d' in Htrace. rewrite Htrace. reflexivity.
Defined.

(** X22: after a restart a submitted suggestion has its buttons back.
    Once [on_submit] has stored a suggestion, [on_ready] registers the
    views it registered before and then the view of the new suggestion. *)
Theorem restart_after_submit (i : Interaction) (title description pros cons : string)
    (image_url : option string) (d : DB) (channel message thread : Z) :
  let suggestion_id := generate_suggestion_id (i_rng i) in
  publishes i d channel message thread ->
  get_suggestion suggestion_id d = None ->
  let d' := w_db (run (on_submit i title description pros cons image_url) d).2 in
  w_trace (run (on_ready (Ok tt)) d').2
  = (w_trace (run (on_ready (Ok tt)) d).2 ++ [AddView suggestion_id])%list.
Proof.
  intros suggestion_id (settings & Hs & Ht & Hc & Hp & Hsend & Hthread) Hfree d'.
  assert (Hready : channel_ready i d channel) by (exists settings; auto).
  assert (Hd' : pending_ids d' = (pending_ids d ++ [suggestion_id])%list).
  { unfold d'.
    rewrite (on_submit_ready i title description pros cons image_url d channel Hready).
    rewrite Hsend, Hthread. simpl. fold suggestion_id. clearbody suggestion_id.
    unfold save_suggestion. rewrite Hfree.
    destruct (i_respond i 0%nat) as [[]|e]; unfold pending_ids; simpl;
      by rewrite List.filter_app, map_app. }
  assert (Htrace : forall x, w_trace (run (on_ready (Ok tt)) x).2
                             = List.map AddView (pending_ids x)).
  { intros x. unfold on_ready, run, bind, fetch, exec, query. simpl.
    by rewrite add_views_run. }
  by rewrite !Htrace, Hd', map_app.
Qed.

Lemma restart_after_submit_witness :
  let i := member 1 100 [] in
  let d' := w_db (run (on_submit i "Dark mode" "A dark theme" "Easy on the eyes"
                         "More work" None) db_restart).2 in
  w_trace (run (on_ready (Ok tt)) d').2 = [AddView "k3x9a2bq"; AddView "aaaaaaaa"].
Proof.
  intros i d'. unfold d'.
  rewrite (restart_after_submit i "Dark mode" "A dark theme" "Easy on the eyes"
             "More work" None db_restart 10 501 601).
  - reflexivity.
  - exists sample_settings. repeat split; reflexivity.
  - reflexivity.
Defined.

(** ** Every handler *)

Lemma update_embed_responses suggestion_id i w :
  responses (w_trace (update_embed suggestion_id i w).2) = responses (w_trace w).
Proof.
  unfold update_embed. unfold_monad.
  destruct (get_suggestion suggestion_id (w_db w)); [|reflexivity].
  destruct (i_message_embeds i); [reflexivity|]. simpl.
  destruct (i_message_edit i) as [[]|[]]; simpl;
    rewrite responses_app; simpl; apply app_nil_r.
Qed.

(** A decision that goes through: the update, and one acknowledgment. *)
Lemma decide_command_committed v i suggestion_id reason anonymous d row :
  is_reviewer i d = true ->
  get_suggestion suggestion_id d = Some row ->
  s_guild_id row = i_guild_id i ->
  exists t,
    run (decide_command v i suggestion_id reason anonymous) d
    = (i_respond i 0%nat,
       {| w_db := update_suggestion_status suggestion_id (vd_status v) reason anonymous d;
          w_trace := t |})
    /\ responses t = [vd_reply v suggestion_id].
Proof.
  intros Hrev Hget Hguild.
  destruct (decide_command_commits v i suggestion_id reason anonymous d row
              Hrev Hget Hguild) as (events & -> & Hres).
  eexists. split; [reflexivity|]. by rewrite responses_app, Hres.
Qed.

(** A caller the gate stops. *)
Lemma decide_command_not_reviewer v i suggestion_id reason anonymous d :
  is_reviewer i d = false ->
  exists r, run (decide_command v i suggestion_id reason anonymous) d
            = (i_respond i 0%nat, {| w_db := d; w_trace := [Respond r] |}).
Proof.
  unfold is_reviewer, decide_command. unfold_monad.
  destruct (get_guild_settings (i_guild_id i) d) as [settings|]; [|by eexists].
  destruct (truthy_id (gs_reviewer_role_id settings)); simpl; [|by eexists].
  destruct (get_role i (gs_reviewer_role_id settings)) as [role|]; simpl.
  - destruct (existsb (Z.eqb role) (i_user_roles i)); simpl; [discriminate|].
    intros ->. by eexists.
  - intros ->. by eexists.
Qed.

(** The three ways a decision command ends. *)
Lemma decide_command_cases v i suggestion_id reason anonymous d :
  let outcome := run (decide_command v i suggestion_id reason anonymous) d in
  outcome.1 = i_respond i 0%nat
  /\ (exists r, responses (w_trace outcome.2) = [r])
  /\ (w_db outcome.2 = d
      \/ w_db outcome.2
         = update_suggestion_status suggestion_id (vd_status v) reason anonymous d).
Proof.
  intros outcome. unfold outcome.
  destruct (is_reviewer i d) eqn:Hrev.
  - destruct (get_suggestion suggestion_id d) as [row|] eqn:Hget.
    + destruct (decide (s_guild_id row = i_guild_id i)) as [Hguild|Hguild].
      * destruct (decide_command_committed v i suggestion_id reason anonymous d row
                    Hrev Hget Hguild) as (t & -> & Hres).
        split; [reflexivity|]. split; [by eexists|by right].
      * rewrite decide_command_refused by (intros row' Hrow'; congruence).
        split; [reflexivity|]. split; [by eexists|by left].
    + rewrite decide_command_refused by (intros row' Hrow'; congruence).
      split; [reflexivity|]. split; [by eexists|by left].
  - destruct (decide_command_not_reviewer v i suggestion_id reason anonymous d Hrev)
      as [r ->].
    split; [reflexivity|]. split; [by eexists|by left].
Qed.

(** The acknowledgments of a button press: one, whatever happens. *)
Lemma castVote_responses dir suggestion_id i d :
  exists r, responses (w_trace (run (castVote dir suggestion_id i) d).2) = [r].
Proof.
  destruct (get_suggestion suggestion_id d) as [row|] eqn:Hget.
  - destruct (decide (s_guild_id row = i_guild_id i)) as [Hguild|Hguild].
    + destruct (String.eqb_spec (s_status row) "pending") as [Hstatus|Hstatus].
      * rewrite (castVote_pending dir d suggestion_id i row Hget Hguild Hstatus).
        simpl. destruct (i_respond i 0%nat) as [[]|e]; [|by eexists].
        rewrite update_embed_responses. by eexists.
      * rewrite castVote_unfold, handle_vote_guards, Hget.
        rewrite Hguild, bool_decide_refl. apply String.eqb_neq in Hstatus.
        rewrite Hstatus. by eexists.
    + rewrite castVote_unfold, handle_vote_guards, Hget.
      rewrite bool_decide_eq_false_2 by assumption. by eexists.
  - rewrite castVote_unfold, handle_vote_guards, Hget. by eexists.
Qed.

(** X14: the acknowledgments of the handlers.  Whatever the database and
    the answers of the platform, a button press, [approve], [reject] and
    each of the three configuration commands call
    [interaction.response.send_message] exactly once.  [on_submit] calls it
    once when the first call is delivered; when the first call raises, it
    was either the only one and no success message, or it was "Suggestion
    submitted", sent inside the [try], and the exception is answered by a
    second call carrying the error. *)
Theorem handler_acknowledgments (i : Interaction) (d : DB) :
  let sent (m : M unit) := responses (w_trace (run m d).2) in
  (forall dir suggestion_id, exists r, sent (castVote dir suggestion_id i) = [r])
  /\ (forall suggestion_id reason anonymous,
        exists r, sent (approve i suggestion_id reason anonymous) = [r])
  /\ (forall suggestion_id reason anonymous,
        exists r, sent (reject i suggestion_id reason anonymous) = [r])
  /\ (forall channel, exists r, sent (setchannel i channel) = [r])
  /\ (forall role, exists r, sent (setreviewerrole i role) = [r])
  /\ (forall role, exists r, sent (setblockedrole i role) = [r])
  /\ (forall title description pros cons image_url,
        match i_respond i 0%nat with
        | Ok _ =>
            exists r, sent (on_submit i title description pros cons image_url) = [r]
        | Raised e =>
            (exists r, sent (on_submit i title description pros cons image_url) = [r]
                       /\ r <> SuggestionSubmitted)
            \/ sent (on_submit i title description pros cons image_url)
               = [SuggestionSubmitted; submit_error e]
        end).
Proof.
  intros sent. unfold sent.
  split; [intros; apply castVote_responses|].
  split; [intros; apply decide_command_cases|].
  split; [intros; apply decide_command_cases|].
  split; [intros; unfold setchannel; destruct (i_guild_id i); by eexists|].
  split; [intros; unfold setreviewerrole; destruct (i_guild_id i); by eexists|].
  split; [intros; unfold setblockedrole; destruct (i_guild_id i); by eexists|].
  intros title description pros cons image_url.
  destruct (channel_ready_dec i d) as [[channel Hready]|Hnot].
  - rewrite (on_submit_ready i title description pros cons image_url d channel Hready).
    destruct (i_channel_send i) as [message|e1]; simpl.
    + destruct (i_create_thread i) as [thread|e2]; simpl.
      * destruct (save_suggestion _ _ _ _ _ _ _ _ _ _ _ d) as [[[]|e3] d'].
        -- destruct (i_respond i 0%nat) as [[]|e]; simpl; [by eexists|by right].
        -- destruct (i_respond i 0%nat) as [[]|e]; simpl; [by eexists|].
           left. eexists. split; [reflexivity|apply submit_error_not_success].
      * destruct (i_respond i 0%nat) as [[]|e]; simpl; [by eexists|].
        left. eexists. split; [reflexivity|apply submit_error_not_success].
    + destruct (i_respond i 0%nat) as [[]|e]; simpl; [by eexists|].
      left. eexists. split; [reflexivity|apply submit_error_not_success].
  - destruct (on_submit_not_ready i title description pros cons image_url d Hnot)
      as (r & -> & Hr).
    destruct (i_respond i 0%nat) as [[]|e]; simpl; [by eexists|].
    left. by exists r.
Qed.

(** The two acknowledgments of a submission whose success message cannot
    be delivered. *)
Lemma on_submit_two_acknowledgments :
  responses
    (w_trace (run (on_submit (member_no_ack 1 100 []) "Dark mode" "A dark theme"
                     "Easy on the eyes" "More work" None) db_pending).2)
  = [SuggestionSubmitted; ErrorCreating NotFound].
Proof. reflexivity. Qed.

Lemma interaction_handler_writes m : interaction_handler m -> writes_only m.
Proof.
  intros [| | | | i x | i x | i x].
  - apply writes_only_on_submit.
  - apply writes_only_castVote.
  - apply writes_only_decide_command.
  - apply writes_only_decide_command.
  - apply (writes_only_settings_commands i x).
  - apply (writes_only_settings_commands i x).
  - apply (writes_only_settings_commands i x).
Qed.

Lemma reaches_pk d d' :
  reaches d d' ->
  votes_pk d /\ suggestions_pk d /\ settings_pk d ->
  votes_pk d' /\ suggestions_pk d' /\ settings_pk d'.
Proof.
  induction 1 as [|d' op _ IH]; [auto|].
  intros Hd. destruct (IH Hd) as (Hv & Hs & Hg).
  split; [by apply votes_pk_op|]. split; [by apply suggestions_pk_op|].
  by apply settings_pk_op.
Qed.

(** X23: serving an interaction, or starting up, keeps the primary keys.
    From any database with one row per suggestion identifier, per
    (suggestion, voter) pair and per guild - such as an existing database
    file - every handler ends in a database with the same three
    properties. *)
Theorem handlers_keep_primary_keys (m : M unit) (d : DB) :
  interaction_handler m \/ (exists game_db, m = on_ready game_db) ->
  votes_pk d -> suggestions_pk d -> settings_pk d ->
  let d' := w_db (run m d).2 in
  votes_pk d' /\ suggestions_pk d' /\ settings_pk d'.
Proof.
  intros Hm Hv Hs Hg d'. apply (reaches_pk d); [|auto].
  assert (Hwrites : writes_only m).
  { destruct Hm as [Hm|[game_db ->]];
      [by apply interaction_handler_writes|apply writes_only_on_ready]. }
  apply (Hwrites {| w_db := d; w_trace := [] |}).
Qed.

Lemma handlers_keep_primary_keys_witness :
  votes_pk (w_db (run (castVote Upvote "k3x9a2bq" (member 1 200 [])) db_decided).2).
Proof.
  apply (handlers_keep_primary_keys (castVote Upvote "k3x9a2bq" (member 1 200 []))
           db_decided).
  - left. constructor.
  - apply NoDup_singleton.
  - apply NoDup_singleton.
  - apply NoDup_singleton.
Defined.

Lemma toggled_button_votes dir suggestion_id user_id d :
  button_votes d -> button_votes (toggled dir suggestion_id user_id d).2.
Proof.
  unfold button_votes. intros Hd.
  assert (Hrow : v_vote_type (vote_row dir suggestion_id user_id) = "upvote"
                 \/ v_vote_type (vote_row dir suggestion_id user_id) = "downvote")
    by (destruct dir; simpl; auto).
  assert (Hothers : Forall (fun r => v_vote_type r = "upvote" \/ v_vote_type r = "downvote")
                      (other_votes suggestion_id user_id d)).
  { unfold other_votes. rewrite Forall_forall in Hd |- *.
    intros r Hr. apply Hd. apply list_elem_of_In in Hr. apply list_elem_of_In.
    by apply filter_In in Hr as [Hr _]. }
  unfold toggled. destruct (get_user_vote suggestion_id user_id d) as [t|]; simpl.
  - destruct (String.eqb t (vote_name dir)); simpl; [assumption|].
    destruct (String.eqb t (vote_name (opposite dir))); simpl; [|assumption].
    apply Forall_app. split; [assumption|]. by constructor.
  - apply Forall_app. split; [assumption|]. by constructor.
Qed.

Lemma on_submit_votes i title description pros cons image_url d :
  votes (w_db (run (on_submit i title description pros cons image_url) d).2) = votes d.
Proof.
  destruct (channel_ready_dec i d) as [[channel Hready]|Hnot].
  - rewrite (on_submit_ready i title description pros cons image_url d channel Hready).
    destruct (i_channel_send i); simpl; [|reflexivity].
    destruct (i_create_thread i); simpl; [|reflexivity].
    unfold save_suggestion.
    by destruct (get_suggestion _ d), (i_respond i 0%nat) as [[]|e].
  - by destruct (on_submit_not_ready i title description pros cons image_url d Hnot)
      as (r & -> & _).
Qed.

Lemma on_ready_db game_db d : w_db (run (on_ready game_db) d).2 = d.
Proof.
  destruct game_db as [[]|e]; unfold on_ready, run, bind, fetch, exec, query; simpl;
    [|reflexivity].
  by rewrite add_views_run.
Qed.

(** X24: the handlers store no vote type but ['upvote'] and ['downvote']:
    from a database whose vote rows all have one of the two types, every
    handler ends in such a database - so that the tally of X7 accounts for
    every vote row. *)
Theorem handlers_store_button_votes (m : M unit) (d : DB) :
  interaction_handler m \/ (exists game_db, m = on_ready game_db) ->
  button_votes d ->
  button_votes (w_db (run m d).2).
Proof.
  intros [[i title description pros cons image_url | dir suggestion_id i
          | i suggestion_id reason anonymous | i suggestion_id reason anonymous
          | i channel | i role | i role] | [game_db ->]] Hd.
  - unfold button_votes. by rewrite on_submit_votes.
  - destruct (castVote_db dir d suggestion_id i) as [-> | (row & _ & _ & _ & ->)];
      [assumption|by apply toggled_button_votes].
  - destruct (decide_command_cases approved i suggestion_id reason anonymous d)
      as (_ & _ & [Hdb|Hdb]); unfold approve; by rewrite Hdb.
  - destruct (decide_command_cases rejected i suggestion_id reason anonymous d)
      as (_ & _ & [Hdb|Hdb]); unfold reject; by rewrite Hdb.
  - unfold setchannel. by destruct (i_guild_id i).
  - unfold setreviewerrole. by destruct (i_guild_id i).
  - unfold setblockedrole. by destruct (i_guild_id i).
  - by rewrite on_ready_db.
Qed.

Lemma handlers_store_button_votes_witness :
  button_votes (w_db (run (castVote Downvote "k3x9a2bq" (member 1 201 [])) db_pending).2).
Proof.
  apply (handlers_store_button_votes (castVote Downvote "k3x9a2bq" (member 1 201 []))
           db_pending).
  - left. constructor.
  - constructor.
Defined.

(** ** The [suggest] command and the configuration *)

Lemma existsb_Zeqb_In (x : Z) (l : list Z) : existsb (Z.eqb x) l = true <-> In x l.
Proof.
  rewrite existsb_exists. split.
  - intros (y & Hin & Heq). apply Z.eqb_eq in Heq. by subst.
  - intros Hin. exists x. split; [assumption|apply Z.eqb_refl].
Qed.

Lemma existsb_Zeqb_not_In (x : Z) (l : list Z) : ~ In x l -> existsb (Z.eqb x) l = false.
Proof.
  intros Hnot. destruct (existsb (Z.eqb x) l) eqn:Hex; [|reflexivity].
  by apply existsb_Zeqb_In in Hex.
Qed.

(** X25: [suggest] refuses a member who holds the guild's blocked role,
    whatever is attached.  Anyone else - no blocked role configured, the
    role deleted from the guild, or not held - gets the modal: without
    attachment, or carrying the URL of an attachment whose content type
    starts with [image/]; an attachment of another type is refused as not
    an image, and one without content type makes the command raise. *)
Theorem suggest_outcomes (i : Interaction) (image : option Attachment) (d : DB) :
  (forall settings role,
     get_guild_settings (i_guild_id i) d = Some settings ->
     gs_blocked_role_id settings = Some role ->
     role <> 0 ->
     In role (i_guild_roles i) ->
     In role (i_user_roles i) ->
     suggest i image d = NotAllowed)
  /\ ((forall settings role,
         get_guild_settings (i_guild_id i) d = Some settings ->
         gs_blocked_role_id settings = Some role ->
         In role (i_guild_roles i) ->
         ~ In role (i_user_roles i)) ->
      suggest i image d
      = match image with
        | None => SendModal None
        | Some image =>
            match content_type image with
            | None => AttributeError
            | Some t => if String.prefix "image/" t
                        then SendModal (Some (url image))
                        else InvalidImage
            end
        end).
Proof.
  split.
  - intros settings role Hsettings Hblocked Hrole Hguild Hholds.
    unfold suggest, get_role. rewrite Hsettings, Hblocked. simpl.
    apply Z.eqb_neq in Hrole. rewrite Hrole. simpl.
    apply existsb_Zeqb_In in Hguild, Hholds. by rewrite Hguild, Hholds.
  - intros Hfree. unfold suggest, get_role.
    destruct (get_guild_settings (i_guild_id i) d) as [settings|] eqn:Hsettings.
    + destruct (gs_blocked_role_id settings) as [role|] eqn:Hblocked; simpl.
      * destruct (existsb (Z.eqb role) (i_guild_roles i)) eqn:Hguild.
        -- apply existsb_Zeqb_In in Hguild.
           rewrite (existsb_Zeqb_not_In role (i_user_roles i))
             by (by apply (Hfree settings role)).
           rewrite andb_false_r.
           destruct image as [[[t|] u]|]; simpl; try reflexivity.
           by destruct (String.prefix "image/" t).
        -- rewrite andb_false_r.
           destruct image as [[[t|] u]|]; simpl; try reflexivity.
           by destruct (String.prefix "image/" t).
      * destruct image as [[[t|] u]|]; simpl; try reflexivity.
        by destruct (String.prefix "image/" t).
    + destruct image as [[[t|] u]|]; simpl; try reflexivity.
      by destruct (String.prefix "image/" t).
Qed.

Lemma suggest_outcomes_witness :
  let blocked := set_blocked_role 1 30 db_pending in
  let holder :=
    {| i_guild_id := Some 1; i_user_id := 300; i_user_roles := [30];
       i_administrator := false; i_guild_roles := [20; 30]; i_guild_channels := [10];
       i_bot_perms := required_perms; i_rng := fun _ => 0%nat;
       i_now := "2024-05-02T10:00:00+00:00"; i_channel_send := Ok 502;
       i_create_thread := Ok 602; i_message_id := 0; i_message_embeds := [];
       i_message_edit := Ok tt; i_fetch_message := fun _ => Raised NotFound;
       i_fetch_channel := fun _ => Raised NotFound; i_thread_edit := Ok tt;
       i_respond := fun _ => Ok tt |} in
  suggest holder None blocked = NotAllowed
  /\ suggest (member 1 100 [])
       (Some {| content_type := Some "image/png"; url := "https://cdn.example/a.png" |})
       blocked
     = SendModal (Some "https://cdn.example/a.png")
  /\ suggest (member 1 100 [])
       (Some {| content_type := Some "text/plain"; url := "https://cdn.example/a.txt" |})
       blocked
     = InvalidImage.
Proof.
  intros blocked holder. split; [|split].
  - apply (suggest_outcomes holder None blocked) with
      {| gs_guild_id := 1; gs_suggestion_channel_id := Some 10;
         gs_reviewer_role_id := Some 20; gs_blocked_role_id := Some 30 |} 30;
      try reflexivity; try discriminate; simpl; auto.
  - destruct (suggest_outcomes (member 1 100 [])
                (Some {| content_type := Some "image/png";
                         url := "https://cdn.example/a.png" |}) blocked) as [_ Hfree].
    rewrite Hfree; [reflexivity|]. intros settings role _ _ _ [].
  - destruct (suggest_outcomes (member 1 100 [])
                (Some {| content_type := Some "text/plain";
                         url := "https://cdn.example/a.txt" |}) blocked) as [_ Hfree].
    rewrite Hfree; [reflexivity|]. intros settings role _ _ _ [].
Defined.

(** X27: the configuration commands take effect in their guild.  After
    [setreviewerrole] a holder of the role passes the gate of [approve] and
    [reject]; after [setblockedrole] a holder of the role is refused by
    [suggest]; after [setchannel], [on_submit] passes its checks when the
    channel exists and the bot has its permissions there. *)
Theorem configuration_takes_effect (admin j : Interaction) (guild value : Z) (d : DB) :
  i_guild_id admin = Some guild ->
  i_guild_id j = Some guild ->
  value <> 0 ->
  (In value (i_guild_roles j) -> In value (i_user_roles j) ->
   is_reviewer j (w_db (run (setreviewerrole admin value) d).2) = true)
  /\ (In value (i_guild_roles j) -> In value (i_user_roles j) ->
      forall image, suggest j image (w_db (run (setblockedrole admin value) d).2)
                    = NotAllowed)
  /\ (In value (i_guild_channels j) ->
      check_missing_permissions (i_bot_perms j) required_perms = [] ->
      channel_ready j (w_db (run (setchannel admin value) d).2) value).
Proof.
  intros Hadmin Hj Hvalue.
  pose proof Hvalue as Hnz. apply Z.eqb_neq in Hnz.
  unfold setreviewerrole, setblockedrole, setchannel. rewrite Hadmin. unfold_monad.
  split; [|split].
  - intros Hguild Hholds. unfold is_reviewer, get_guild_settings. rewrite Hj.
    unfold set_reviewer_role. simpl. rewrite upsert_found by reflexivity.
    apply existsb_Zeqb_In in Hguild, Hholds.
    destruct (List.find _ (suggestion_guild_settings d)); simpl;
      unfold get_role; by rewrite Hnz, Hguild, Hholds.
  - intros Hguild Hholds image. unfold suggest, get_guild_settings. rewrite Hj.
    unfold set_blocked_role. simpl. rewrite upsert_found by reflexivity.
    apply existsb_Zeqb_In in Hguild, Hholds.
    destruct (List.find _ (suggestion_guild_settings d)); simpl;
      unfold get_role; by rewrite Hnz, Hguild, Hholds.
  - intros Hchannel Hperms. unfold channel_ready, get_guild_settings. rewrite Hj.
    unfold set_suggestion_channel. simpl. rewrite upsert_found by reflexivity.
    apply existsb_Zeqb_In in Hchannel.
    eexists. split; [reflexivity|].
    destruct (List.find _ (suggestion_guild_settings d)); simpl;
      unfold get_channel; by rewrite Hnz, Hchannel.
Qed.

Lemma configuration_takes_effect_witness :
  is_reviewer (member 1 7 [20])
    (w_db (run (setreviewerrole (member 1 1 []) 20) empty_db).2) = true
  /\ channel_ready (member 1 100 [])
       (w_db (run (setchannel (member 1 1 []) 10) empty_db).2) 10.
Proof.
  destruct (configuration_takes_effect (member 1 1 []) (member 1 7 [20]) 1 20 empty_db)
    as (Hreviewer & _ & _); [reflexivity|reflexivity|discriminate|].
  split; [apply Hreviewer; simpl; auto|].
  apply (configuration_takes_effect (member 1 1 []) (member 1 100 []) 1 10 empty_db);
    try reflexivity; try discriminate. simpl. auto.
Defined.

(** ** The dice *)

Lemma randint_range (a b : Z) (r : nat) :
  a <= b -> exists x, randint a b r = Some x /\ a <= x <= b.
Proof.
  intros Hab. unfold randint. destruct (Z.leb_spec a b) as [_|Hlt]; [|lia].
  eexists. split; [reflexivity|].
  pose proof (Z.mod_pos_bound (Z.of_nat r) (b - a + 1)). lia.
Qed.

Lemma roll_sum_range (rng : nat -> nat) (faces : Z) (first n : nat) :
  1 <= faces ->
  exists total, roll_sum rng faces first n = Some total
                /\ Z.of_nat n <= total <= Z.of_nat n * faces.
Proof.
  intros Hfaces. revert first. induction n as [|n IH]; intros first.
  - exists 0. simpl. split; [reflexivity|lia].
  - cbn [roll_sum].
    destruct (randint_range 1 faces (rng first) Hfaces) as (die & -> & Hdie).
    destruct (IH (S first)) as (rest & -> & Hrest).
    exists (die + rest). split; [reflexivity|]. nia.
Qed.

(** X26: [roll_dice_range] with [min_d <= max_d] and at least one face
    returns a number of dice between [min_d] and [max_d] and a total
    between that number and that number times the faces - 0 when the number
    of dice is not positive; with [min_d > max_d] it raises. *)
Theorem roll_dice_range_bounds (rng : nat -> nat) (min_d max_d faces : Z) :
  (min_d <= max_d -> 1 <= faces ->
   exists total n,
     roll_dice_range rng min_d max_d faces = Some (total, n)
     /\ min_d <= n <= max_d
     /\ (0 <= n -> n <= total <= n * faces)
     /\ (n <= 0 -> total = 0))
  /\ (max_d < min_d -> roll_dice_range rng min_d max_d faces = None).
Proof.
  split.
  - intros Hrange Hfaces. unfold roll_dice_range.
    destruct (randint_range min_d max_d (rng 0%nat) Hrange) as (n & -> & Hn).
    destruct (roll_sum_range rng faces 1 (Z.to_nat n) Hfaces) as (total & Htotal & Hbounds).
    rewrite Htotal. exists total, n. split; [reflexivity|]. split; [assumption|].
    split.
    + intros Hpos. rewrite Z2Nat.id in Hbounds by assumption. assumption.
    + intros Hneg. assert (Z.to_nat n = 0%nat) as Hzero by lia.
      rewrite Hzero in Hbounds. lia.
  - intros Hempty. unfold roll_dice_range, randint.
    destruct (Z.leb_spec min_d max_d); [lia|reflexivity].
Qed.

Lemma roll_dice_range_bounds_witness :
  exists total n,
    roll_dice_range (fun k => (7 * k + 3)%nat) 2 4 6 = Some (total, n)
    /\ 2 <= n <= 4 /\ (0 <= n -> n <= total <= n * 6).
Proof.
  destruct (roll_dice_range_bounds (fun k => (7 * k + 3)%nat) 2 4 6)
    as [Hok _].
  destruct Hok as (total & n & Hroll & Hn & Htotal & _); [lia|lia|].
  exists total, n. auto.
Defined.

(** ** The checks of a submission *)

Lemma existsb_eqb_In (x : string) (l : list string) :
  existsb (String.eqb x) l = true <-> In x l.
Proof.
  rewrite existsb_exists. split.
  - intros (y & Hin & Heq). apply String.eqb_eq in Heq. by subst.
  - intros Hin. exists x. split; [assumption|apply String.eqb_refl].
Qed.

Lemma check_missing_permissions_spec bot_perms required p :
  In p (check_missing_permissions bot_perms required)
  <-> In p required /\ ~ In p bot_perms.
Proof.
  unfold check_missing_permissions. rewrite filter_In, negb_true_iff.
  split; intros [Hreq Hheld]; (split; [assumption|]).
  - intros Hin. apply existsb_eqb_In in Hin. congruence.
  - destruct (existsb (String.eqb p) bot_perms) eqn:Hex; [|reflexivity].
    by apply existsb_eqb_In in Hex.
Qed.

(** X28: the two later checks of [on_submit].  With a destination channel
    configured: when the channel is not among the guild's channels the
    answer is "Suggestion channel not found"; when it is, and the bot lacks
    at least one of the four permissions it needs there, the answer lists
    the missing ones - exactly the required permissions the bot does not
    hold.  In both cases that answer is all that happens: nothing is
    published and nothing is stored, and the handler returns or raises as
    the answer does. *)
Theorem submit_failed_checks (i : Interaction) (title description pros cons : string)
    (image_url : option string) (d : DB) (settings : SettingsRow) :
  get_guild_settings (i_guild_id i) d = Some settings ->
  truthy_id (gs_suggestion_channel_id settings) = true ->
  (get_channel i (gs_suggestion_channel_id settings) = None ->
   run (on_submit i title description pros cons image_url) d
   = (i_respond i 0%nat, {| w_db := d; w_trace := [Respond ChannelNotFound] |}))
  /\ (forall channel p,
        get_channel i (gs_suggestion_channel_id settings) = Some channel ->
        In p required_perms -> ~ In p (i_bot_perms i) ->
        exists missing,
          run (on_submit i title description pros cons image_url) d
          = (i_respond i 0%nat,
             {| w_db := d; w_trace := [Respond (MissingPermissions missing)] |})
          /\ forall q, In q missing <-> In q required_perms /\ ~ In q (i_bot_perms i)).
Proof.
  intros Hsettings Htruthy. split.
  - intros Hchannel. unfold on_submit. unfold_monad.
    by rewrite Hsettings, Htruthy, Hchannel.
  - intros channel p Hchannel Hreq Hheld.
    exists (check_missing_permissions (i_bot_perms i) required_perms).
    split; [|intros q; apply check_missing_permissions_spec].
    assert (Hin : In p (check_missing_permissions (i_bot_perms i) required_perms))
      by (by apply check_missing_permissions_spec).
    unfold on_submit. unfold_monad. rewrite Hsettings, Htruthy, Hchannel. simpl.
    by destruct (check_missing_permissions (i_bot_perms i) required_perms).
Qed.

Lemma submit_failed_checks_witness :
  let i :=
    {| i_guild_id := Some 1; i_user_id := 100; i_user_roles := [];
       i_administrator := false; i_guild_roles := [20]; i_guild_channels := [10];
       i_bot_perms := ["send_messages"; "embed_links"]; i_rng := fun _ => 0%nat;
       i_now := "2024-05-02T10:00:00+00:00"; i_channel_send := Ok 502;
       i_create_thread := Ok 602; i_message_id := 0; i_message_embeds := [];
       i_message_edit := Ok tt; i_fetch_message := fun _ => Raised NotFound;
       i_fetch_channel := fun _ => Raised NotFound; i_thread_edit := Ok tt;
       i_respond := fun _ => Ok tt |} in
  exists missing,
    run (on_submit i "Dark mode" "A dark theme" "Easy on the eyes" "More work" None)
      db_pending
    = (Ok tt, {| w_db := db_pending; w_trace := [Respond (MissingPermissions missing)] |})
    /\ In "create_public_threads" missing.
Proof.
  intros i.
  destruct (submit_failed_checks i "Dark mode" "A dark theme" "Easy on the eyes"
              "More work" None db_pending sample_settings) as [_ Hmissing];
    [reflexivity..|].
  destruct (Hmissing 10 "create_public_threads") as (missing & Hrun & Hspec).
  - reflexivity.
  - simpl. auto.
  - simpl. intros [H|[H|[]]]; discriminate.
  - exists missing. split; [exact Hrun|]. apply Hspec. split.
    + simpl. auto.
    + simpl. intros [H|[H|[]]]; discriminate.
Defined.
